(** * trVAE: the MMD engine, the composite-loss partitioning, the training
      loops and the persistence of the three model classes

    Shallow embedding of

    - [rcvae/models/_rae.py]          (class [RCVAE], Keras),
    - [rcvae/models/_rccvae.py]       (class [RCCVAE], Keras),
    - [rcvae/models/_rcvae_multi_tf.py] (class [RCVAEMultiTF], graph mode).

    Conventions of the embedding.

    - A float is idealised as a real number or NaN: [fl := option R], with
      [None] standing for NaN.  Rounding, overflow and the infinities are
      not modelled; the only infinity the code can produce on real inputs
      (a division of a non-zero number by a zero scale in the [raphy]
      kernel) is consumed on the spot by [exp], and is written out there.
      Every operation propagates NaN, which is the option monad.
    - A rank-2 tensor keeps its static width, so that the empty tensor of
      shape [0, d] still knows [d].  Every row is meant to have that width
      ([wf]); both operands of a kernel are meant to have the same width
      (they are slices of one activation tensor).
    - A Python exception is the [Raises] branch of [outcome].
    - The losses that drive the control flow of the graph-mode training
      loop are only added, divided by a count, subtracted and compared;
      they are carried as rationals so that the loop runs inside Rocq.  The
      networks themselves (forward pass, optimiser step) are parameters of
      the sections that need them. *)

From Stdlib Require Import Reals Lra Lia List ZArith QArith Ascii String.
From stdpp Require Import base option list gmap strings.
Import ListNotations.

(** ** Python exceptions *)

Module Py.

Inductive exn : Type :=
| Exception (msg : string)      (* raise Exception("...") *)
| TypeError                     (* an operation applied to Python's None *)
| ValueError                    (* range() with a zero step, bad unpacking *)
| IndexError                    (* list index out of range *)
| ZeroDivisionError             (* int / 0 *)
| OSError                       (* a file that does not exist *)
| NotFoundError                 (* a checkpoint that does not exist *)
| InvalidArgumentError.         (* the graph runtime rejects an operand *)

Inductive outcome (A : Type) : Type :=
| Returns (a : A)
| Raises (e : exn).
Arguments Returns {A} a.
Arguments Raises {A} e.

Definition bind {A B : Type} (m : outcome A) (k : A -> outcome B) : outcome B :=
  match m with
  | Returns a => k a
  | Raises e => Raises e
  end.

(** Methods that read and write the instance and the file system: a
    state monad over a world [W] in which a raised exception keeps the
    world as it was when it was raised. *)
Definition M (W A : Type) : Type := W -> outcome A * W.

Definition ret {W A : Type} (a : A) : M W A := fun w => (Returns a, w).

Definition raise {W A : Type} (e : exn) : M W A := fun w => (Raises e, w).

Definition mbind {W A B : Type} (m : M W A) (k : A -> M W B) : M W B :=
  fun w =>
    match m w with
    | (Returns a, w') => k a w'
    | (Raises e, w') => (Raises e, w')
    end.

Definition get {W : Type} : M W W := fun w => (Returns w, w).

Definition modify {W : Type} (f : W -> W) : M W unit :=
  fun w => (Returns tt, f w).

Definition lift {W A : Type} (o : outcome A) : M W A := fun w => (o, w).

(** A [for] loop whose body threads the loop's locals [S]. *)
Fixpoint for_each {W A S : Type} (l : list A) (body : A -> S -> M W S) (s : S)
  : M W S :=
  match l with
  | [] => ret s
  | a :: l' => mbind (body a s) (for_each l' body)
  end.

(** [range(0, n, step)] for a positive [step], and [l[lower:upper]]. *)
Definition range_step (n step : nat) : list nat :=
  map (fun k => k * step)%nat (seq 0 ((n + step - 1) / step)).

Definition slice {A : Type} (l : list A) (lower upper : nat) : list A :=
  take (upper - lower) (drop lower l).

(** [o is None]. *)
Definition is_None {A : Type} (o : option A) : bool :=
  match o with
  | None => true
  | Some _ => false
  end.

(** [os.path.join(a, b)] for a relative [b]. *)
Definition ends_with_slash (a : string) : bool :=
  match rev (list_ascii_of_string a) with
  | c :: _ => Ascii.eqb c "/"%char
  | [] => false
  end.

Definition os_path_join (a b : string) : string :=
  if String.eqb a "" then b
  else if ends_with_slash a then (a +:+ b)
  else (a +:+ "/" +:+ b).

End Py.

Notation "'do!' x <- m ; k" := (Py.bind m (fun x => k))
  (at level 10, x name, m at level 100, k at level 200).

Notation "'run!' x <- m ; k" := (Py.mbind m (fun x => k))
  (at level 10, x name, m at level 100, k at level 200).

Notation "'exec!' m ; k" := (Py.mbind m (fun _ => k))
  (at level 10, m at level 100, k at level 200).

(** ** Floats: a real number or NaN *)

Module Fl.

Definition fl : Type := option R.

Definition NaN : fl := None.

Definition add (a b : fl) : fl := x ← a; y ← b; Some (x + y)%R.
Definition sub (a b : fl) : fl := x ← a; y ← b; Some (x - y)%R.
Definition mul (a b : fl) : fl := x ← a; y ← b; Some (x * y)%R.

(** The values of a tensor, provided none of them is NaN. *)
Definition reals (l : list fl) : option (list R) :=
  mapM (fun v : fl => (v : option R)) l.

End Fl.

(** ** The tensor operations the models use ([keras.backend] and [tf]) *)

Module Backend.

Import Fl.
Local Open Scope R_scope.

(** A tensor of shape [[shape0, shape1]]. *)
Record tensor2 : Type := Tensor2 { shape1 : nat; data : list (list R) }.

Definition shape0 (t : tensor2) : nat := length (data t).

Definition wf (t : tensor2) : Prop :=
  Forall (fun r => length r = shape1 t) (data t).

(** [K.sum] / [tf.reduce_sum] along one axis. *)
Definition reduce_sum (l : list R) : R := foldr Rplus 0 l.

(** [K.mean] / [tf.reduce_mean] along one axis: the sum divided by the
    number of elements, and NaN (0/0) when there is none. *)
Definition reduce_mean (l : list R) : fl :=
  match l with
  | [] => NaN
  | _ :: _ => Some (reduce_sum l / INR (length l))
  end.

(** [K.mean(m)] / [tf.reduce_mean(m)] without an axis: over all the
    entries of the matrix.  A NaN entry makes the mean NaN. *)
Definition mean (m : list (list fl)) : fl :=
  xs ← reals (concat m); reduce_mean xs.

Definition square (v : R) : R := v * v.

(** [tile(reshape(x, [x_size, 1, dim]), [1, y_size, 1])]: entry [i][j] is
    row [i] of [x]. *)
Definition tile_x (x : list (list R)) (y_size : nat) : list (list (list R)) :=
  map (fun xi => replicate y_size xi) x.

(** [tile(reshape(y, [1, y_size, dim]), [x_size, 1, 1])]: entry [i][j] is
    row [j] of [y]. *)
Definition tile_y (y : list (list R)) (x_size : nat) : list (list (list R)) :=
  replicate x_size y.

(** Element-wise difference of two rank-3 tensors of one shape. *)
Definition sub3 (a b : list (list (list R))) : list (list (list R)) :=
  zip_with (zip_with (zip_with Rminus)) a b.

(** [r - y] for [r] of shape [bx, 1, d] and [y] of shape [by, d], by
    broadcasting: entry [i][j] is row [i] of [x] minus row [j] of [y]. *)
Definition broadcast_sub (x y : list (list R)) : list (list (list R)) :=
  map (fun xi => map (fun yj => zip_with Rminus xi yj) y) x.

(** Sum of two vectors of one length. *)
Definition vadd (a b : list R) : list R := zip_with Rplus a b.

(** [K.dot(a, b)] / [tf.matmul(a, b)] for [a] of shape [m, k] and [b] of
    shape [k, n]: row [i] of the product is the combination of the rows of
    [b] with the coefficients of row [i] of [a]. *)
Definition dot (n : nat) (a b : list (list R)) : list (list R) :=
  map (fun arow =>
         foldr vadd (replicate n 0)
               (zip_with (fun c brow => map (Rmult c) brow) arow b)) a.

(** [tf.reduce_sum(m, 0)] of a matrix with [n] columns. *)
Definition reduce_sum_axis0 (n : nat) (m : list (list R)) : list R :=
  foldr vadd (replicate n 0) m.

(** [reshape(v, [r, c])] of a vector with [r * c] elements. *)
Fixpoint reshape (r c : nat) (v : list R) : list (list R) :=
  match r with
  | O => []
  | S r' => take c v :: reshape r' c (drop c v)
  end.

(** [tf.dynamic_partition(data, partitions, num_partitions)]: output [i]
    holds, in order, the rows whose partition index is [i].  The runtime
    rejects an index outside [0, num_partitions) and an index vector whose
    length is not the number of rows. *)
Definition rows_of (d : list (list R)) (partitions : list Z) (i : nat)
  : list (list R) :=
  map fst
      (List.filter (fun rp => Z.eqb (snd rp) (Z.of_nat i)) (zip d partitions)).

Definition in_range (num_partitions : nat) (p : Z) : bool :=
  (0 <=? p)%Z && (p <? Z.of_nat num_partitions)%Z.

Definition dynamic_partition (t : tensor2) (partitions : list Z)
    (num_partitions : nat) : Py.outcome (list tensor2) :=
  if negb (length partitions =? shape0 t)%nat then
    Py.Raises Py.InvalidArgumentError
  else if negb (forallb (in_range num_partitions) partitions) then
    Py.Raises Py.InvalidArgumentError
  else
    Py.Returns
      (map (fun i => Tensor2 (shape1 t) (rows_of (data t) partitions i))
           (seq 0 num_partitions)).

(** [K.exp(-d / p)] for a squared distance [d] (a sum of squares, never
    negative) and a squared scale [p].  For [p = 0] the quotient is 0/0,
    NaN, when [d = 0], and minus infinity otherwise, whose exponential
    is 0. *)
Definition exp_neg_div (d p : R) : fl :=
  if Req_dec_T p 0 then
    if Req_dec_T d 0 then NaN else Some 0
  else Some (exp (- d / p)).

(** [K.sum(t, 0)] of a tensor of shape [S, bx, by] whose slabs are the
    elements of [t]; [zero] is the result for [S = 0]. *)
Definition sum_axis0 (zero : list (list fl)) (t : list (list (list fl)))
  : list (list fl) :=
  foldr (zip_with (zip_with add)) zero t.

(** [K.reshape(t, (-1, c))]: the same values in rows of width [c]; the
    number of values must be a multiple of [c]. *)
Definition reshape_rows (t : tensor2) (c : nat) : Py.outcome tensor2 :=
  let flat := concat (data t) in
  if (c =? 0)%nat then Py.Raises Py.InvalidArgumentError
  else if negb (length flat mod c =? 0)%nat then
    Py.Raises Py.InvalidArgumentError
  else Py.Returns (Tensor2 c (reshape (length flat / c) c flat)).

(** [keras.utils.to_categorical(y, num_classes)] for a positive
    [num_classes]: row [k] is zero but for a one at position [y[k]];
    the assignment [categorical[np.arange(n), y] = 1] has no position for
    a label that is not below [num_classes]. *)
Definition one_hot (num_classes : nat) (label : nat) : list R :=
  map (fun i => if (i =? label)%nat then 1 else 0) (seq 0 num_classes).


(** A NumPy array, by its shape and its values in row-major order; a
    Python number is an array without dimension. *)
Record ndarray : Type := NdArray { nd_shape : list nat; nd_values : list R }.

Definition scalar (v : R) : ndarray := NdArray [] [v].

(** [a.reshape(-1, 1)]. *)
Definition reshape_column (a : ndarray) : ndarray :=
  NdArray [length (nd_values a); 1%nat] (nd_values a).

(** What an [AnnData] holds as [X]: an array, or a SciPy sparse matrix,
    which is given by its dense content [X.A]. *)
Inductive matrix : Type :=
| Dense (a : ndarray)
| Sparse (a : ndarray).

Definition issparse (m : matrix) : bool :=
  match m with
  | Sparse _ => true
  | Dense _ => false
  end.

(** [m.A if sparse.issparse(m) else m]. *)
Definition toarray (m : matrix) : ndarray :=
  match m with
  | Sparse a => a
  | Dense a => a
  end.

End Backend.

(** ** [RCVAE]: the dense model of [_rae.py] *)

Module RCVAE.

Import Fl Backend.
Local Open Scope R_scope.

(** The constructor's keyword arguments that the embedded methods read. *)
Record instance : Type := Instance {
  x_dim : nat;
  z_dim : nat;
  mmd_dim : nat;
  lr : R;
  beta : R;
  conditions : option (list string);
  dr_rate : R;
  model_to_use : string;
  kernel_method : string
}.

(** [squared_distance(x, y)]: [K.sum(K.square(expand_dims(x, 1) - y), -1)]. *)
Definition squared_distance (x y : tensor2) : list (list R) :=
  map (map (fun d => reduce_sum (map square d)))
      (broadcast_sub (data x) (data y)).

Definition sigmas : list R :=
  [1e-6; 1e-5; 1e-4; 1e-3; 1e-2; 1e-1; 1; 5; 10; 15; 20; 25; 30; 35; 100;
   1e3; 1e4; 1e5; 1e6].

(** [compute_kernel(x, y, kernel, scales=...)].  The result is [None] when
    no branch of the [if] chain is taken and the Python function falls off
    its end. *)
Definition compute_kernel (x y : tensor2) (kernel : string) (scales : list R)
  : option (list (list fl)) :=
  if String.eqb kernel "rbf" then
    let x_size := shape0 x in
    let y_size := shape0 y in
    let dim := shape1 x in
    let tiled_x := tile_x (data x) y_size in
    let tiled_y := tile_y (data y) x_size in
    Some (map (map (fun d => m ← reduce_mean (map square d);
                             Some (exp (- m / INR dim))))
              (sub3 tiled_x tiled_y))
  else if String.eqb kernel "raphy" then
    let squared_dist := squared_distance x y in
    let weights := INR (length scales) in
    Some (sum_axis0
            (map (map (fun _ => Some 0)) squared_dist)
            (map (fun s =>
                    map (map (fun d => mul (Some weights)
                                           (exp_neg_div d (s ^ 2))))
                        squared_dist)
                 scales))
  else if String.eqb kernel "multi-scale-rbf" then
    let beta := map (fun s => [1 / (2 * s)]) sigmas in
    let distances := squared_distance x y in
    let flat := concat distances in
    let n := length flat in
    let s := dot n beta [flat] in
    let summed := reduce_sum_axis0 n (map (map (fun v => exp (- v))) s) in
    Some (map (map (fun v => Some (v / INR (length sigmas))))
              (reshape (shape0 x) (shape0 y) summed))
  else None.

(** [compute_mmd(x, y, kernel, **kwargs)].  [K.mean] of Python's [None]
    is a type error. *)
Definition compute_mmd (x y : tensor2) (kernel : string) (scales : list R)
  : Py.outcome fl :=
  match compute_kernel x x kernel scales,
        compute_kernel y y kernel scales,
        compute_kernel x y kernel scales with
  | Some x_kernel, Some y_kernel, Some xy_kernel =>
      Py.Returns
        (sub (add (mean x_kernel) (mean y_kernel))
             (mul (Some 2) (mean xy_kernel)))
  | _, _, _ => Py.Raises Py.TypeError
  end.

(** [mmd_loss(real_labels, y_pred)] of [_loss_function].  [real_labels]
    holds the labels after the cast to [int32] and the flattening
    reshape; the label encoder hands integer-valued floats, on which the
    cast is the identity. *)
Definition mmd_loss (self : instance) (real_labels : list Z)
    (y_pred : tensor2) : Py.outcome fl :=
  do! parts <- dynamic_partition y_pred real_labels 2;
  match parts with
  | [source_mmd; dest_mmd] =>
      do! loss <- compute_mmd source_mmd dest_mmd (kernel_method self) [];
      Py.Returns (mul (Some (beta self)) loss)
  | _ => Py.Raises Py.ValueError
  end.

(** [reconstruction_loss(y_true, y_pred)] of [_loss_function]:
    [K.sum(K.square(y_true - y_pred), axis=1)], one value for each
    sample.  Both tensors have the shape of the output of the model. *)
Definition reconstruction_loss (y_true y_pred : tensor2) : list R :=
  zip_with (fun t p => reduce_sum (map square (zip_with Rminus t p)))
           (data y_true) (data y_pred).

(** *** Training and persistence

    The Keras layers are parameters: [Weights] is what a saved model file
    holds (architecture and weights), [predict] the forward pass of a model
    on a data matrix, [fit] and [fit_own] what [Model.fit] does, with its
    callbacks, once it has accepted its arguments.  [files] are the model
    files; the log of [CSVLogger] is not one of them. *)
Section Persistence.

Variable Weights AnnData Latent History Rng : Type.
Variable predict : Weights -> AnnData -> Latent.
Variable shuffle_data : AnnData -> Rng -> AnnData * Rng.

(** The arguments [train] passes on to [fit]: [fit_y] are the target
    arrays, and [y=y] is one array. *)
Record fit_args : Type := FitArgs {
  fit_x : AnnData;
  fit_y : list AnnData;
  fit_validation_data : option (AnnData * list AnnData);
  fit_epochs : nat;
  fit_batch_size : nat;
  fit_shuffle : bool;
  fit_patience : nat;          (* EarlyStopping(patience=early_stop_limit) *)
  fit_min_delta : Q;           (* EarlyStopping(min_delta=threshold) *)
  fit_verbose : nat
}.

(** [_create_network] builds [rae_model] out of the layers of
    [encoder_model] and [decoder_model]: fitting it moves their weights,
    and saving it writes them ([compose]).  A model read back from a file
    shares nothing with the other two, and its outputs are those of the
    file.  A fit may fail after it has moved the weights. *)
Variable compose : Weights -> Weights -> Weights.
Variable fit : Weights -> Weights -> fit_args -> Rng ->
               Weights * Weights * Rng * Py.outcome History.
Variable fit_own : Weights -> fit_args -> Rng ->
                   Weights * Rng * Py.outcome History.

(** The outputs of [rae_model] in [_create_network],
    [outputs=[reconstruction_output, mmd_output]], by the names of their
    layers. *)
Definition rae_outputs : list string := ["kl_reconstruction"; "mmd"].

Inductive rae_handle : Type :=
| Shared                    (* over the instance's encoder and decoder *)
| Own (w : Weights).        (* loaded from a file *)

(** The instance's models, the pseudo-random source and the files. *)
Record world : Type := World {
  rae_model : rae_handle;
  encoder_model : Weights;
  decoder_model : Weights;
  rng : Rng;
  files : gmap string Weights
}.

Definition set_rae (m : rae_handle) (w : world) : world :=
  World m (encoder_model w) (decoder_model w) (rng w) (files w).
Definition set_encoder (m : Weights) (w : world) : world :=
  World (rae_model w) m (decoder_model w) (rng w) (files w).
Definition set_decoder (m : Weights) (w : world) : world :=
  World (rae_model w) (encoder_model w) m (rng w) (files w).
Definition set_rng (g : Rng) (w : world) : world :=
  World (rae_model w) (encoder_model w) (decoder_model w) g (files w).
Definition set_files (f : gmap string Weights) (w : world) : world :=
  World (rae_model w) (encoder_model w) (decoder_model w) (rng w) f.

(** [load_model(path, compile=False)]. *)
Definition load_model (path : string) : Py.M world Weights :=
  run! w <- Py.get;
  match files w !! path with
  | Some m => Py.ret m
  | None => Py.raise Py.OSError
  end.

(** [model.save(path, overwrite=True)]. *)
Definition save (m : Weights) (path : string) : Py.M world unit :=
  Py.modify (fun w => set_files (<[path := m]> (files w)) w).

(** [to_latent(data)]: [self.encoder_model.predict(data)]. *)
Definition to_latent (data : AnnData) : Py.M world Latent :=
  run! w <- Py.get;
  Py.ret (predict (encoder_model w) data).

(** [restore_model()]; [_loss_function] only recompiles the model. *)
Definition restore_model (self : instance) : Py.M world unit :=
  run! m <- load_model (Py.os_path_join (model_to_use self) "mmd_ae.h5");
  exec! Py.modify (set_rae (Own m));
  run! e <- load_model (Py.os_path_join (model_to_use self) "encoder.h5");
  exec! Py.modify (set_encoder e);
  run! d <- load_model (Py.os_path_join (model_to_use self) "decoder.h5");
  exec! Py.modify (set_decoder d);
  Py.ret tt.

(** [self.rae_model.fit(...)].  Before anything is trained or logged,
    [Model.fit] compares the targets with the outputs of the model, and
    refuses with [ValueError] a number of target arrays that is not the
    number of outputs. *)
Definition fit_rae (a : fit_args) : Py.M world History :=
  run! w <- Py.get;
  match rae_model w with
  | Shared =>
      if negb (length (fit_y a) =? length rae_outputs)%nat
      then Py.raise Py.ValueError
      else
        let '(e, d, g, h) :=
          fit (encoder_model w) (decoder_model w) a (rng w) in
        exec! Py.modify
                (fun w => set_rng g (set_decoder d (set_encoder e w)));
        Py.lift h
  | Own m =>
      let '(m', g, h) := fit_own m a (rng w) in
      exec! Py.modify (fun w => set_rng g (set_rae (Own m') w));
      Py.lift h
  end.

(** What [self.rae_model.save] writes. *)
Definition rae_weights (w : world) : Weights :=
  match rae_model w with
  | Shared => compose (encoder_model w) (decoder_model w)
  | Own m => m
  end.

(** [train(train_data, use_validation, valid_data, n_epochs, batch_size,
    early_stop_limit, threshold, initial_run, shuffle, verbose, save)]:
    [x] and [y] are both [train_data.X].  Logging, the densification of a
    sparse matrix and the creation of the directory leave the world as it
    is. *)
Definition train (self : instance) (train_data : AnnData)
    (use_validation : bool) (valid_data : option AnnData)
    (n_epochs batch_size early_stop_limit : nat) (threshold : Q)
    (initial_run shuffle : bool) (verbose : nat) (save_flag : bool)
  : Py.M world History :=
  if use_validation && Py.is_None valid_data then
    Py.raise (Py.Exception "valid_data is None but use_validation is True.")
  else
    run! train_data <-
      (if shuffle then
         run! w <- Py.get;
         let '(t, g) := shuffle_data train_data (rng w) in
         exec! Py.modify (set_rng g);
         Py.ret t
       else Py.ret train_data);
    run! valid <-
      (match use_validation, valid_data with
       | true, Some v =>
           if shuffle then
             run! w <- Py.get;
             let '(t, g) := shuffle_data v (rng w) in
             exec! Py.modify (set_rng g);
             Py.ret (Some (t, [t]))
           else Py.ret (Some (v, [v]))
       | _, _ => Py.ret None
       end);
    run! histories <-
      fit_rae (FitArgs train_data [train_data] valid n_epochs batch_size
                       shuffle early_stop_limit threshold verbose);
    exec! (if save_flag then
             run! w <- Py.get;
             exec! save (rae_weights w)
                        (Py.os_path_join (model_to_use self) "mmd_rae.h5");
             exec! save (encoder_model w)
                        (Py.os_path_join (model_to_use self) "encoder.h5");
             save (decoder_model w)
                  (Py.os_path_join (model_to_use self) "decoder.h5")
           else Py.ret tt);
    Py.ret histories.

End Persistence.

Arguments Shared {Weights}.
Arguments Own {Weights}.
Arguments World {Weights Rng}.
Arguments rae_model {Weights Rng}.
Arguments encoder_model {Weights Rng}.
Arguments decoder_model {Weights Rng}.
Arguments rng {Weights Rng}.
Arguments files {Weights Rng}.
Arguments load_model {Weights Rng}.
Arguments save {Weights Rng}.
Arguments to_latent {Weights AnnData Latent Rng}.
Arguments restore_model {Weights Rng}.
Arguments fit_rae {Weights AnnData History Rng}.
Arguments rae_weights {Weights Rng}.
Arguments train {Weights AnnData History Rng}.

End RCVAE.

(** ** [RCCVAE]: the convolutional model of [_rccvae.py] *)

Module RCCVAE.

Import Fl Backend.
Local Open Scope R_scope.

Record instance : Type := Instance {
  x_dim : list nat;
  z_dim : nat;
  mmd_dim : nat;
  lr : R;
  alpha : R;
  beta : R;
  conditions : option (list string);
  dr_rate : R;
  model_to_use : string;
  train_with_fake_labels : bool;
  kernel_method : string;
  arch_style : Z
}.

Definition squared_distance (x y : tensor2) : list (list R) :=
  map (map (fun d => reduce_sum (map square d)))
      (broadcast_sub (data x) (data y)).

Definition sigmas : list R :=
  [1e-6; 1e-5; 1e-4; 1e-3; 1e-2; 1e-1; 1; 5; 10; 15; 20; 25; 30; 35; 100;
   1e3; 1e4; 1e5; 1e6].

(** [compute_kernel(x, y, method, scales=...)]: the text of
    [RCVAE.compute_kernel]. *)
Definition compute_kernel (x y : tensor2) (method : string) (scales : list R)
  : option (list (list fl)) :=
  if String.eqb method "rbf" then
    let x_size := shape0 x in
    let y_size := shape0 y in
    let dim := shape1 x in
    let tiled_x := tile_x (data x) y_size in
    let tiled_y := tile_y (data y) x_size in
    Some (map (map (fun d => m ← reduce_mean (map square d);
                             Some (exp (- m / INR dim))))
              (sub3 tiled_x tiled_y))
  else if String.eqb method "raphy" then
    let squared_dist := squared_distance x y in
    let weights := INR (length scales) in
    Some (sum_axis0
            (map (map (fun _ => Some 0)) squared_dist)
            (map (fun s =>
                    map (map (fun d => mul (Some weights)
                                           (exp_neg_div d (s ^ 2))))
                        squared_dist)
                 scales))
  else if String.eqb method "multi-scale-rbf" then
    let beta := map (fun s => [1 / (2 * s)]) sigmas in
    let distances := squared_distance x y in
    let flat := concat distances in
    let n := length flat in
    let s := dot n beta [flat] in
    let summed := reduce_sum_axis0 n (map (map (fun v => exp (- v))) s) in
    Some (map (map (fun v => Some (v / INR (length sigmas))))
              (reshape (shape0 x) (shape0 y) summed))
  else None.

Definition compute_mmd (x y : tensor2) (kernel_method : string)
    (scales : list R) : Py.outcome fl :=
  match compute_kernel x x kernel_method scales,
        compute_kernel y y kernel_method scales,
        compute_kernel x y kernel_method scales with
  | Some x_kernel, Some y_kernel, Some xy_kernel =>
      Py.Returns
        (sub (add (mean x_kernel) (mean y_kernel))
             (mul (Some 2) (mean xy_kernel)))
  | _, _, _ => Py.Raises Py.TypeError
  end.

(** [mmd_loss(real_labels, y_pred)] of [_loss_function]: as in [RCVAE],
    after a reshape of [y_pred] to rows of width [mmd_dim]. *)
Definition mmd_loss (self : instance) (real_labels : list Z)
    (y_pred : tensor2) : Py.outcome fl :=
  do! y_pred <- reshape_rows y_pred (mmd_dim self);
  do! parts <- dynamic_partition y_pred real_labels 2;
  match parts with
  | [source_mmd; dest_mmd] =>
      do! loss <- compute_mmd source_mmd dest_mmd (kernel_method self) [];
      Py.Returns (mul (Some (beta self)) loss)
  | _ => Py.Raises Py.ValueError
  end.

(** *** Training and persistence

    As in [RCVAE], the Keras models are parameters.  [label_encoder] of
    [rcvae.utils] and the reshape of a data matrix to images may fail;
    [Model.fit] may fail after it has moved the weights; the encoder ends
    with the layer [_sample_z], which draws a noise. *)
Section Persistence.

Variable Weights AnnData Images Labels Latent History Rng : Type.

(** [label_encoder(adata)[0]]. *)
Variable label_encoder : AnnData -> Py.outcome Labels.
(** [np.ones(shape=labels.shape)]. *)
Variable ones_like : Labels -> Labels.
(** [adata] after [adata.X = adata.X.A] when [adata.X] is sparse. *)
Variable densify : AnnData -> AnnData.
(** [np.reshape(adata.X, newshape=(-1, *self.x_dim))]. *)
Variable reshape_X : instance -> AnnData -> Py.outcome Images.
(** [model.predict([data, labels])[2]] on an encoder. *)
Variable predict_z :
  Weights -> Images -> Labels -> Rng -> Py.outcome Latent * Rng.

(** The arguments [train] passes on to [fit]. *)
Record fit_args : Type := FitArgs {
  fit_x : Images * Labels * Labels;
  fit_y : Images * Labels;
  fit_validation_data :
    option ((Images * Labels * Labels) * (Images * Labels));
  fit_epochs : nat;
  fit_batch_size : nat;
  fit_shuffle : bool;
  fit_patience : nat;          (* EarlyStopping(patience=early_stop_limit) *)
  fit_min_delta : Q;           (* EarlyStopping(min_delta=threshold) *)
  fit_verbose : nat
}.

(** [_create_network] builds [cvae_model] out of [encoder_model] and
    [decoder_model]: fitting it moves their weights, and saving it writes
    them ([compose]).  A model read back from a file shares nothing with
    the other two. *)
Variable compose : Weights -> Weights -> Weights.
Variable fit : Weights -> Weights -> fit_args -> Rng ->
               Weights * Weights * Rng * Py.outcome History.
Variable fit_own : Weights -> fit_args -> Rng ->
                   Weights * Rng * Py.outcome History.

Inductive cvae_handle : Type :=
| Shared                    (* over the instance's encoder and decoder *)
| Own (w : Weights).        (* loaded from a file *)

(** The instance's models, the pseudo-random source and the files. *)
Record world : Type := World {
  cvae_model : cvae_handle;
  encoder_model : Weights;
  decoder_model : Weights;
  rng : Rng;
  files : gmap string Weights
}.

Definition set_cvae (m : cvae_handle) (w : world) : world :=
  World m (encoder_model w) (decoder_model w) (rng w) (files w).
Definition set_encoder (m : Weights) (w : world) : world :=
  World (cvae_model w) m (decoder_model w) (rng w) (files w).
Definition set_decoder (m : Weights) (w : world) : world :=
  World (cvae_model w) (encoder_model w) m (rng w) (files w).
Definition set_rng (g : Rng) (w : world) : world :=
  World (cvae_model w) (encoder_model w) (decoder_model w) g (files w).
Definition set_files (f : gmap string Weights) (w : world) : world :=
  World (cvae_model w) (encoder_model w) (decoder_model w) (rng w) f.

(** [load_model(path, compile=False)]. *)
Definition load_model (path : string) : Py.M world Weights :=
  run! w <- Py.get;
  match files w !! path with
  | Some m => Py.ret m
  | None => Py.raise Py.OSError
  end.

(** [model.save(path, overwrite=True)]. *)
Definition save (m : Weights) (path : string) : Py.M world unit :=
  Py.modify (fun w => set_files (<[path := m]> (files w)) w).

(** A value or an exception of a function that leaves the world as it
    is. *)
Definition lift {A : Type} (o : Py.outcome A) : Py.M world A :=
  match o with
  | Py.Returns a => Py.ret a
  | Py.Raises e => Py.raise e
  end.

(** [to_latent(data, labels)]:
    [self.encoder_model.predict([data, labels])[2]]. *)
Definition to_latent (data : Images) (labels : Labels)
  : Py.M world Latent :=
  run! w <- Py.get;
  let '(o, g) := predict_z (encoder_model w) data labels (rng w) in
  exec! Py.modify (set_rng g);
  lift o.

(** [restore_model()]; [_loss_function] only recompiles the model. *)
Definition restore_model (self : instance) : Py.M world unit :=
  run! m <- load_model (Py.os_path_join (model_to_use self) "mmd_cvae.h5");
  exec! Py.modify (set_cvae (Own m));
  run! e <- load_model (Py.os_path_join (model_to_use self) "encoder.h5");
  exec! Py.modify (set_encoder e);
  run! d <- load_model (Py.os_path_join (model_to_use self) "decoder.h5");
  exec! Py.modify (set_decoder d);
  Py.ret tt.

(** [self.cvae_model.fit(...)]. *)
Definition fit_cvae (a : fit_args) : Py.M world History :=
  run! w <- Py.get;
  match cvae_model w with
  | Shared =>
      let '(e, d, g, h) := fit (encoder_model w) (decoder_model w) a (rng w) in
      exec! Py.modify (fun w => set_rng g (set_decoder d (set_encoder e w)));
      lift h
  | Own m =>
      let '(m', g, h) := fit_own m a (rng w) in
      exec! Py.modify (fun w => set_rng g (set_cvae (Own m') w));
      lift h
  end.

(** What [self.cvae_model.save] writes. *)
Definition cvae_weights (w : world) : Weights :=
  match cvae_model w with
  | Shared => compose (encoder_model w) (decoder_model w)
  | Own m => m
  end.

(** [train(train_data, use_validation, valid_data, n_epochs, batch_size,
    early_stop_limit, threshold, initial_run, shuffle, verbose, save)].
    The labels are encoded before the configuration is checked; the
    matrix of [valid_data] is reshaped as it is.  Logging, the log file
    of [CSVLogger] and the creation of the directory are not part of the
    world. *)
Definition train (self : instance) (train_data : AnnData)
    (use_validation : bool) (valid_data : option AnnData)
    (n_epochs batch_size early_stop_limit : nat) (threshold : Q)
    (initial_run shuffle : bool) (verbose : nat) (save_flag : bool)
  : Py.M world History :=
  run! train_labels <- lift (label_encoder train_data);
  let pseudo_labels := ones_like train_labels in
  let train_data := densify train_data in
  if use_validation && Py.is_None valid_data then
    Py.raise (Py.Exception "valid_data is None but use_validation is True.")
  else
    run! x_train <- lift (reshape_X self train_data);
    let x :=
      if train_with_fake_labels self
      then (x_train, train_labels, pseudo_labels)
      else (x_train, train_labels, train_labels) in
    let y := (x_train, train_labels) in
    run! histories <-
      (match use_validation, valid_data with
       | true, Some valid_data =>
           run! x_valid <- lift (reshape_X self valid_data);
           run! valid_labels <- lift (label_encoder valid_data);
           let x_test := (x_valid, valid_labels, valid_labels) in
           let y_test := (x_valid, valid_labels) in
           fit_cvae (FitArgs x y (Some (x_test, y_test)) n_epochs batch_size
                             shuffle early_stop_limit threshold verbose)
       | _, _ =>
           fit_cvae (FitArgs x y None n_epochs batch_size shuffle
                             early_stop_limit threshold verbose)
       end);
    exec! (if save_flag then
             run! w <- Py.get;
             exec! save (cvae_weights w)
                        (Py.os_path_join (model_to_use self) "mmd_cvae.h5");
             exec! save (encoder_model w)
                        (Py.os_path_join (model_to_use self) "encoder.h5");
             save (decoder_model w)
                  (Py.os_path_join (model_to_use self) "decoder.h5")
           else Py.ret tt);
    Py.ret histories.

End Persistence.

Arguments Shared {Weights}.
Arguments Own {Weights}.
Arguments World {Weights Rng}.
Arguments cvae_model {Weights Rng}.
Arguments encoder_model {Weights Rng}.
Arguments decoder_model {Weights Rng}.
Arguments rng {Weights Rng}.
Arguments files {Weights Rng}.
Arguments load_model {Weights Rng}.
Arguments save {Weights Rng}.
Arguments lift {Weights Rng A}.
Arguments to_latent {Weights Images Labels Latent Rng}.
Arguments restore_model {Weights Rng}.
Arguments fit_cvae {Weights Images Labels History Rng}.
Arguments cvae_weights {Weights Rng}.
Arguments train {Weights AnnData Images Labels History Rng}.

End RCCVAE.

(** ** [RCVAEMultiTF]: the graph-mode model of [_rcvae_multi_tf.py] *)

Module RCVAEMultiTF.

Import Fl Backend.

Record instance : Type := Instance {
  x_dim : nat;
  z_dim : nat;
  mmd_dim : nat;
  n_conditions : nat;
  lr : R;
  alpha : R;
  beta : R;
  dr_rate : R;
  model_to_use : string;
  kernel_method : string;
  output_activation : string;
  loss_fn : string;
  ridge : R;
  clip_value : R
}.

Section Kernels.
Local Open Scope R_scope.

Definition squared_distance (x y : tensor2) : list (list R) :=
  map (map (fun d => reduce_sum (map square d)))
      (broadcast_sub (data x) (data y)).

Definition sigmas : list R :=
  [1e-6; 1e-5; 1e-4; 1e-3; 1e-2; 1e-1; 1; 5; 10; 15; 20; 25; 30; 35; 100;
   1e3; 1e4; 1e5; 1e6].

(** [compute_kernel(x, y, kernel)]: this class has no [raphy] branch. *)
Definition compute_kernel (x y : tensor2) (kernel : string)
  : option (list (list fl)) :=
  if String.eqb kernel "rbf" then
    let x_size := shape0 x in
    let y_size := shape0 y in
    let dim := shape1 x in
    let tiled_x := tile_x (data x) y_size in
    let tiled_y := tile_y (data y) x_size in
    Some (map (map (fun d => m ← reduce_mean (map square d);
                             Some (exp (- m / INR dim))))
              (sub3 tiled_x tiled_y))
  else if String.eqb kernel "multi-scale-rbf" then
    let beta := map (fun s => [1 / (2 * s)]) sigmas in
    let distances := squared_distance x y in
    let flat := concat distances in
    let n := length flat in
    let s := dot n beta [flat] in
    let summed := reduce_sum_axis0 n (map (map (fun v => exp (- v))) s) in
    Some (map (map (fun v => Some (v / INR (length sigmas))))
              (reshape (shape0 x) (shape0 y) summed))
  else None.

Definition compute_mmd (x y : tensor2) (kernel : string) : Py.outcome fl :=
  match compute_kernel x x kernel,
        compute_kernel y y kernel,
        compute_kernel x y kernel with
  | Some x_kernel, Some y_kernel, Some xy_kernel =>
      Py.Returns
        (sub (add (mean x_kernel) (mean y_kernel))
             (mul (Some 2) (mean xy_kernel)))
  | _, _, _ => Py.Raises Py.TypeError
  end.

(** [tf.argmax(row)]: the first position of the largest value. *)
Fixpoint argmax_from (best : R) (best_i i : nat) (l : list R) : nat :=
  match l with
  | [] => best_i
  | v :: l' =>
      if Rlt_dec best v then argmax_from v i (S i) l'
      else argmax_from best best_i (S i) l'
  end.

Definition argmax (row : list R) : nat :=
  match row with
  | [] => O
  | v :: l => argmax_from v 0 1 l
  end.

(** The two nested [for] loops of [_loss_function]:
<<
    loss = 0.0
    for i in range(len(conditions_mmd)):
        for j in range(i):
            loss += self.compute_mmd(conditions_mmd[j],
                                     conditions_mmd[j + 1], ...)
>> *)
Definition inner_loop (conditions_mmd : list tensor2) (kernel : string)
    (i : nat) (loss : fl) : Py.outcome fl :=
  foldl (fun acc j =>
           do! loss <- acc;
           match conditions_mmd !! j, conditions_mmd !! (j + 1)%nat with
           | Some a, Some b =>
               do! m <- compute_mmd a b kernel;
               Py.Returns (add loss m)
           | _, _ => Py.Raises Py.IndexError
           end)
        (Py.Returns loss) (seq 0 i).

Definition accumulate_mmd (conditions_mmd : list tensor2) (kernel : string)
  : Py.outcome fl :=
  foldl (fun acc i =>
           do! loss <- acc;
           inner_loop conditions_mmd kernel i loss)
        (Py.Returns (Some 0)) (seq 0 (length conditions_mmd)).

(** The MMD block of [_loss_function]: [self.mmd_loss] as a function of the
    one-hot [decoder_labels] and of the activations [mmd_hl].  Neither
    [argmax] nor [dynamic_partition] exists for zero conditions. *)
Definition mmd_loss (self : instance) (decoder_labels : list (list R))
    (mmd_hl : tensor2) : Py.outcome fl :=
  if (n_conditions self =? 0)%nat then Py.Raises Py.InvalidArgumentError
  else
    let real_labels := map (fun row => Z.of_nat (argmax row)) decoder_labels in
    do! conditions_mmd <-
      dynamic_partition mmd_hl real_labels (n_conditions self);
    do! loss <- accumulate_mmd conditions_mmd (kernel_method self);
    Py.Returns (mul (Some (beta self)) loss).

(** The other terms of [_loss_function], as functions of the values of
    the tensors they are built from: [self.kl_loss] from [mu] and
    [log_var], [self.recon_loss] from [x] and [x_hat] (one value for each
    sample), [self.kl_recon_loss], and [self.trvae_loss].  [mu] and
    [log_var] have one shape, and so have [x] and [x_hat]. *)
Definition kl_loss (mu log_var : tensor2) : list R :=
  zip_with (fun m v =>
              0.5 * reduce_sum
                      (zip_with (fun mk vk => exp vk + square mk - 1 - vk)
                                m v))
           (data mu) (data log_var).

Definition recon_loss (x x_hat : tensor2) : list R :=
  zip_with (fun t p => 0.5 * reduce_sum (map square (zip_with Rminus t p)))
           (data x) (data x_hat).

Definition kl_recon_loss (self : instance) (mu log_var x x_hat : tensor2)
  : fl :=
  reduce_mean (zip_with (fun r k => r + alpha self * k)
                        (recon_loss x x_hat) (kl_loss mu log_var)).

Definition trvae_loss (self : instance) (decoder_labels : list (list R))
    (mmd_hl mu log_var x x_hat : tensor2) : Py.outcome fl :=
  do! mmd <- mmd_loss self decoder_labels mmd_hl;
  Py.Returns (add mmd (kl_recon_loss self mu log_var x x_hat)).

End Kernels.

(** *** Training

    The session runs are parameters: [run_train] is
    [sess.run([solver, trvae_loss, mmd_loss], ...)] on a mini-batch with
    [is_training] set (one optimiser step; it returns the new values of
    the variables and the two losses), [run_valid] is
    [sess.run([trvae_loss, mmd_loss], ...)] without it.  Both draw the
    noise of [_sample_z] from the pseudo-random source.  [label_encoder]
    and [shuffle_data] are the helpers of [rcvae.models.utils]. *)
Section Training.

Variable Sample Vars Rng Encoder : Type.
Variable label_encoder :
  list Sample -> option Encoder -> string -> Py.outcome (list nat * Encoder).
Variable shuffle_data :
  list Sample -> list nat -> Rng -> list Sample * list nat * Rng.

(** The values of the graph's variables: [global_step] and all the
    others (weights, batch-normalisation statistics, optimiser slots). *)
Record session : Type := Session { global_step : Z; variables : Vars }.

Variable run_train :
  instance -> session -> Rng -> list Sample -> list nat -> Vars * Rng * Q * Q.
Variable run_valid :
  instance -> session -> Rng -> list Sample -> list nat -> Rng * Q * Q.

(** The session, the pseudo-random source, and the checkpoints on disk by
    path prefix ([tf.train.Saver] writes every variable). *)
Record world : Type := World {
  sess : session;
  rng : Rng;
  files : gmap string session
}.

Definition set_sess (s : session) (w : world) : world :=
  World s (rng w) (files w).
Definition set_rng (g : Rng) (w : world) : world :=
  World (sess w) g (files w).
Definition set_files (f : gmap string session) (w : world) : world :=
  World (sess w) (rng w) f.

(** [global_step] is an [int32] variable. *)
Definition wrap_int32 (z : Z) : Z := ((z + 2 ^ 31) mod 2 ^ 32 - 2 ^ 31)%Z.

Definition assign_global_step (f : Z -> Z) : Py.M world unit :=
  Py.modify (fun w =>
    set_sess (Session (wrap_int32 (f (global_step (sess w))))
                      (variables (sess w))) w).

(** [self.saver.restore(self.sess, self.model_to_use)]. *)
Definition restore (self : instance) : Py.M world unit :=
  run! w <- Py.get;
  match files w !! model_to_use self with
  | Some ck => Py.modify (set_sess ck)
  | None => Py.raise Py.NotFoundError
  end.

Definition restore_model (self : instance) : Py.M world unit := restore self.

(** [os.makedirs(...); self.saver.save(self.sess, self.model_to_use)]. *)
Definition save (self : instance) : Py.M world unit :=
  Py.modify (fun w =>
    set_files (<[model_to_use self := sess w]> (files w)) w).

(** The mini-batch loop over the training set: it returns
    [(train_loss, train_mmd_loss)].  [run_train] is the session run of a
    mini-batch when it returns: what makes [to_categorical] or [sess.run]
    fail is not part of the embedding, and the facts about a pass are
    facts about a pass that returns. *)
Definition train_pass (self : instance) (train_data : list Sample)
    (train_labels : list nat) (batch_size : nat) : Py.M world (Q * Q) :=
  if (batch_size =? 0)%nat then Py.raise Py.ValueError
  else
    Py.for_each (Py.range_step (length train_data) batch_size)
      (fun lower '(train_loss, train_mmd_loss) =>
         let upper := Nat.min (lower + batch_size) (length train_data) in
         let x_mb := Py.slice train_data lower upper in
         let y_mb := Py.slice train_labels lower upper in
         run! w <- Py.get;
         let '(v, g, current_loss_train, current_mmd_loss_train) :=
           run_train self (sess w) (rng w) x_mb y_mb in
         exec! Py.modify (fun w =>
           set_rng g (set_sess (Session (global_step (sess w)) v) w));
         Py.ret ((train_loss + current_loss_train)%Q,
                 (train_mmd_loss + current_mmd_loss_train)%Q))
      (0%Q, 0%Q).

(** The mini-batch loop over the validation set: it returns
    [(valid_loss, valid_mmd_loss)]. *)
Definition valid_pass (self : instance) (valid_data : list Sample)
    (valid_labels : list nat) (batch_size : nat) : Py.M world (Q * Q) :=
  if (batch_size =? 0)%nat then Py.raise Py.ValueError
  else
    Py.for_each (Py.range_step (length valid_data) batch_size)
      (fun lower '(valid_loss, valid_mmd_loss) =>
         let upper := Nat.min (lower + batch_size) (length valid_data) in
         let x_mb := Py.slice valid_data lower upper in
         let y_mb := Py.slice valid_labels lower upper in
         run! w <- Py.get;
         let '(g, current_loss_valid, current_mmd_loss_valid) :=
           run_valid self (sess w) (rng w) x_mb y_mb in
         exec! Py.modify (set_rng g);
         Py.ret ((valid_loss + current_loss_valid)%Q,
                 (valid_mmd_loss + current_mmd_loss_valid)%Q))
      (0%Q, 0%Q).

(** The [print] of an epoch divides the accumulated training loss by
    [train_data.shape[0] // batch_size].  The accumulator is a NumPy
    float, whose division by zero does not raise, unless no mini-batch
    ran and it still is the integer [0]. *)
Definition print_epoch (verbose : bool) (train_data : list Sample)
  : Py.M world unit :=
  if verbose && (length train_data =? 0)%nat
  then Py.raise Py.ZeroDivisionError
  else Py.ret tt.

(** The locals of the epoch loop, and whether it was left by [break]. *)
Record locals : Type := Locals {
  loss_hist : list Q;
  patience_cnt : nat;
  stopped_at : option nat      (* the [it] of the [break] *)
}.

(** [it > 0 and loss_hist[it - 1] - loss_hist[it] > min_delta]. *)
Definition improved (hist : list Q) (it : nat) (min_delta : Q)
  : Py.outcome bool :=
  if (0 <? it)%nat then
    match hist !! (it - 1)%nat, hist !! it with
    | Some previous, Some current =>
        Py.Returns (negb (Qle_bool (previous - current) min_delta))
    | _, _ => Py.Raises Py.IndexError
    end
  else Py.Returns false.

(** The body of [for it in range(n_epochs)]. *)
Definition epoch (self : instance) (train_data : list Sample)
    (train_labels : list nat) (valid : option (list Sample * list nat))
    (batch_size patience : nat) (min_delta : Q) (verbose : bool)
    (it : nat) (l : locals) : Py.M world locals :=
  exec! assign_global_step (fun g => g + 1)%Z;
  run! _ <- train_pass self train_data train_labels batch_size;
  match valid with
  | Some (valid_data, valid_labels) =>
      run! v <- valid_pass self valid_data valid_labels batch_size;
      if (length valid_data =? 0)%nat then Py.raise Py.ZeroDivisionError
      else
        let n_valid := inject_Z (Z.of_nat (length valid_data)) in
        let hist := loss_hist l ++ [(fst v / n_valid)%Q] in
        run! better <- Py.lift (improved hist it min_delta);
        let cnt := if better then O else S (patience_cnt l) in
        if (patience <? cnt)%nat then
          exec! save self;
          Py.ret (Locals hist cnt (Some it))
        else
          exec! print_epoch verbose train_data;
          Py.ret (Locals hist cnt None)
  | None =>
      exec! print_epoch verbose train_data;
      Py.ret l
  end.

(** [for it in range(n_epochs): ...] with its [break]. *)
Fixpoint epochs (body : nat -> locals -> Py.M world locals)
    (its : list nat) (l : locals) : Py.M world locals :=
  match its with
  | [] => Py.ret l
  | it :: rest =>
      run! l' <- body it l;
      match stopped_at l' with
      | Some _ => Py.ret l'
      | None => epochs body rest l'
      end
  end.

(** The statements of [train] before its epoch loop: the reset of
    [global_step] or the restoration of the checkpoint, the encoding of
    the labels, the shuffle, and the test of the configuration.  They
    return the training set, its labels, and the validation set with its
    labels when validation is used. *)
Definition prepare (self : instance) (train_data : list Sample)
    (le : option Encoder) (condition_key : string) (use_validation : bool)
    (valid_data : option (list Sample)) (initial_run shuffle : bool)
  : Py.M world (list Sample * list nat * option (list Sample * list nat)) :=
  exec! (if initial_run then assign_global_step (fun _ => 0%Z) else Py.ret tt);
  exec! (if negb initial_run then restore self else Py.ret tt);
  run! enc <- Py.lift (label_encoder train_data le condition_key);
  let '(train_labels, le) := enc in
  run! shuffled <-
    (if shuffle then
       run! w <- Py.get;
       let '(d, y, g) := shuffle_data train_data train_labels (rng w) in
       exec! Py.modify (set_rng g);
       Py.ret (d, y)
     else Py.ret (train_data, train_labels));
  let '(train_data, train_labels) := shuffled in
  if use_validation && Py.is_None valid_data then
    Py.raise (Py.Exception "valid_data is None but use_validation is True.")
  else
    run! valid <-
      (match use_validation, valid_data with
       | true, Some v =>
           run! r <- Py.lift (label_encoder v (Some le) condition_key);
           Py.ret (Some (v, fst r))
       | _, _ => Py.ret None
       end);
    Py.ret (train_data, train_labels, valid).

(** [train(train_data, le, condition_key, use_validation, valid_data,
    n_epochs, batch_size, early_stop_limit, lr_reducer, threshold,
    initial_run, shuffle, verbose)]: the preparation, the epoch loop, and
    the final save.  The method returns nothing; the embedding returns
    the final values of the loop's locals. *)
Definition train (self : instance) (train_data : list Sample)
    (le : option Encoder) (condition_key : string) (use_validation : bool)
    (valid_data : option (list Sample)) (n_epochs batch_size : nat)
    (early_stop_limit : nat) (lr_reducer : Z) (threshold : Q)
    (initial_run shuffle verbose : bool) : Py.M world locals :=
  run! p <- prepare self train_data le condition_key use_validation
                    valid_data initial_run shuffle;
  let '(train_data, train_labels, valid) := p in
  let patience := early_stop_limit in
  let min_delta := threshold in
  run! l <-
    epochs (epoch self train_data train_labels valid batch_size patience
                  min_delta verbose)
           (seq 0 n_epochs) (Locals [] 0 None);
  exec! save self;
  Py.ret l.

(** *** Vocabulary of the proofs about the epoch loop *)

(** One epoch with validation, without its early-stopping test: the
    increment of [global_step], the two mini-batch loops, and the value
    that is appended to [loss_hist]. *)
Definition passes (self : instance) (train_data : list Sample)
    (train_labels : list nat) (valid_data : list Sample)
    (valid_labels : list nat) (batch_size : nat) : Py.M world Q :=
  exec! assign_global_step (fun g => g + 1)%Z;
  run! _ <- train_pass self train_data train_labels batch_size;
  run! v <- valid_pass self valid_data valid_labels batch_size;
  if (length valid_data =? 0)%nat then Py.raise Py.ZeroDivisionError
  else Py.ret (fst v / inject_Z (Z.of_nat (length valid_data)))%Q.

(** The validation losses of [n] epochs that follow one another without
    early stopping. *)
Fixpoint validation_losses (self : instance) (train_data : list Sample)
    (train_labels : list nat) (valid_data : list Sample)
    (valid_labels : list nat) (batch_size : nat) (n : nat)
  : Py.M world (list Q) :=
  match n with
  | O => Py.ret []
  | S n' =>
      run! h <- validation_losses self train_data train_labels valid_data
                                  valid_labels batch_size n';
      run! v <- passes self train_data train_labels valid_data valid_labels
                       batch_size;
      Py.ret (h ++ [v])
  end.

End Training.

Arguments Session {Vars}.
Arguments global_step {Vars}.
Arguments variables {Vars}.
Arguments World {Vars Rng}.
Arguments sess {Vars Rng}.
Arguments rng {Vars Rng}.
Arguments files {Vars Rng}.
Arguments assign_global_step {Vars Rng}.
Arguments restore {Vars Rng}.
Arguments restore_model {Vars Rng}.
Arguments save {Vars Rng}.
Arguments train_pass {Sample Vars Rng}.
Arguments valid_pass {Sample Vars Rng}.
Arguments print_epoch {Sample Vars Rng}.
Arguments epoch {Sample Vars Rng}.
Arguments epochs {Vars Rng}.
Arguments prepare {Sample Vars Rng Encoder}.
Arguments train {Sample Vars Rng Encoder}.
Arguments passes {Sample Vars Rng}.
Arguments validation_losses {Sample Vars Rng}.

(** *** The graph and its feeds

    [sess.run(fetch, feed_dict)] evaluates a tensor of the graph from the
    fed values.  Before anything runs, the shape of each fed value is
    compared with the static shape of the tensor it is fed for (a value
    that does not fit is a [ValueError]); the evaluation then fails with
    [InvalidArgumentError] when the fetched tensor depends, not through a
    fed tensor, on a placeholder that was not fed.  What remains of the
    evaluation is a parameter, and may fail on its own account. *)

Module Graph.

(** The tensors that [__init__], [_encoder], [_sample_z], [_mmd_decoder]
    and [_loss_function] store in the instance. *)
Inductive tensor : Type :=
| is_training | x | z | encoder_labels | decoder_labels | time_step | size
| mu | log_var | z_mean | x_hat | mmd_hl
| kl_loss | recon_loss | kl_recon_loss | mmd_loss | trvae_loss | solver.

#[global] Instance tensor_eq_dec : EqDecision tensor.
Proof. solve_decision. Defined.

(** The tensors created by [tf.placeholder]. *)
Definition is_placeholder (t : tensor) : bool :=
  match t with
  | is_training | x | z | encoder_labels | decoder_labels | time_step
  | size => true
  | _ => false
  end.

(** The tensors each tensor is computed from: [mu] and [log_var] from
    the concatenation of [x] and [encoder_labels], through layers that
    read [is_training]; [z_mean] from them and from a noise of [size] rows;
    [x_hat] and [mmd_hl] from the concatenation of [z_mean] and
    [decoder_labels], again through layers that read [is_training]; the
    losses as [_loss_function] writes them; [solver] from the total loss
    and from the update operations of the batch normalisations. *)
Definition inputs (t : tensor) : list tensor :=
  match t with
  | mu | log_var => [x; encoder_labels; is_training]
  | z_mean => [mu; log_var; size]
  | x_hat | mmd_hl => [z_mean; decoder_labels; is_training]
  | kl_loss => [log_var; mu]
  | recon_loss => [x; x_hat]
  | kl_recon_loss => [recon_loss; kl_loss]
  | mmd_loss => [decoder_labels; mmd_hl]
  | trvae_loss => [mmd_loss; kl_recon_loss]
  | solver => [trvae_loss; mu; x_hat]
  | _ => []
  end.

(** The placeholders a fetch needs and the feed does not give; no
    tensor lies deeper than [depth] below another. *)
Fixpoint unfed (fuel : nat) (fed : list tensor) (t : tensor) : list tensor :=
  if existsb (fun u => bool_decide (u = t)) fed then []
  else if is_placeholder t then [t]
  else
    match fuel with
    | O => []
    | S fuel' => flat_map (unfed fuel' fed) (inputs t)
    end.

Definition depth : nat := 8.

Definition missing (fed : list tensor) (fetch : tensor) : list tensor :=
  remove_dups (unfed depth fed fetch).

End Graph.

(** The static shape of the tensors that the methods feed; [None] is a
    shape, or a dimension, that is not fixed. *)
Definition static_shape (self : instance) (t : Graph.tensor)
  : option (list (option nat)) :=
  match t with
  | Graph.x => Some [None; Some (x_dim self)]
  | Graph.z | Graph.z_mean | Graph.mu | Graph.log_var =>
      Some [None; Some (z_dim self)]
  | Graph.encoder_labels | Graph.decoder_labels =>
      Some [None; Some (n_conditions self)]
  | Graph.x_hat => Some [None; Some (x_dim self)]
  | Graph.mmd_hl => Some [None; Some (mmd_dim self)]
  | _ => None
  end.

Definition compatible (static : option (list (option nat)))
    (actual : list nat) : bool :=
  match static with
  | None => true
  | Some dims =>
      (length dims =? length actual)%nat
      && forallb (fun da => match fst da with
                            | None => true
                            | Some d => (d =? snd da)%nat
                            end)
                 (zip dims actual)
  end.

Section Feeds.

Variable Vars Rng : Type.

(** The evaluation proper of a fetch whose feed passed both tests: it
    draws the noise of [_sample_z] from the pseudo-random source. *)
Variable evaluate :
  instance -> session Vars -> Rng -> list (Graph.tensor * ndarray) ->
  Graph.tensor -> Py.outcome (ndarray * Rng).

(** [self.sess.run(fetch, feed_dict=...)] for a single fetch that does
    not update the variables. *)
Definition sess_run (self : instance) (fetch : Graph.tensor)
    (feed_dict : list (Graph.tensor * ndarray))
  : Py.M (world Vars Rng) ndarray :=
  if negb (forallb (fun tv => compatible (static_shape self (fst tv))
                                         (nd_shape (snd tv)))
                   feed_dict)
  then Py.raise Py.ValueError
  else
    match Graph.missing (map fst feed_dict) fetch with
    | _ :: _ => Py.raise Py.InvalidArgumentError
    | [] =>
        run! w <- Py.get;
        match evaluate self (sess w) (rng w) feed_dict fetch with
        | Py.Returns (value, g) =>
            exec! Py.modify (set_rng Vars Rng g);
            Py.ret value
        | Py.Raises e => Py.raise e
        end
    end.

(** [to_latent(data, labels)]. *)
Definition to_latent (self : instance) (data : matrix) (labels : ndarray)
  : Py.M (world Vars Rng) ndarray :=
  let data := toarray data in
  match nd_shape data with
  | [] => Py.raise Py.IndexError
  | n :: _ =>
      sess_run self Graph.z_mean
        [(Graph.x, data); (Graph.encoder_labels, labels);
         (Graph.size, scalar (INR n)); (Graph.is_training, scalar 0)]
  end.

(** [to_mmd_layer(data, labels)]. *)
Definition to_mmd_layer (self : instance) (data labels : ndarray)
  : Py.M (world Vars Rng) ndarray :=
  match nd_shape data with
  | [] => Py.raise Py.IndexError
  | n :: _ =>
      sess_run self Graph.mmd_hl
        [(Graph.x, data); (Graph.decoder_labels, labels);
         (Graph.size, scalar (INR n)); (Graph.is_training, scalar 0)]
  end.

(** The error of the conversion to an array of a fed value that is not
    one; its class is that of the library. *)
Variable conversion_error : Py.exn.

(** [_reconstruct(data, labels, use_data)].  A sparse matrix that is
    given as [latent] is fed as it is, and is not converted. *)
Definition _reconstruct (self : instance) (data : matrix) (labels : ndarray)
    (use_data : bool) : Py.M (world Vars Rng) ndarray :=
  run! latent <-
    (if use_data then
       match data with
       | Dense a => Py.ret a
       | Sparse _ => Py.raise conversion_error
       end
     else to_latent self data labels);
  sess_run self Graph.x_hat
    [(Graph.z_mean, latent); (Graph.encoder_labels, reshape_column labels);
     (Graph.is_training, scalar 0)].

(** [predict(data, labels)], from [data.X]; the densification of
    [data.X] in place is not part of the embedding. *)
Definition predict (self : instance) (data_X : matrix) (labels : ndarray)
  : Py.M (world Vars Rng) ndarray :=
  _reconstruct self (Dense (toarray data_X)) labels false.

End Feeds.

Arguments sess_run {Vars Rng}.
Arguments to_latent {Vars Rng}.
Arguments to_mmd_layer {Vars Rng}.
Arguments _reconstruct {Vars Rng}.
Arguments predict {Vars Rng}.

End RCVAEMultiTF.

(** ** The quantities the specification names *)

Module Spec.

Import Fl Backend.
Local Open Scope R_scope.

(** The mean of the squared differences between two rows. *)
Definition mean_squared_difference (xi yj : list R) : R :=
  reduce_sum (map square (zip_with Rminus xi yj)) / INR (length xi).


(** Entry [(i, j)] of a matrix. *)
Definition entry {A : Type} (m : list (list A)) (i j : nat) : option A :=
  row ← m !! i; row !! j.


(** The mean over all the entries of a matrix: their sum divided by
    their number. *)
Definition sum_entries (m : list (list R)) : R :=
  reduce_sum (map reduce_sum m).

Definition count_entries (m : list (list R)) : nat :=
  list_sum (map (@length R) m).

Definition average (m : list (list R)) : R :=
  sum_entries m / INR (count_entries m).

(** The kernel kinds of [RCVAE] and [RCCVAE], and those of
    [RCVAEMultiTF]. *)
Definition supported (kernel : string) : Prop :=
  kernel = "rbf" \/ kernel = "raphy" \/ kernel = "multi-scale-rbf".

Definition supported_multi (kernel : string) : Prop :=
  kernel = "rbf" \/ kernel = "multi-scale-rbf".

(** A batch with at least one row and at least one column. *)
Definition non_empty (t : tensor2) : Prop :=
  (0 < shape0 t)%nat /\ (0 < shape1 t)%nat.

(** A label of the two-condition models. *)
Definition binary (p : Z) : Prop := p = 0%Z \/ p = 1%Z.

(** The group of a label: the rows of the batch that carry it, in the
    order of the batch. *)
Fixpoint label_rows (rows : list (list R)) (labels : list Z) (l : Z)
  : list (list R) :=
  match rows, labels with
  | r :: rows', p :: labels' =>
      if Z.eqb p l then r :: label_rows rows' labels' l
      else label_rows rows' labels' l
  | _, _ => []
  end.

Definition label_group (t : tensor2) (labels : list Z) (l : Z) : tensor2 :=
  Tensor2 (shape1 t) (label_rows (data t) labels l).

(** The sum of [f 0 .. f (n - 1)]. *)
Definition sum_upto (f : nat -> R) (n : nat) : R :=
  reduce_sum (map f (seq 0 n)).

(** The sum of [compute_mmd(partition k, partition k + 1)] over the
    adjacent pairs, each pair once. *)
Fixpoint adjacent_pairs_once (parts : list tensor2) (kernel : string)
  : Py.outcome fl :=
  match parts with
  | a :: (b :: _) as rest =>
      do! m <- RCVAEMultiTF.compute_mmd a b kernel;
      do! r <- adjacent_pairs_once rest kernel;
      Py.Returns (add m r)
  | _ => Py.Returns (Some 0)
  end.

(** A matrix with [r] rows and [c] columns. *)
Definition has_shape {A : Type} (m : list (list A)) (r c : nat) : Prop :=
  length m = r /\ Forall (fun row => length row = c) m.

End Spec.

(** ** Vocabulary of the proofs *)

Module Aux.

Import Fl Backend.
Local Open Scope R_scope.

(** What the [rbf] branch computes from the difference of a pair of
    rows. *)
Definition rbf_cell (dim : nat) (d : list R) : fl :=
  m ← reduce_mean (map square d); Some (exp (- m / INR dim)).

(** What the [multi-scale-rbf] branch computes from one squared
    distance: the column sum of [exp(-s)] over the bandwidths, divided by
    their number. *)
Definition multi_scale_cell (sig : list R) (d : R) : R :=
  foldr (fun s acc => exp (- (1 / (2 * s) * d + 0)) + acc) 0 sig
  / INR (length sig).

(** The real value of an [rbf] entry, and of a [raphy] entry for scales
    that are not zero. *)
Definition rbf_value (dim : nat) (d : list R) : R :=
  exp (- (reduce_sum (map square d) / INR (length d)) / INR dim).

Definition raphy_value (scales : list R) (d : R) : R :=
  foldr (fun s acc => INR (length scales) * exp (- d / s ^ 2) + acc) 0 scales.

(** The real value of an entry of the kernel matrix of a kind, from the
    difference of the pair of rows. *)
Definition cell_value (kernel : string) (scales : list R) (dim : nat)
    (d : list R) : R :=
  if String.eqb kernel "rbf" then rbf_value dim d
  else if String.eqb kernel "raphy" then
    raphy_value scales (reduce_sum (map square d))
  else multi_scale_cell RCVAE.sigmas (reduce_sum (map square d)).

(** The same model with another condition list. *)
Definition with_conditions (self : RCVAE.instance)
    (c : option (list string)) : RCVAE.instance :=
  RCVAE.Instance (RCVAE.x_dim self) (RCVAE.z_dim self) (RCVAE.mmd_dim self)
    (RCVAE.lr self) (RCVAE.beta self) c (RCVAE.dr_rate self)
    (RCVAE.model_to_use self) (RCVAE.kernel_method self).

Definition with_conditions_conv (self : RCCVAE.instance)
    (c : option (list string)) : RCCVAE.instance :=
  RCCVAE.Instance (RCCVAE.x_dim self) (RCCVAE.z_dim self)
    (RCCVAE.mmd_dim self) (RCCVAE.lr self) (RCCVAE.alpha self)
    (RCCVAE.beta self) c (RCCVAE.dr_rate self) (RCCVAE.model_to_use self)
    (RCCVAE.train_with_fake_labels self) (RCCVAE.kernel_method self)
    (RCCVAE.arch_style self).

(** [it > 0 and loss_hist[it - 1] - loss_hist[it] > min_delta] on a
    history that has the entry [it]. *)
Definition better (hist : list Q) (it : nat) (min_delta : Q) : bool :=
  (0 <? it)%nat
  && negb (Qle_bool (nth (it - 1) hist 0%Q - nth it hist 0%Q) min_delta).

(** [patience_cnt] after the epochs [0 .. k - 1] of a history. *)
Fixpoint count (hist : list Q) (min_delta : Q) (k : nat) : nat :=
  match k with
  | O => O
  | S k' =>
      if better hist k' min_delta then O else S (count hist min_delta k')
  end.

(** The losses of the epochs [p .. p + n - 1] are one value. *)
Definition plateau (hist : list Q) (p n : nat) (c : Q) : Prop :=
  forall k, (p <= k < p + n)%nat -> (nth k hist 0 == c)%Q.

(** A kernel matrix without NaN. *)
Definition real_matrix (m : list (list R)) : list (list fl) :=
  map (map Some) m.

End Aux.

(** ** Concrete inputs *)

Module Examples.

Import Fl Backend.
Local Open Scope R_scope.

(** An [RCVAE] with the defaults of its constructor, for ten genes. *)
Definition dense_model : RCVAE.instance :=
  RCVAE.Instance 10 100 128 0.001 100 None 0.2 "./" "multi-scale-rbf".

(** An [RCCVAE] with the defaults of its constructor, for an MMD layer
    of width 1. *)
Definition conv_model : RCCVAE.instance :=
  RCCVAE.Instance [28; 28; 1]%nat 100 1 0.001 0.001 100 None 0.2 "./" false
                  "multi-scale-rbf" 1.

(** An [RCVAE] with the [raphy] kernel. *)
Definition raphy_model : RCVAE.instance :=
  RCVAE.Instance 10 100 128 0.001 100 None 0.2 "./" "raphy".

(** A batch of two activations of width 1, both taken from one
    condition, and then one from each. *)
Definition pair_batch : tensor2 := Tensor2 1 [[0]; [1]].
Definition same_labels : list Z := [0%Z; 0%Z].
Definition mixed_labels : list Z := [0%Z; 1%Z].

(** An [RCVAEMultiTF] for three conditions, an MMD layer of width 1 and
    the [rbf] kernel; a batch with one sample of each condition, its
    one-hot labels, and its three partitions. *)
Definition multi_model : RCVAEMultiTF.instance :=
  RCVAEMultiTF.Instance 10 100 1 3 0.001 0.001 100 0.2 "./" "rbf" "relu"
                        "mse" 0.1 3.
Definition batch3 : tensor2 := Tensor2 1 [[0]; [1]; [1]].
Definition one_hot3 : list (list R) := [[1; 0; 0]; [0; 1; 0]; [0; 0; 1]].
Definition parts3 : list tensor2 :=
  [Tensor2 1 [[0]]; Tensor2 1 [[1]]; Tensor2 1 [[1]]].

(** One-hot labels of a batch of three samples in which the third
    condition does not occur. *)
Definition one_hot_missing : list (list R) :=
  [[1; 0; 0]; [0; 1; 0]; [0; 1; 0]].

(** An [RCVAEMultiTF] for two conditions, with the kernel and the [beta]
    of [dense_model], and the one-hot labels of [mixed_labels]. *)
Definition pair_model : RCVAEMultiTF.instance :=
  RCVAEMultiTF.Instance 10 100 1 2 0.001 0.001 100 0.2 "./"
                        "multi-scale-rbf" "relu" "mse" 0.1 3.
Definition one_hot2 : list (list R) := [[1; 0]; [0; 1]].

(** The MMD of the adjacent pairs of [parts3]. *)
Definition mmd3 (k : nat) : R :=
  match k with
  | O => 2 - 2 * exp (- 1)
  | _ => 0
  end.

(** The literal batches of the kernel example: [[[0, 0]]] and
    [[[1, 1]]]. *)
Definition zeros : tensor2 := Tensor2 2 [[0; 0]].
Definition ones : tensor2 := Tensor2 2 [[1; 1]].

Definition toy_compose (e d : nat) : nat := (e + d)%nat.


(** A model directory that holds the three files [restore_model] reads,
    and the instance after it has read them. *)
Definition archived_world : RCVAE.world nat unit :=
  RCVAE.World RCVAE.Shared 0%nat 0%nat tt
    {[ "./mmd_ae.h5"%string := 7%nat; "./encoder.h5"%string := 3%nat;
       "./decoder.h5"%string := 4%nat ]}.
Definition restored_world : RCVAE.world nat unit :=
  RCVAE.World (RCVAE.Own 7%nat) 3%nat 4%nat tt
    (RCVAE.files archived_world).

(** Stand-ins for the session of [RCVAEMultiTF]: the variables are the
    number of optimiser steps taken; the validation loss is 1 after the
    first step and 1/2 from the second step on. *)
Definition toy_label_encoder (d : list unit) (le : option unit)
    (key : string) : Py.outcome (list nat * unit) :=
  Py.Returns (map (fun _ => O) d, tt).
Definition toy_shuffle_multi (d : list unit) (y : list nat) (g : unit)
  : list unit * list nat * unit := (d, y, g).
Definition toy_run_train (self : RCVAEMultiTF.instance)
    (s : RCVAEMultiTF.session nat) (g : unit) (x : list unit) (y : list nat)
  : nat * unit * Q * Q := (S (RCVAEMultiTF.variables s), g, 0%Q, 0%Q).
Definition toy_run_valid (self : RCVAEMultiTF.instance)
    (s : RCVAEMultiTF.session nat) (g : unit) (x : list unit) (y : list nat)
  : unit * Q * Q :=
  (g, if (RCVAEMultiTF.variables s <=? 1)%nat then 1%Q else (1 # 2)%Q,
   0%Q).

(** [train] on the stand-ins, with one training and one validation
    sample. *)
Definition toy_train (use_validation : bool) (valid_data : option (list unit))
    (n_epochs early_stop_limit : nat) (initial_run : bool)
  : Py.M (RCVAEMultiTF.world nat unit) RCVAEMultiTF.locals :=
  RCVAEMultiTF.train toy_label_encoder toy_shuffle_multi
    toy_run_train toy_run_valid multi_model [tt] None "condition"
    use_validation valid_data n_epochs 32%nat early_stop_limit 0%Z 0.0025%Q
    initial_run true true.

(** The validation losses of the stand-ins: 1 at the first epoch, then
    1/2 for 25 epochs. *)
Definition toy_losses : list Q := 1%Q :: replicate 25 (1 # 2)%Q.

(** A session that has been trained for 25 epochs, and a model directory
    with an older checkpoint. *)
Definition trained_world : RCVAEMultiTF.world nat unit :=
  RCVAEMultiTF.World (RCVAEMultiTF.Session 25%Z 25%nat) tt
    {[ "./"%string := RCVAEMultiTF.Session 3%Z 3%nat ]}.

(** A new session and an empty model directory. *)
Definition new_world : RCVAEMultiTF.world nat unit :=
  RCVAEMultiTF.World (RCVAEMultiTF.Session 0%Z 0%nat) tt ∅.

(** An [RCVAEMultiTF] for a single condition, and the one-hot labels of
    a batch of two samples. *)
Definition single_model : RCVAEMultiTF.instance :=
  RCVAEMultiTF.Instance 1 1 1 1 0.001 0.001 100 0.2 "./" "rbf" "relu"
                        "mse" 0.1 3.
Definition one_hot1 : list (list R) := [[1]; [1]].

(** Two cells of ten genes, their one-hot labels for [multi_model], and a
    latent array of two rows. *)
Definition cells : ndarray := NdArray [2; 10]%nat (replicate 20 0).
Definition cell_labels : ndarray := NdArray [2; 3]%nat [1; 0; 0; 0; 1; 0].
Definition latent2 : ndarray := NdArray [2; 100]%nat (replicate 200 0).

(** A stand-in for the evaluation of the graph: every fetch is
    [latent2]. *)
Definition toy_evaluate (self : RCVAEMultiTF.instance)
    (s : RCVAEMultiTF.session nat) (g : unit)
    (feed_dict : list (RCVAEMultiTF.Graph.tensor * ndarray))
    (fetch : RCVAEMultiTF.Graph.tensor) : Py.outcome (ndarray * unit) :=
  Py.Returns (latent2, g).

(** Stand-ins for the Keras models of [RCCVAE], as for [RCVAE]: a fit
    increases the weights, the encoder returns its weights. *)
Definition conv_label_encoder (d : list nat) : Py.outcome (list nat) :=
  Py.Returns d.
Definition conv_ones_like (l : list nat) : list nat := map (fun _ => 1%nat) l.
Definition conv_densify (d : list nat) : list nat := d.
Definition conv_reshape_X (self : RCCVAE.instance) (d : list nat)
  : Py.outcome (list nat) := Py.Returns d.
Definition conv_fit (e d : nat)
    (a : RCCVAE.fit_args (list nat) (list nat)) (g : unit)
  : nat * nat * unit * Py.outcome unit := (S e, S d, g, Py.Returns tt).
Definition conv_fit_own (m : nat)
    (a : RCCVAE.fit_args (list nat) (list nat)) (g : unit)
  : nat * unit * Py.outcome unit := (S m, g, Py.Returns tt).

(** A fresh [RCCVAE] with an empty model directory, and the instance
    after a [train] that saves. *)
Definition conv_fresh_world : RCCVAE.world nat unit :=
  RCCVAE.World RCCVAE.Shared 0%nat 0%nat tt ∅.

End Examples.

(** * Properties *)

(** ** Lists and tensors *)

Section TensorFacts.

Import Fl Backend.
Local Open Scope R_scope.

Lemma zip_with_replicate_l {A B C : Type} (g : A -> B -> C) (a : A)
    (l : list B) :
  zip_with g (replicate (length l) a) l = map (g a) l.
Proof.
  induction l as [|b l IH]; simpl; [reflexivity|].
  now rewrite IH.
Qed.

Lemma zip_with_replicate_r {A B C : Type} (g : A -> B -> C) (b : B)
    (l : list A) :
  zip_with g l (replicate (length l) b) = map (fun a => g a b) l.
Proof.
  induction l as [|a l IH]; simpl; [reflexivity|].
  now rewrite IH.
Qed.

(** The two tiled operands of the [rbf] branch subtract to the broadcast
    difference. *)
Lemma sub3_tiles (x y : list (list R)) :
  sub3 (tile_x x (length y)) (tile_y y (length x)) = broadcast_sub x y.
Proof.
  unfold sub3, tile_x, tile_y, broadcast_sub.
  induction x as [|xi x IH]; simpl; [reflexivity|].
  rewrite IH. f_equal.
  apply zip_with_replicate_l.
Qed.

Lemma broadcast_sub_entry (x y : list (list R)) i j xi yj :
  x !! i = Some xi -> y !! j = Some yj ->
  Spec.entry (broadcast_sub x y) i j = Some (zip_with Rminus xi yj).
Proof.
  intros Hx Hy. unfold Spec.entry, broadcast_sub.
  rewrite list_lookup_fmap, Hx. simpl.
  now rewrite list_lookup_fmap, Hy.
Qed.

Lemma entry_map {A B : Type} (f : A -> B) (m : list (list A)) i j :
  Spec.entry (map (map f) m) i j = f <$> Spec.entry m i j.
Proof.
  unfold Spec.entry. rewrite list_lookup_fmap.
  destruct (m !! i) as [row|]; simpl; [|reflexivity].
  apply list_lookup_fmap.
Qed.

Lemma has_shape_map {A B : Type} (f : A -> B) (m : list (list A)) r c :
  Spec.has_shape m r c -> Spec.has_shape (map (map f) m) r c.
Proof.
  intros [Hr Hc]. split.
  - now rewrite length_map.
  - apply Forall_fmap. eapply Forall_impl; [exact Hc|].
    intros row Hrow. simpl. now rewrite length_map.
Qed.

Lemma broadcast_sub_shape (x y : list (list R)) :
  Spec.has_shape (broadcast_sub x y) (length x) (length y).
Proof.
  unfold broadcast_sub. split.
  - now rewrite length_map.
  - apply Forall_fmap, Forall_forall. intros xi _. simpl.
    now rewrite length_map.
Qed.

End TensorFacts.

(** ** The [rbf] kernel *)

Section Rbf.

Import Fl Backend.
Local Open Scope R_scope.

Lemma rbf_branch x y scales :
  RCVAE.compute_kernel x y "rbf" scales =
  Some (map (map (Aux.rbf_cell (shape1 x))) (broadcast_sub (data x) (data y))).
Proof.
  unfold RCVAE.compute_kernel. simpl String.eqb. cbv iota.
  unfold shape0. now rewrite sub3_tiles.
Qed.

Lemma rbf_branch_multi x y :
  RCVAEMultiTF.compute_kernel x y "rbf" =
  Some (map (map (Aux.rbf_cell (shape1 x))) (broadcast_sub (data x) (data y))).
Proof.
  unfold RCVAEMultiTF.compute_kernel. simpl String.eqb. cbv iota.
  unfold shape0. now rewrite sub3_tiles.
Qed.

Lemma rbf_branch_conv x y scales :
  RCCVAE.compute_kernel x y "rbf" scales =
  Some (map (map (Aux.rbf_cell (shape1 x))) (broadcast_sub (data x) (data y))).
Proof.
  unfold RCCVAE.compute_kernel. simpl String.eqb. cbv iota.
  unfold shape0. now rewrite sub3_tiles.
Qed.

Lemma rbf_rows_cell dim (xi yj : list R) :
  length xi = dim -> length yj = dim -> (0 < dim)%nat ->
  Aux.rbf_cell dim (zip_with Rminus xi yj) =
  Some (exp (- Spec.mean_squared_difference xi yj / INR dim)).
Proof.
  intros Hx Hy Hd. unfold Aux.rbf_cell, Spec.mean_squared_difference.
  assert (Hlen : length (map square (zip_with Rminus xi yj)) = length xi).
  { rewrite length_map, length_zip_with. lia. }
  destruct (map square (zip_with Rminus xi yj)) as [|v l] eqn:E.
  - simpl in Hlen. lia.
  - unfold reduce_mean. cbn [mbind option_bind]. now rewrite Hlen.
Qed.

End Rbf.

Section RbfClaim.

Import Fl Backend Examples.
Local Open Scope R_scope.

Lemma rbf_entries x y :
  wf x -> wf y -> shape1 y = shape1 x -> (0 < shape1 x)%nat ->
  let M := map (map (Aux.rbf_cell (shape1 x)))
               (broadcast_sub (data x) (data y)) in
  Spec.has_shape M (shape0 x) (shape0 y) /\
  forall i j xi yj,
    data x !! i = Some xi -> data y !! j = Some yj ->
    Spec.entry M i j =
    Some (Some (exp (- Spec.mean_squared_difference xi yj / INR (shape1 x)))).
Proof.
  intros Hx Hy Hw Hd M. split.
  - apply has_shape_map, broadcast_sub_shape.
  - intros i j xi yj Hi Hj. unfold M. rewrite entry_map.
    rewrite (broadcast_sub_entry _ _ _ _ _ _ Hi Hj). simpl. f_equal.
    apply rbf_rows_cell; [| |exact Hd].
    + eapply (proj1 (Forall_lookup _ _) Hx); eassumption.
    + rewrite <- Hw. eapply (proj1 (Forall_lookup _ _) Hy); eassumption.
Qed.

Lemma rbf_zeros_zeros :
  map (map (Aux.rbf_cell 2)) (broadcast_sub (data zeros) (data zeros)) =
  [[Some 1]].
Proof.
  cbn -[INR exp Rdiv]. do 3 f_equal. rewrite <- exp_0. f_equal.
  unfold square. simpl. lra.
Qed.

Lemma rbf_zeros_ones :
  map (map (Aux.rbf_cell 2)) (broadcast_sub (data zeros) (data ones)) =
  [[Some (exp (- (1 / 2)))]].
Proof.
  cbn -[INR exp Rdiv]. do 4 f_equal.
  unfold square. simpl. lra.
Qed.

(** C2, as amended.  In [RCVAE] and in [RCVAEMultiTF],
    [compute_kernel(x, y, 'rbf')] returns the [batch_x]-by-[batch_y] matrix
    whose entry [(i, j)] is [exp(-(mean squared difference between row x_i
    and row y_j) / dim)]; for [x = [[0, 0]]] and [y = [[0, 0]]] the kernel
    value is [1], and for [x = [[0, 0]]] and [y = [[1, 1]]] it is
    [exp(-1/2)] (mean squared difference 1, divided by [dim = 2]). *)
Theorem rbf_kernel_entrywise :
  (forall x y scales,
     wf x -> wf y -> shape1 y = shape1 x -> (0 < shape1 x)%nat ->
     exists M,
       RCVAE.compute_kernel x y "rbf" scales = Some M /\
       RCVAEMultiTF.compute_kernel x y "rbf" = Some M /\
       Spec.has_shape M (shape0 x) (shape0 y) /\
       forall i j xi yj,
         data x !! i = Some xi -> data y !! j = Some yj ->
         Spec.entry M i j =
         Some (Some (exp (- Spec.mean_squared_difference xi yj
                          / INR (shape1 x))))) /\
  RCVAE.compute_kernel zeros zeros "rbf" [] = Some [[Some 1]] /\
  RCVAEMultiTF.compute_kernel zeros zeros "rbf" = Some [[Some 1]] /\
  RCVAE.compute_kernel zeros ones "rbf" [] = Some [[Some (exp (- (1 / 2)))]] /\
  RCVAEMultiTF.compute_kernel zeros ones "rbf" =
    Some [[Some (exp (- (1 / 2)))]].
Proof.
  split; [|repeat split].
  - intros x y scales Hx Hy Hw Hd.
    destruct (rbf_entries x y Hx Hy Hw Hd) as [Hs He].
    eexists. split; [apply rbf_branch|].
    split; [apply rbf_branch_multi|]. split; assumption.
  - rewrite rbf_branch. f_equal. apply rbf_zeros_zeros.
  - rewrite rbf_branch_multi. f_equal. apply rbf_zeros_zeros.
  - rewrite rbf_branch. f_equal. apply rbf_zeros_ones.
  - rewrite rbf_branch_multi. f_equal. apply rbf_zeros_ones.
Qed.

(** The general part of C2 at the literal batches [[[0, 0]]] and
    [[[1, 1]]]. *)
Lemma rbf_kernel_entrywise_witness :
  exists M,
    RCVAE.compute_kernel zeros ones "rbf" [] = Some M /\
    RCVAEMultiTF.compute_kernel zeros ones "rbf" = Some M /\
    Spec.has_shape M 1 1 /\
    forall i j xi yj,
      data zeros !! i = Some xi -> data ones !! j = Some yj ->
      Spec.entry M i j =
      Some (Some (exp (- Spec.mean_squared_difference xi yj / INR 2))).
Proof.
  apply (proj1 rbf_kernel_entrywise zeros ones []).
  - repeat constructor.
  - repeat constructor.
  - reflexivity.
  - simpl. lia.
Defined.

(** C2 as stated fails at its own literal example: for [x = [[0, 0]]] and
    [y = [[1, 1]]] the kernel value is not [exp(-1)]. *)
Lemma rbf_kernel_literal_example_fails :
  RCVAE.compute_kernel zeros ones "rbf" [] <> Some [[Some (exp (- 1))]] /\
  RCVAEMultiTF.compute_kernel zeros ones "rbf" <> Some [[Some (exp (- 1))]].
Proof.
  rewrite rbf_branch, rbf_branch_multi.
  change (shape1 zeros) with 2%nat. rewrite rbf_zeros_ones.
  split; intros H; injection H as H; apply exp_inv in H; lra.
Qed.

End RbfClaim.

(** ** The [multi-scale-rbf] kernel *)

Section MultiScale.

Import Fl Backend.
Local Open Scope R_scope.

Lemma vadd_map {A : Type} (f g : A -> R) (l : list A) :
  vadd (map f l) (map g l) = map (fun v => f v + g v) l.
Proof.
  unfold vadd. induction l as [|a l IH]; simpl; [reflexivity|].
  now rewrite IH.
Qed.

Lemma replicate_as_map {A : Type} (c : R) (l : list A) :
  replicate (length l) c = map (fun _ => c) l.
Proof.
  induction l as [|a l IH]; simpl; [reflexivity|]. now rewrite IH.
Qed.

(** [dot] of the column of the [1 / (2 sigma)] with the flattened
    distances: one row per bandwidth. *)
Lemma dot_column (sig flat : list R) :
  dot (length flat) (map (fun s => [1 / (2 * s)]) sig) [flat] =
  map (fun s => map (fun v => 1 / (2 * s) * v + 0) flat) sig.
Proof.
  unfold dot. rewrite map_map. apply map_ext. intros s. simpl.
  rewrite replicate_as_map. apply vadd_map.
Qed.

(** [reduce_sum(_, 0)] of a matrix given row by row as functions of the
    column. *)
Lemma reduce_sum_axis0_map {A B : Type} (g : B -> A -> R) (rows : list B)
    (l : list A) :
  reduce_sum_axis0 (length l) (map (fun b => map (g b) l) rows) =
  map (fun v => foldr (fun b acc => g b v + acc) 0 rows) l.
Proof.
  unfold reduce_sum_axis0.
  induction rows as [|b rows IH]; simpl.
  - apply replicate_as_map.
  - rewrite IH. apply vadd_map.
Qed.

Lemma reshape_map (h : R -> R) r c (v : list R) :
  reshape r c (map h v) = map (map h) (reshape r c v).
Proof.
  revert v. induction r as [|r IH]; intros v; simpl; [reflexivity|].
  rewrite <- fmap_take, <- fmap_drop. now rewrite IH.
Qed.

Lemma reshape_concat (D : list (list R)) r c :
  Spec.has_shape D r c -> reshape r c (concat D) = D.
Proof.
  intros [Hr Hc]. subst r.
  induction D as [|row D IH]; simpl; [reflexivity|].
  inversion Hc as [|? ? Hrow Hrest]; subst.
  rewrite take_app_length, drop_app_length. now rewrite IH.
Qed.

(** The body of the [multi-scale-rbf] branch, on a distance matrix of
    shape [bx, by]. *)
Lemma multi_scale_body (sig : list R) (D : list (list R)) bx by_ :
  Spec.has_shape D bx by_ ->
  map (map (fun v => Some (v / INR (length sig))))
      (reshape bx by_
         (reduce_sum_axis0 (length (concat D))
            (map (map (fun v => exp (- v)))
                 (dot (length (concat D))
                      (map (fun s => [1 / (2 * s)]) sig) [concat D])))) =
  map (map (fun d => Some (Aux.multi_scale_cell sig d))) D.
Proof.
  intros HD. rewrite dot_column, map_map.
  rewrite (map_ext _ (fun s => map (fun v => exp (- (1 / (2 * s) * v + 0)))
                                   (concat D)))
    by (intros s; rewrite map_map; reflexivity).
  rewrite (reduce_sum_axis0_map
             (fun s v => exp (- (1 / (2 * s) * v + 0))) sig (concat D)).
  rewrite reshape_map, (reshape_concat D bx by_ HD).
  rewrite map_map. apply map_ext. intros row. rewrite map_map.
  reflexivity.
Qed.


End MultiScale.

Section MultiScaleClaim.

Import Fl Backend.
Local Open Scope R_scope.

Lemma squared_distance_shape (x y : tensor2) :
  Spec.has_shape (RCVAE.squared_distance x y) (shape0 x) (shape0 y).
Proof. apply has_shape_map, broadcast_sub_shape. Qed.


Lemma multi_scale_branch x y scales :
  RCVAE.compute_kernel x y "multi-scale-rbf" scales =
  Some (map (map (fun d => Some (Aux.multi_scale_cell RCVAE.sigmas d)))
            (RCVAE.squared_distance x y)).
Proof.
  unfold RCVAE.compute_kernel. simpl String.eqb. cbv iota zeta. f_equal.
  apply multi_scale_body, squared_distance_shape.
Qed.

Lemma multi_scale_branch_multi x y :
  RCVAEMultiTF.compute_kernel x y "multi-scale-rbf" =
  Some (map (map (fun d => Some (Aux.multi_scale_cell RCVAE.sigmas d)))
            (RCVAE.squared_distance x y)).
Proof.
  unfold RCVAEMultiTF.compute_kernel. simpl String.eqb. cbv iota zeta.
  f_equal.
  apply (multi_scale_body RCVAE.sigmas (RCVAE.squared_distance x y)),
        squared_distance_shape.
Qed.

Lemma multi_scale_branch_conv x y scales :
  RCCVAE.compute_kernel x y "multi-scale-rbf" scales =
  Some (map (map (fun d => Some (Aux.multi_scale_cell RCVAE.sigmas d)))
            (RCVAE.squared_distance x y)).
Proof.
  unfold RCCVAE.compute_kernel. simpl String.eqb. cbv iota zeta. f_equal.
  apply (multi_scale_body RCVAE.sigmas (RCVAE.squared_distance x y)),
        squared_distance_shape.
Qed.

Lemma sigmas_span :
  Forall (fun s => 1e-6 <= s <= 1e6) RCVAE.sigmas /\
  In 1e-6 RCVAE.sigmas /\ In 1e6 RCVAE.sigmas.
Proof.
  split; [|split].
  - unfold RCVAE.sigmas. repeat (constructor; [lra|]). constructor.
  - simpl. auto.
  - simpl. do 18 right. left. reflexivity.
Qed.



End MultiScaleClaim.

(** ** Kernel matrices without NaN, and their means *)

Section RealKernels.

Import Fl Backend.
Local Open Scope R_scope.

Lemma reals_Some (l : list R) : reals (map Some l) = Some l.
Proof.
  unfold reals. apply mapM_Some.
  induction l as [|v l IH]; constructor; [reflexivity|exact IH].
Qed.

Lemma concat_real_matrix (m : list (list R)) :
  concat (Aux.real_matrix m) = map Some (concat m).
Proof.
  unfold Aux.real_matrix.
  induction m as [|row m IH]; simpl; [reflexivity|].
  now rewrite IH, map_app.
Qed.

Lemma mean_real_matrix (m : list (list R)) :
  mean (Aux.real_matrix m) = reduce_mean (concat m).
Proof.
  unfold mean. now rewrite concat_real_matrix, reals_Some.
Qed.

Lemma reduce_sum_app (a b : list R) :
  reduce_sum (a ++ b) = reduce_sum a + reduce_sum b.
Proof.
  unfold reduce_sum. induction a as [|v a IH]; simpl; [lra|].
  rewrite IH. lra.
Qed.

Lemma reduce_sum_concat (m : list (list R)) :
  reduce_sum (concat m) = Spec.sum_entries m.
Proof.
  unfold Spec.sum_entries.
  induction m as [|row m IH]; simpl; [reflexivity|].
  now rewrite reduce_sum_app, IH.
Qed.

Lemma length_concat_count (m : list (list R)) :
  length (concat m) = Spec.count_entries m.
Proof.
  unfold Spec.count_entries.
  induction m as [|row m IH]; simpl; [reflexivity|].
  now rewrite length_app, IH.
Qed.

Lemma count_entries_shape (m : list (list R)) r c :
  Spec.has_shape m r c -> Spec.count_entries m = (r * c)%nat.
Proof.
  intros [Hr Hc]. subst r. unfold Spec.count_entries.
  induction Hc as [|row m Hrow _ IH]; simpl; [reflexivity|].
  rewrite IH, Hrow. reflexivity.
Qed.

(** The mean of a kernel matrix without NaN and with at least one entry
    is the average of its entries. *)
Lemma mean_average (m : list (list R)) r c :
  Spec.has_shape m r c -> (0 < r)%nat -> (0 < c)%nat ->
  mean (Aux.real_matrix m) = Some (Spec.average m).
Proof.
  intros Hs Hr Hc. rewrite mean_real_matrix.
  pose proof (length_concat_count m) as Hlen.
  rewrite (count_entries_shape m r c Hs) in Hlen.
  unfold Spec.average. rewrite <- reduce_sum_concat.
  rewrite (count_entries_shape m r c Hs), <- Hlen.
  destruct (concat m) as [|v l] eqn:E; [|reflexivity].
  simpl in Hlen. nia.
Qed.

(** The mean of a matrix without entries is NaN. *)
Lemma mean_no_entry (m : list (list fl)) :
  concat m = [] -> mean m = NaN.
Proof. intros H. unfold mean. now rewrite H. Qed.

End RealKernels.

Section KernelKinds.

Import Fl Backend.
Local Open Scope R_scope.

(** The three classes share the text of the kernel. *)
Lemma compute_kernel_conv :
  RCCVAE.compute_kernel = RCVAE.compute_kernel.
Proof. reflexivity. Qed.

Lemma compute_mmd_conv : RCCVAE.compute_mmd = RCVAE.compute_mmd.
Proof. reflexivity. Qed.

Lemma compute_kernel_multi x y kernel scales :
  Spec.supported_multi kernel ->
  RCVAEMultiTF.compute_kernel x y kernel =
  RCVAE.compute_kernel x y kernel scales.
Proof. intros [-> | ->]; reflexivity. Qed.

Lemma compute_mmd_multi x y kernel scales :
  Spec.supported_multi kernel ->
  RCVAEMultiTF.compute_mmd x y kernel = RCVAE.compute_mmd x y kernel scales.
Proof.
  intros H. unfold RCVAEMultiTF.compute_mmd, RCVAE.compute_mmd.
  now rewrite !(compute_kernel_multi _ _ kernel scales H).
Qed.

Lemma supported_multi_supported kernel :
  Spec.supported_multi kernel -> Spec.supported kernel.
Proof. unfold Spec.supported. intros [-> | ->]; auto. Qed.

Lemma rbf_cell_value dim (d : list R) :
  d <> [] -> Aux.rbf_cell dim d = Some (Aux.rbf_value dim d).
Proof.
  intros Hd. unfold Aux.rbf_cell, Aux.rbf_value.
  destruct d as [|v d]; [congruence|].
  unfold reduce_mean. cbn [map mbind option_bind].
  now rewrite !length_cons, length_map.
Qed.

Lemma rbf_real (x y : tensor2) :
  wf x -> wf y -> shape1 y = shape1 x -> (0 < shape1 x)%nat ->
  map (map (Aux.rbf_cell (shape1 x))) (broadcast_sub (data x) (data y)) =
  Aux.real_matrix
    (map (map (Aux.rbf_value (shape1 x))) (broadcast_sub (data x) (data y))).
Proof.
  intros Hx Hy Hw Hd. unfold Aux.real_matrix, broadcast_sub.
  rewrite !map_map. apply map_ext_in. intros xi Hxi.
  rewrite !map_map. apply map_ext_in. intros yj Hyj.
  apply rbf_cell_value.
  apply (proj1 (List.Forall_forall _ _) Hx) in Hxi.
  apply (proj1 (List.Forall_forall _ _) Hy) in Hyj.
  intros E. apply (f_equal (@length R)) in E.
  rewrite length_zip_with in E. simpl in E. lia.
Qed.

Lemma exp_neg_div_value (d s : R) :
  s <> 0 -> exp_neg_div d (s ^ 2) = Some (exp (- d / s ^ 2)).
Proof.
  intros Hs. unfold exp_neg_div.
  destruct (Req_dec_T (s ^ 2) 0) as [E|_]; [|reflexivity].
  exfalso. apply Hs. simpl in E. nra.
Qed.

Lemma zip_add_real (f g : R -> R) (D : list (list R)) :
  zip_with (zip_with add) (map (map (fun d => Some (f d))) D)
                          (map (map (fun d => Some (g d))) D) =
  map (map (fun d => Some (f d + g d))) D.
Proof.
  induction D as [|row D IH]; simpl; [reflexivity|].
  rewrite IH. f_equal.
  induction row as [|v row IHr]; simpl; [reflexivity|].
  now rewrite IHr.
Qed.

(** The [raphy] branch for scales that are not zero, with any weight. *)
Lemma raphy_real_weight (w : R) (scales : list R) (D : list (list R)) :
  Forall (fun s => s <> 0) scales ->
  sum_axis0 (map (map (fun _ => Some 0)) D)
    (map (fun s => map (map (fun d => mul (Some w) (exp_neg_div d (s ^ 2)))) D)
         scales) =
  map (map (fun d =>
              Some (foldr (fun s acc => w * exp (- d / s ^ 2) + acc) 0 scales)))
      D.
Proof.
  intros Hs. unfold sum_axis0.
  induction Hs as [|s scales Hs0 _ IH]; [reflexivity|].
  cbn [map foldr]. rewrite IH.
  rewrite (map_ext _ (map (fun d => Some (w * exp (- d / s ^ 2))))).
  - apply (zip_add_real (fun d => w * exp (- d / s ^ 2))).
  - intros row. apply map_ext. intros d.
    now rewrite (exp_neg_div_value d s Hs0).
Qed.

Lemma raphy_branch x y scales :
  Forall (fun s => s <> 0) scales ->
  RCVAE.compute_kernel x y "raphy" scales =
  Some (Aux.real_matrix
          (map (map (Aux.raphy_value scales)) (RCVAE.squared_distance x y))).
Proof.
  intros Hs. unfold RCVAE.compute_kernel. simpl String.eqb. cbv iota zeta.
  f_equal. rewrite (raphy_real_weight _ _ _ Hs).
  unfold Aux.real_matrix. rewrite map_map. apply map_ext. intros row.
  now rewrite map_map.
Qed.

(** For a supported kind, operands of one positive width and scales that
    are not zero, the kernel matrix has no NaN and the shape
    [batch_x, batch_y]. *)
Lemma kernel_real x y kernel scales :
  Spec.supported kernel ->
  wf x -> wf y -> shape1 y = shape1 x -> (0 < shape1 x)%nat ->
  Forall (fun s => s <> 0) scales ->
  exists M,
    RCVAE.compute_kernel x y kernel scales = Some (Aux.real_matrix M) /\
    Spec.has_shape M (shape0 x) (shape0 y).
Proof.
  intros [-> | [-> | ->]] Hx Hy Hw Hd Hs.
  - eexists. split.
    + rewrite rbf_branch. f_equal. now apply rbf_real.
    + apply has_shape_map, broadcast_sub_shape.
  - eexists. split.
    + now apply raphy_branch.
    + apply has_shape_map, squared_distance_shape.
  - exists (map (map (Aux.multi_scale_cell RCVAE.sigmas))
                (RCVAE.squared_distance x y)). split.
    + rewrite multi_scale_branch. f_equal. unfold Aux.real_matrix.
      rewrite map_map. apply map_ext. intros row. now rewrite map_map.
    + apply has_shape_map, squared_distance_shape.
Qed.

End KernelKinds.

(** ** [compute_mmd] *)

Section ComputeMmd.

Import Fl Backend Examples.
Local Open Scope R_scope.

Lemma compute_mmd_real x y kernel scales Kxx Kyy Kxy :
  RCVAE.compute_kernel x x kernel scales = Some (Aux.real_matrix Kxx) ->
  RCVAE.compute_kernel y y kernel scales = Some (Aux.real_matrix Kyy) ->
  RCVAE.compute_kernel x y kernel scales = Some (Aux.real_matrix Kxy) ->
  Spec.has_shape Kxx (shape0 x) (shape0 x) ->
  Spec.has_shape Kyy (shape0 y) (shape0 y) ->
  Spec.has_shape Kxy (shape0 x) (shape0 y) ->
  (0 < shape0 x)%nat -> (0 < shape0 y)%nat ->
  RCVAE.compute_mmd x y kernel scales =
  Py.Returns
    (Some (Spec.average Kxx + Spec.average Kyy - 2 * Spec.average Kxy)).
Proof.
  intros Hxx Hyy Hxy Sxx Syy Sxy Hx Hy.
  unfold RCVAE.compute_mmd. rewrite Hxx, Hyy, Hxy.
  rewrite (mean_average _ _ _ Sxx Hx Hx), (mean_average _ _ _ Syy Hy Hy),
          (mean_average _ _ _ Sxy Hx Hy).
  reflexivity.
Qed.

(** C4.  For non-empty batches [x] and [y] and every supported kernel
    kind, [compute_mmd(x, y, kernel)] is
    [mean(K(x,x)) + mean(K(y,y)) - 2*mean(K(x,y))], where [K] is
    [compute_kernel] with that kind and each mean is the sum of all the
    entries of the kernel matrix divided by their number.  ([RCVAE], and
    [RCVAEMultiTF] for its two kinds.) *)
Theorem compute_mmd_is_kernel_means x y kernel scales :
  Spec.non_empty x -> Spec.non_empty y ->
  wf x -> wf y -> shape1 y = shape1 x ->
  Spec.supported kernel -> Forall (fun s => s <> 0) scales ->
  exists Kxx Kyy Kxy,
    (RCVAE.compute_kernel x x kernel scales = Some (Aux.real_matrix Kxx) /\
     RCVAE.compute_kernel y y kernel scales = Some (Aux.real_matrix Kyy) /\
     RCVAE.compute_kernel x y kernel scales = Some (Aux.real_matrix Kxy)) /\
    RCVAE.compute_mmd x y kernel scales =
      Py.Returns
        (Some (Spec.average Kxx + Spec.average Kyy - 2 * Spec.average Kxy)) /\
    (Spec.supported_multi kernel ->
     (RCVAEMultiTF.compute_kernel x x kernel = Some (Aux.real_matrix Kxx) /\
      RCVAEMultiTF.compute_kernel y y kernel = Some (Aux.real_matrix Kyy) /\
      RCVAEMultiTF.compute_kernel x y kernel = Some (Aux.real_matrix Kxy)) /\
     RCVAEMultiTF.compute_mmd x y kernel =
       Py.Returns
         (Some (Spec.average Kxx + Spec.average Kyy - 2 * Spec.average Kxy))).
Proof.
  intros [Hx Hdx] [Hy Hdy] Wx Wy Hw Hk Hs.
  destruct (kernel_real x x kernel scales Hk Wx Wx eq_refl Hdx Hs)
    as (Kxx & Exx & Sxx).
  destruct (kernel_real y y kernel scales Hk Wy Wy eq_refl Hdy Hs)
    as (Kyy & Eyy & Syy).
  destruct (kernel_real x y kernel scales Hk Wx Wy Hw Hdx Hs)
    as (Kxy & Exy & Sxy).
  exists Kxx, Kyy, Kxy.
  pose proof (compute_mmd_real x y kernel scales Kxx Kyy Kxy
                Exx Eyy Exy Sxx Syy Sxy Hx Hy) as Hm.
  split; [auto|]. split; [exact Hm|].
  intros Hmulti.
  rewrite !(compute_kernel_multi _ _ kernel scales Hmulti),
          (compute_mmd_multi _ _ kernel scales Hmulti).
  auto.
Qed.

Lemma zeros_non_empty : Spec.non_empty zeros.
Proof. split; cbv; lia. Qed.

Lemma ones_non_empty : Spec.non_empty ones.
Proof. split; cbv; lia. Qed.

Lemma zeros_wf : wf zeros.
Proof. repeat constructor. Qed.

Lemma ones_wf : wf ones.
Proof. repeat constructor. Qed.

Lemma compute_mmd_is_kernel_means_witness :
  exists Kxx Kyy Kxy,
    (RCVAE.compute_kernel zeros zeros "multi-scale-rbf" [] =
       Some (Aux.real_matrix Kxx) /\
     RCVAE.compute_kernel ones ones "multi-scale-rbf" [] =
       Some (Aux.real_matrix Kyy) /\
     RCVAE.compute_kernel zeros ones "multi-scale-rbf" [] =
       Some (Aux.real_matrix Kxy)) /\
    RCVAE.compute_mmd zeros ones "multi-scale-rbf" [] =
      Py.Returns
        (Some (Spec.average Kxx + Spec.average Kyy - 2 * Spec.average Kxy)) /\
    (Spec.supported_multi "multi-scale-rbf" ->
     (RCVAEMultiTF.compute_kernel zeros zeros "multi-scale-rbf" =
        Some (Aux.real_matrix Kxx) /\
      RCVAEMultiTF.compute_kernel ones ones "multi-scale-rbf" =
        Some (Aux.real_matrix Kyy) /\
      RCVAEMultiTF.compute_kernel zeros ones "multi-scale-rbf" =
        Some (Aux.real_matrix Kxy)) /\
     RCVAEMultiTF.compute_mmd zeros ones "multi-scale-rbf" =
       Py.Returns
         (Some (Spec.average Kxx + Spec.average Kyy - 2 * Spec.average Kxy))).
Proof.
  apply (compute_mmd_is_kernel_means zeros ones "multi-scale-rbf" []).
  - exact zeros_non_empty.
  - exact ones_non_empty.
  - exact zeros_wf.
  - exact ones_wf.
  - reflexivity.
  - right. right. reflexivity.
  - constructor.
Defined.

(** C7.  For a non-empty batch [x] and every supported kernel kind,
    [compute_mmd(x, x, kernel)] is 0 in real arithmetic: the three kernel
    means coincide.  ([RCVAE], and [RCVAEMultiTF] for its two kinds.) *)
Theorem compute_mmd_self_is_zero x kernel scales :
  Spec.non_empty x -> wf x ->
  Spec.supported kernel -> Forall (fun s => s <> 0) scales ->
  RCVAE.compute_mmd x x kernel scales = Py.Returns (Some 0) /\
  (Spec.supported_multi kernel ->
   RCVAEMultiTF.compute_mmd x x kernel = Py.Returns (Some 0)).
Proof.
  intros [Hx Hdx] Wx Hk Hs.
  destruct (kernel_real x x kernel scales Hk Wx Wx eq_refl Hdx Hs)
    as (K & E & S).
  assert (H0 : RCVAE.compute_mmd x x kernel scales = Py.Returns (Some 0)).
  { rewrite (compute_mmd_real x x kernel scales K K K E E E S S S Hx Hx).
    do 2 f_equal. ring. }
  split; [exact H0|].
  intros Hmulti. now rewrite (compute_mmd_multi _ _ kernel scales Hmulti).
Qed.

Lemma compute_mmd_self_is_zero_witness :
  RCVAE.compute_mmd ones ones "rbf" [] = Py.Returns (Some 0) /\
  (Spec.supported_multi "rbf" ->
   RCVAEMultiTF.compute_mmd ones ones "rbf" = Py.Returns (Some 0)).
Proof.
  apply (compute_mmd_self_is_zero ones "rbf" []).
  - exact ones_non_empty.
  - exact ones_wf.
  - left. reflexivity.
  - constructor.
Defined.

End ComputeMmd.

(** ** Partitioning a batch by label *)

Section Partition.

Import Fl Backend.

Lemma rows_of_label_rows (d : list (list R)) (partitions : list Z) (i : nat) :
  rows_of d partitions i = Spec.label_rows d partitions (Z.of_nat i).
Proof.
  unfold rows_of. revert partitions.
  induction d as [|r d IH]; intros [|p partitions]; simpl; try reflexivity.
  destruct (Z.eqb p (Z.of_nat i)); simpl; now rewrite IH.
Qed.

Lemma in_range_binary (labels : list Z) :
  Forall Spec.binary labels -> forallb (in_range 2) labels = true.
Proof.
  intros H. apply forallb_forall. intros p Hp.
  apply (proj1 (List.Forall_forall _ _) H) in Hp.
  destruct Hp as [-> | ->]; reflexivity.
Qed.

Lemma in_range_not_binary (labels : list Z) :
  Exists (fun p => ~ Spec.binary p) labels ->
  forallb (in_range 2) labels = false.
Proof.
  intros H. apply List.Exists_exists in H as (p & Hp & Hn).
  destruct (forallb (in_range 2) labels) eqn:E; [|reflexivity].
  exfalso. apply Hn.
  pose proof (proj1 (forallb_forall _ _) E p Hp) as Hr.
  unfold in_range in Hr. apply andb_prop in Hr as [H0 H1].
  apply Z.leb_le in H0. apply Z.ltb_lt in H1.
  unfold Spec.binary. lia.
Qed.

(** With two partitions and labels in {0, 1}, the partition operation
    returns the label-0 group and the label-1 group. *)
Lemma dynamic_partition_binary (t : tensor2) (labels : list Z) :
  length labels = shape0 t -> Forall Spec.binary labels ->
  dynamic_partition t labels 2 =
  Py.Returns [Spec.label_group t labels 0; Spec.label_group t labels 1].
Proof.
  intros Hlen Hb. unfold dynamic_partition.
  rewrite Hlen, Nat.eqb_refl. simpl negb. cbv iota.
  rewrite (in_range_binary _ Hb). simpl.
  now rewrite !rows_of_label_rows.
Qed.

(** A label outside {0, 1} is rejected by the partition operation. *)
Lemma dynamic_partition_out_of_range (t : tensor2) (labels : list Z) :
  Exists (fun p => ~ Spec.binary p) labels ->
  dynamic_partition t labels 2 = Py.Raises Py.InvalidArgumentError.
Proof.
  intros Hn. unfold dynamic_partition.
  destruct (negb (length labels =? shape0 t)%nat); [reflexivity|].
  now rewrite (in_range_not_binary _ Hn).
Qed.

Lemma label_rows_wf (rows : list (list R)) (labels : list Z) l w :
  Forall (fun r => length r = w) rows ->
  Forall (fun r => length r = w) (Spec.label_rows rows labels l).
Proof.
  intros H. revert labels.
  induction H as [|r rows Hr _ IH]; intros [|p labels]; simpl;
    try constructor.
  destruct (Z.eqb p l); [constructor; [exact Hr|]|]; apply IH.
Qed.

Lemma label_group_wf (t : tensor2) (labels : list Z) l :
  wf t -> wf (Spec.label_group t labels l).
Proof. intros H. apply label_rows_wf. exact H. Qed.

(** A group has a row exactly when its label occurs in the batch. *)
Lemma label_rows_empty (rows : list (list R)) (labels : list Z) l :
  length labels = length rows ->
  (Spec.label_rows rows labels l = [] <-> ~ In l labels).
Proof.
  revert labels. induction rows as [|r rows IH]; intros [|p labels] Hlen;
    simpl in *; try discriminate.
  - tauto.
  - injection Hlen as Hlen. specialize (IH labels Hlen).
    destruct (Z.eqb_spec p l) as [-> | Hne].
    + split; [discriminate|]. intros H. exfalso. apply H. now left.
    + rewrite IH. split.
      * intros H [E | E]; [congruence|tauto].
      * intros H E. apply H. now right.
Qed.

Lemma reshape_rows_id (t : tensor2) (c : nat) :
  wf t -> shape1 t = c -> (0 < c)%nat -> reshape_rows t c = Py.Returns t.
Proof.
  intros Hw Hc Hpos. unfold reshape_rows.
  assert (Hs : Spec.has_shape (data t) (shape0 t) c).
  { split; [reflexivity|]. rewrite <- Hc. exact Hw. }
  pose proof (length_concat_count (data t)) as Hlen.
  rewrite (count_entries_shape _ _ _ Hs) in Hlen.
  destruct (Nat.eqb_spec c 0) as [E|_]; [lia|].
  rewrite Hlen, Nat.Div0.mod_mul, Nat.eqb_refl. simpl negb. cbv iota.
  rewrite Nat.div_mul by lia.
  rewrite (reshape_concat _ _ _ Hs).
  destruct t as [w rows]. simpl in *. now subst.
Qed.

End Partition.

(** ** The MMD loss of the two-condition models *)

Section MmdLoss.

Import Fl Backend Examples.
Local Open Scope R_scope.

Lemma mmd_loss_binary self labels y_pred :
  length labels = shape0 y_pred -> Forall Spec.binary labels ->
  RCVAE.mmd_loss self labels y_pred =
  do! loss <- RCVAE.compute_mmd (Spec.label_group y_pred labels 0)
                                (Spec.label_group y_pred labels 1)
                                (RCVAE.kernel_method self) [];
  Py.Returns (mul (Some (RCVAE.beta self)) loss).
Proof.
  intros Hlen Hb. unfold RCVAE.mmd_loss.
  now rewrite (dynamic_partition_binary _ _ Hlen Hb).
Qed.

Lemma mmd_loss_out_of_range self labels y_pred :
  Exists (fun p => ~ Spec.binary p) labels ->
  RCVAE.mmd_loss self labels y_pred = Py.Raises Py.InvalidArgumentError.
Proof.
  intros Hn. unfold RCVAE.mmd_loss.
  now rewrite (dynamic_partition_out_of_range _ _ Hn).
Qed.

Lemma mmd_loss_conv_binary self labels y_pred :
  wf y_pred -> shape1 y_pred = RCCVAE.mmd_dim self ->
  (0 < RCCVAE.mmd_dim self)%nat ->
  length labels = shape0 y_pred -> Forall Spec.binary labels ->
  RCCVAE.mmd_loss self labels y_pred =
  do! loss <- RCCVAE.compute_mmd (Spec.label_group y_pred labels 0)
                                 (Spec.label_group y_pred labels 1)
                                 (RCCVAE.kernel_method self) [];
  Py.Returns (mul (Some (RCCVAE.beta self)) loss).
Proof.
  intros Hw Hd Hpos Hlen Hb. unfold RCCVAE.mmd_loss.
  rewrite (reshape_rows_id _ _ Hw Hd Hpos). cbn [Py.bind].
  now rewrite (dynamic_partition_binary _ _ Hlen Hb).
Qed.

Lemma mmd_loss_conv_out_of_range self labels y_pred :
  wf y_pred -> shape1 y_pred = RCCVAE.mmd_dim self ->
  (0 < RCCVAE.mmd_dim self)%nat ->
  Exists (fun p => ~ Spec.binary p) labels ->
  RCCVAE.mmd_loss self labels y_pred = Py.Raises Py.InvalidArgumentError.
Proof.
  intros Hw Hd Hpos Hn. unfold RCCVAE.mmd_loss.
  rewrite (reshape_rows_id _ _ Hw Hd Hpos). cbn [Py.bind].
  now rewrite (dynamic_partition_out_of_range _ _ Hn).
Qed.

(** C10.  In [RCVAE] and [RCCVAE] the MMD loss always partitions the
    batch in exactly two label groups, whatever the configured condition
    list: for a batch whose labels all lie in {0, 1} it compares exactly
    the label-0 group with the label-1 group, and a label outside {0, 1}
    violates the precondition of the partition operation. *)
Theorem mmd_loss_compares_two_label_groups :
  (forall self labels y_pred,
     length labels = shape0 y_pred ->
     (Forall Spec.binary labels ->
      RCVAE.mmd_loss self labels y_pred =
      do! loss <- RCVAE.compute_mmd (Spec.label_group y_pred labels 0)
                                    (Spec.label_group y_pred labels 1)
                                    (RCVAE.kernel_method self) [];
      Py.Returns (mul (Some (RCVAE.beta self)) loss)) /\
     (Exists (fun p => ~ Spec.binary p) labels ->
      RCVAE.mmd_loss self labels y_pred =
      Py.Raises Py.InvalidArgumentError) /\
     (forall c,
        RCVAE.mmd_loss (Aux.with_conditions self c) labels y_pred =
        RCVAE.mmd_loss self labels y_pred)) /\
  (forall self labels y_pred,
     wf y_pred -> shape1 y_pred = RCCVAE.mmd_dim self ->
     (0 < RCCVAE.mmd_dim self)%nat ->
     length labels = shape0 y_pred ->
     (Forall Spec.binary labels ->
      RCCVAE.mmd_loss self labels y_pred =
      do! loss <- RCCVAE.compute_mmd (Spec.label_group y_pred labels 0)
                                     (Spec.label_group y_pred labels 1)
                                     (RCCVAE.kernel_method self) [];
      Py.Returns (mul (Some (RCCVAE.beta self)) loss)) /\
     (Exists (fun p => ~ Spec.binary p) labels ->
      RCCVAE.mmd_loss self labels y_pred =
      Py.Raises Py.InvalidArgumentError) /\
     (forall c,
        RCCVAE.mmd_loss (Aux.with_conditions_conv self c) labels y_pred =
        RCCVAE.mmd_loss self labels y_pred)).
Proof.
  split.
  - intros self labels y_pred Hlen. split; [|split].
    + now apply mmd_loss_binary.
    + apply mmd_loss_out_of_range.
    + reflexivity.
  - intros self labels y_pred Hw Hd Hpos Hlen. split; [|split].
    + now apply mmd_loss_conv_binary.
    + now apply mmd_loss_conv_out_of_range.
    + reflexivity.
Qed.

End MmdLoss.

Section MmdLossWitness.

Import Fl Backend Examples.
Local Open Scope R_scope.

Lemma pair_batch_wf : wf pair_batch.
Proof. repeat constructor. Qed.

Lemma mixed_labels_binary : Forall Spec.binary mixed_labels.
Proof.
  constructor; [left; reflexivity|].
  constructor; [right; reflexivity|]. constructor.
Qed.

Lemma same_labels_binary : Forall Spec.binary same_labels.
Proof.
  constructor; [left; reflexivity|].
  constructor; [left; reflexivity|]. constructor.
Qed.

Lemma mmd_loss_compares_two_label_groups_witness :
  RCVAE.mmd_loss dense_model mixed_labels pair_batch =
    (do! loss <- RCVAE.compute_mmd (Spec.label_group pair_batch mixed_labels 0)
                                   (Spec.label_group pair_batch mixed_labels 1)
                                   (RCVAE.kernel_method dense_model) [];
     Py.Returns (mul (Some (RCVAE.beta dense_model)) loss)) /\
  RCCVAE.mmd_loss conv_model mixed_labels pair_batch =
    (do! loss <- RCCVAE.compute_mmd (Spec.label_group pair_batch mixed_labels 0)
                                    (Spec.label_group pair_batch mixed_labels 1)
                                    (RCCVAE.kernel_method conv_model) [];
     Py.Returns (mul (Some (RCCVAE.beta conv_model)) loss)).
Proof.
  split.
  - exact (proj1 (proj1 mmd_loss_compares_two_label_groups
                        dense_model mixed_labels pair_batch eq_refl)
                 mixed_labels_binary).
  - exact (proj1 (proj2 mmd_loss_compares_two_label_groups
                        conv_model mixed_labels pair_batch
                        pair_batch_wf eq_refl Nat.lt_0_1 eq_refl)
                 mixed_labels_binary).
Defined.

End MmdLossWitness.

(** ** An empty label group *)

Section EmptyGroup.

Import Fl Backend Examples.
Local Open Scope R_scope.

Lemma has_shape_no_row {A : Type} (m : list (list A)) c :
  Spec.has_shape m 0 c -> m = [].
Proof. intros [H _]. now destruct m. Qed.

Lemma has_shape_no_column {A : Type} (m : list (list A)) r :
  Spec.has_shape m r 0 -> concat m = [].
Proof.
  intros [_ H]. induction H as [|row m Hrow _ IH]; [reflexivity|].
  simpl. rewrite IH. destruct row; [reflexivity|discriminate].
Qed.

Lemma mean_empty_real_matrix (m : list (list R)) r c :
  Spec.has_shape m r c -> (r = 0 \/ c = 0)%nat ->
  mean (Aux.real_matrix m) = NaN.
Proof.
  intros Hs Hz. rewrite mean_real_matrix.
  destruct Hz as [-> | ->].
  - now rewrite (has_shape_no_row _ _ Hs).
  - now rewrite (has_shape_no_column _ _ Hs).
Qed.

(** [compute_mmd] on a batch without rows is NaN: the mean of a kernel
    matrix without entries divides zero by zero. *)
Lemma compute_mmd_empty x y kernel scales :
  Spec.supported kernel ->
  wf x -> wf y -> shape1 y = shape1 x -> (0 < shape1 x)%nat ->
  Forall (fun s => s <> 0) scales ->
  (shape0 x = 0 \/ shape0 y = 0)%nat ->
  RCVAE.compute_mmd x y kernel scales = Py.Returns NaN.
Proof.
  intros Hk Wx Wy Hw Hd Hs Hz.
  assert (Hdy : (0 < shape1 y)%nat) by lia.
  destruct (kernel_real x x kernel scales Hk Wx Wx eq_refl Hd Hs)
    as (Kxx & Exx & Sxx).
  destruct (kernel_real y y kernel scales Hk Wy Wy eq_refl Hdy Hs)
    as (Kyy & Eyy & Syy).
  destruct (kernel_real x y kernel scales Hk Wx Wy Hw Hd Hs)
    as (Kxy & Exy & Sxy).
  unfold RCVAE.compute_mmd. rewrite Exx, Eyy, Exy. f_equal.
  destruct Hz as [Hz | Hz].
  - rewrite (mean_empty_real_matrix Kxx _ _ Sxx (or_introl Hz)).
    reflexivity.
  - rewrite (mean_empty_real_matrix Kyy _ _ Syy (or_introl Hz)).
    unfold add, sub. now destruct (mean (Aux.real_matrix Kxx)).
Qed.

Lemma compute_mmd_defined x y kernel scales :
  Spec.supported kernel ->
  wf x -> wf y -> shape1 y = shape1 x -> (0 < shape1 x)%nat ->
  Forall (fun s => s <> 0) scales ->
  (0 < shape0 x)%nat -> (0 < shape0 y)%nat ->
  exists r, RCVAE.compute_mmd x y kernel scales = Py.Returns (Some r).
Proof.
  intros Hk Wx Wy Hw Hd Hs Hx Hy.
  assert (Hdy : (0 < shape1 y)%nat) by lia.
  destruct (kernel_real x x kernel scales Hk Wx Wx eq_refl Hd Hs)
    as (Kxx & Exx & Sxx).
  destruct (kernel_real y y kernel scales Hk Wy Wy eq_refl Hdy Hs)
    as (Kyy & Eyy & Syy).
  destruct (kernel_real x y kernel scales Hk Wx Wy Hw Hd Hs)
    as (Kxy & Exy & Sxy).
  eexists.
  apply (compute_mmd_real x y kernel scales Kxx Kyy Kxy); assumption.
Qed.

Lemma label_group_rows (t : tensor2) (labels : list Z) l :
  length labels = shape0 t ->
  (shape0 (Spec.label_group t labels l) = 0%nat <-> ~ In l labels).
Proof.
  intros Hlen. unfold shape0, Spec.label_group. simpl.
  rewrite <- (label_rows_empty (data t) labels l Hlen).
  destruct (Spec.label_rows (data t) labels l); simpl; split;
    congruence || lia.
Qed.

(** The MMD loss of a batch in which one of the two labels does not
    occur is NaN. *)
Lemma mmd_loss_empty_group self labels y_pred :
  Spec.supported (RCVAE.kernel_method self) ->
  wf y_pred -> (0 < shape1 y_pred)%nat ->
  length labels = shape0 y_pred -> Forall Spec.binary labels ->
  ~ In 0%Z labels \/ ~ In 1%Z labels ->
  RCVAE.mmd_loss self labels y_pred = Py.Returns NaN.
Proof.
  intros Hk Hw Hd Hlen Hb Hmiss.
  rewrite (mmd_loss_binary _ _ _ Hlen Hb).
  rewrite compute_mmd_empty; try assumption.
  - reflexivity.
  - now apply label_group_wf.
  - now apply label_group_wf.
  - reflexivity.
  - constructor.
  - destruct Hmiss as [H | H]; [left|right];
      now apply (label_group_rows _ _ _ Hlen).
Qed.

(** The MMD loss of a batch in which both labels occur is a real
    number. *)
Lemma mmd_loss_both_groups self labels y_pred :
  Spec.supported (RCVAE.kernel_method self) ->
  wf y_pred -> (0 < shape1 y_pred)%nat ->
  length labels = shape0 y_pred -> Forall Spec.binary labels ->
  In 0%Z labels -> In 1%Z labels ->
  exists r, RCVAE.mmd_loss self labels y_pred = Py.Returns (Some r).
Proof.
  intros Hk Hw Hd Hlen Hb H0 H1.
  rewrite (mmd_loss_binary _ _ _ Hlen Hb).
  destruct (compute_mmd_defined
              (Spec.label_group y_pred labels 0)
              (Spec.label_group y_pred labels 1)
              (RCVAE.kernel_method self) []) as [r Hr]; try assumption.
  - now apply label_group_wf.
  - now apply label_group_wf.
  - reflexivity.
  - constructor.
  - pose proof (label_group_rows y_pred labels 0%Z Hlen) as E.
    destruct (shape0 (Spec.label_group y_pred labels 0)); [tauto|lia].
  - pose proof (label_group_rows y_pred labels 1%Z Hlen) as E.
    destruct (shape0 (Spec.label_group y_pred labels 1)); [tauto|lia].
  - rewrite Hr. eexists. reflexivity.
Qed.

End EmptyGroup.

Section EmptyGroupClaim.

Import Fl Backend Examples.
Local Open Scope R_scope.

(** C6, as amended.  For a batch of [RCVAE] whose labels lie in {0, 1}:
    when both labels occur, the MMD loss is a real number and no mean
    divides by zero; when every sample carries the same label (or, more
    generally, one of the two labels does not occur), the partitioning
    produces an empty group, the mean over its kernel matrix, which has no
    entry, is the division of zero by zero, and the loss is NaN, without
    any exception. *)
Theorem mmd_loss_nan_when_a_group_is_empty self labels y_pred :
  Spec.supported (RCVAE.kernel_method self) ->
  wf y_pred -> (0 < shape1 y_pred)%nat ->
  length labels = shape0 y_pred -> Forall Spec.binary labels ->
  (In 0%Z labels -> In 1%Z labels ->
   exists r, RCVAE.mmd_loss self labels y_pred = Py.Returns (Some r)) /\
  (~ In 0%Z labels \/ ~ In 1%Z labels ->
   RCVAE.mmd_loss self labels y_pred = Py.Returns NaN).
Proof.
  intros Hk Hw Hd Hlen Hb. split.
  - now apply mmd_loss_both_groups.
  - now apply mmd_loss_empty_group.
Qed.

Lemma dense_model_supported : Spec.supported (RCVAE.kernel_method dense_model).
Proof. right. right. reflexivity. Qed.

Lemma same_labels_miss_one : ~ In 1%Z same_labels.
Proof. intros [H | [H | []]]; discriminate. Qed.

Lemma mmd_loss_nan_when_a_group_is_empty_witness :
  (exists r,
     RCVAE.mmd_loss dense_model mixed_labels pair_batch =
     Py.Returns (Some r)) /\
  RCVAE.mmd_loss dense_model same_labels pair_batch = Py.Returns NaN.
Proof.
  split.
  - apply (mmd_loss_nan_when_a_group_is_empty
             dense_model mixed_labels pair_batch
             dense_model_supported pair_batch_wf Nat.lt_0_1 eq_refl
             mixed_labels_binary).
    + left. reflexivity.
    + right. left. reflexivity.
  - apply (mmd_loss_nan_when_a_group_is_empty
             dense_model same_labels pair_batch
             dense_model_supported pair_batch_wf Nat.lt_0_1 eq_refl
             same_labels_binary).
    right. exact same_labels_miss_one.
Defined.

(** C6 as stated fails: on a batch whose two samples carry the label 0,
    the label-1 group is empty, its kernel matrix has no entry, the mean
    over it is the division of zero by zero, and the MMD loss is NaN. *)
Lemma mmd_loss_same_label_batch_is_nan :
  Forall (fun p => p = 0%Z) same_labels /\
  Spec.label_group pair_batch same_labels 1 = Tensor2 1 [] /\
  RCVAE.compute_kernel (Tensor2 1 []) (Tensor2 1 [])
                       (RCVAE.kernel_method dense_model) [] = Some [] /\
  mean [] = NaN /\
  RCVAE.mmd_loss dense_model same_labels pair_batch = Py.Returns NaN.
Proof.
  split; [repeat constructor|].
  split; [reflexivity|]. split; [reflexivity|]. split; [reflexivity|].
  apply mmd_loss_empty_group.
  - exact dense_model_supported.
  - exact pair_batch_wf.
  - exact Nat.lt_0_1.
  - reflexivity.
  - exact same_labels_binary.
  - right. exact same_labels_miss_one.
Qed.

End EmptyGroupClaim.

(** ** The accumulation over the partitions in [RCVAEMultiTF] *)

Section Accumulation.

Import Fl Backend Examples.
Local Open Scope R_scope.

Lemma sum_upto_S (f : nat -> R) n :
  Spec.sum_upto f (S n) = Spec.sum_upto f n + f n.
Proof.
  unfold Spec.sum_upto. rewrite seq_S, map_app, reduce_sum_app.
  simpl. unfold reduce_sum. simpl. lra.
Qed.

Lemma sum_upto_ext (f g : nat -> R) n :
  (forall k, (k < n)%nat -> f k = g k) ->
  Spec.sum_upto f n = Spec.sum_upto g n.
Proof.
  induction n as [|n IH]; intros H; [reflexivity|].
  rewrite !sum_upto_S, IH by (intros; apply H; lia).
  rewrite (H n) by lia. reflexivity.
Qed.

Lemma sum_upto_plus (f g : nat -> R) n :
  Spec.sum_upto (fun k => f k + g k) n =
  Spec.sum_upto f n + Spec.sum_upto g n.
Proof.
  induction n as [|n IH]; [unfold Spec.sum_upto; simpl; lra|].
  rewrite !sum_upto_S, IH. lra.
Qed.

(** Summing the prefix sums counts [m k] once for every longer prefix. *)
Lemma sum_of_prefix_sums (m : nat -> R) n :
  Spec.sum_upto (fun i => Spec.sum_upto m i) (S n) =
  Spec.sum_upto (fun k => INR (n - k) * m k) n.
Proof.
  induction n as [|n IH].
  - unfold Spec.sum_upto. simpl. lra.
  - rewrite (sum_upto_S (fun i => Spec.sum_upto m i) (S n)), IH.
    rewrite (sum_upto_S (fun k => INR (S n - k) * m k) n).
    rewrite (sum_upto_S m n).
    replace (S n - n)%nat with 1%nat by lia. simpl INR.
    rewrite (sum_upto_ext (fun k => INR (S n - k) * m k)
                          (fun k => INR (n - k) * m k + m k)).
    + rewrite sum_upto_plus. lra.
    + intros k Hk. replace (S n - k)%nat with (S (n - k)) by lia.
      rewrite S_INR. lra.
Qed.

Variable parts : list tensor2.
Variable kernel : string.
Variable m : nat -> R.
Hypothesis adjacent :
  forall k a b,
    parts !! k = Some a -> parts !! (k + 1)%nat = Some b ->
    RCVAEMultiTF.compute_mmd a b kernel = Py.Returns (Some (m k)).

Lemma inner_loop_sum i v :
  (i < length parts)%nat ->
  RCVAEMultiTF.inner_loop parts kernel i (Some v) =
  Py.Returns (Some (v + Spec.sum_upto m i)).
Proof.
  unfold RCVAEMultiTF.inner_loop.
  induction i as [|i IH]; intros Hi.
  - simpl. do 2 f_equal. unfold Spec.sum_upto. simpl. lra.
  - rewrite seq_S, foldl_app, IH by lia. simpl.
    destruct (lookup_lt_is_Some_2 parts i) as [a Ha]; [lia|].
    destruct (lookup_lt_is_Some_2 parts (i + 1)) as [b Hb]; [lia|].
    rewrite Ha, Hb, (adjacent i a b Ha Hb). simpl.
    rewrite sum_upto_S. do 2 f_equal. lra.
Qed.

Lemma outer_loop_sum n :
  (n <= length parts)%nat ->
  foldl (fun acc i =>
           do! loss <- acc;
           RCVAEMultiTF.inner_loop parts kernel i loss)
        (Py.Returns (Some 0)) (seq 0 n) =
  Py.Returns (Some (Spec.sum_upto (fun i => Spec.sum_upto m i) n)).
Proof.
  induction n as [|n IH]; intros Hn; [reflexivity|].
  rewrite seq_S, foldl_app, IH by lia. simpl.
  rewrite inner_loop_sum by lia. now rewrite sum_upto_S.
Qed.

Lemma accumulate_mmd_sum :
  RCVAEMultiTF.accumulate_mmd parts kernel =
  Py.Returns
    (Some (Spec.sum_upto
             (fun k => INR (length parts - 1 - k) * m k)
             (length parts - 1))).
Proof.
  unfold RCVAEMultiTF.accumulate_mmd. rewrite outer_loop_sum by lia.
  destruct (length parts) as [|n]; [reflexivity|].
  rewrite sum_of_prefix_sums. simpl. now rewrite Nat.sub_0_r.
Qed.

End Accumulation.

Section AccumulationClaim.

Import Fl Backend Examples.
Local Open Scope R_scope.

(** C1, as amended.  In [RCVAEMultiTF._loss_function] the MMD term
    accumulated over the [N] partitions is the sum over the adjacent
    pairs [k = 0 .. N-2] of [(N-1-k) * compute_mmd(partition k, partition
    k+1)]: only adjacent pairs contribute, the pair [(k, k+1)] as many
    times as there are partitions after [k] (the last pair once, and for
    [N = 2] the single pair once); no other pair contributes.
    [self.mmd_loss] is [beta] times that sum. *)
Theorem accumulated_mmd_weighs_adjacent_pairs parts kernel (m : nat -> R) :
  (forall k a b,
     parts !! k = Some a -> parts !! (k + 1)%nat = Some b ->
     RCVAEMultiTF.compute_mmd a b kernel = Py.Returns (Some (m k))) ->
  RCVAEMultiTF.accumulate_mmd parts kernel =
    Py.Returns
      (Some (Spec.sum_upto (fun k => INR (length parts - 1 - k) * m k)
                           (length parts - 1))) /\
  forall self decoder_labels mmd_hl,
    RCVAEMultiTF.kernel_method self = kernel ->
    RCVAEMultiTF.n_conditions self <> 0%nat ->
    dynamic_partition
      mmd_hl
      (map (fun row => Z.of_nat (RCVAEMultiTF.argmax row)) decoder_labels)
      (RCVAEMultiTF.n_conditions self) = Py.Returns parts ->
    RCVAEMultiTF.mmd_loss self decoder_labels mmd_hl =
    Py.Returns
      (Some (RCVAEMultiTF.beta self *
             Spec.sum_upto (fun k => INR (length parts - 1 - k) * m k)
                           (length parts - 1))).
Proof.
  intros Hadj. split.
  - now apply accumulate_mmd_sum.
  - intros self decoder_labels mmd_hl Hk Hn Hp.
    unfold RCVAEMultiTF.mmd_loss.
    destruct (Nat.eqb_spec (RCVAEMultiTF.n_conditions self) 0);
      [contradiction|].
    rewrite Hp, Hk. cbn [Py.bind].
    now rewrite (accumulate_mmd_sum parts kernel m Hadj).
Qed.

Lemma rbf_singleton (a b : R) :
  RCVAEMultiTF.compute_kernel (Tensor2 1 [[a]]) (Tensor2 1 [[b]]) "rbf" =
  Some [[Some (exp (- ((a - b) * (a - b))))]].
Proof.
  rewrite rbf_branch_multi. cbn -[INR exp Rdiv]. do 5 f_equal.
  unfold square. simpl. field.
Qed.

Lemma mmd_singleton (a b : R) :
  RCVAEMultiTF.compute_mmd (Tensor2 1 [[a]]) (Tensor2 1 [[b]]) "rbf" =
  Py.Returns (Some (2 - 2 * exp (- ((a - b) * (a - b))))).
Proof.
  unfold RCVAEMultiTF.compute_mmd. rewrite !rbf_singleton.
  cbn -[exp]. do 2 f_equal.
  replace (- ((a - a) * (a - a))) with 0 by ring.
  replace (- ((b - b) * (b - b))) with 0 by ring.
  rewrite exp_0. field.
Qed.

Lemma parts3_adjacent k a b :
  parts3 !! k = Some a -> parts3 !! (k + 1)%nat = Some b ->
  RCVAEMultiTF.compute_mmd a b "rbf" = Py.Returns (Some (mmd3 k)).
Proof.
  destruct k as [|[|k]]; simpl; intros Ha Hb.
  - injection Ha as <-. injection Hb as <-. rewrite mmd_singleton.
    replace (- ((0 - 1) * (0 - 1))) with (- 1) by ring. reflexivity.
  - injection Ha as <-. injection Hb as <-. rewrite mmd_singleton.
    replace (- ((1 - 1) * (1 - 1))) with 0 by ring.
    rewrite exp_0. simpl. do 2 f_equal. ring.
  - destruct k; discriminate.
Qed.

Lemma accumulated_mmd_weighs_adjacent_pairs_witness :
  RCVAEMultiTF.accumulate_mmd parts3 "rbf" =
  Py.Returns
    (Some (Spec.sum_upto (fun k => INR (length parts3 - 1 - k) * mmd3 k)
                         (length parts3 - 1))).
Proof.
  exact (proj1 (accumulated_mmd_weighs_adjacent_pairs
                  parts3 "rbf" mmd3 parts3_adjacent)).
Defined.

Lemma exp_minus_one_lt_one : exp (- 1) < 1.
Proof. rewrite <- exp_0. apply exp_increasing. lra. Qed.

Lemma one_hot3_labels :
  map (fun row => Z.of_nat (RCVAEMultiTF.argmax row)) one_hot3 =
  [0; 1; 2]%Z.
Proof.
  unfold one_hot3, RCVAEMultiTF.argmax. cbn [map RCVAEMultiTF.argmax_from].
  repeat match goal with
         | |- context [Rlt_dec ?a ?b] =>
             destruct (Rlt_dec a b); try lra
         end.
  reflexivity.
Qed.

(** C1 as stated fails for three partitions: the batch with one sample of
    each of three conditions is partitioned in [parts3], and the
    accumulated term counts the pair (0, 1) twice, so that it is not the
    sum over the adjacent pairs taken once each. *)
Lemma accumulated_mmd_counts_first_pair_twice :
  map (fun row => Z.of_nat (RCVAEMultiTF.argmax row)) one_hot3 =
    [0; 1; 2]%Z /\
  dynamic_partition batch3 [0; 1; 2]%Z 3 = Py.Returns parts3 /\
  RCVAEMultiTF.accumulate_mmd parts3 "rbf" =
    Py.Returns (Some (2 * (2 - 2 * exp (- 1)))) /\
  Spec.adjacent_pairs_once parts3 "rbf" =
    Py.Returns (Some (2 - 2 * exp (- 1))) /\
  RCVAEMultiTF.accumulate_mmd parts3 "rbf" <>
  Spec.adjacent_pairs_once parts3 "rbf".
Proof.
  assert (Hacc : RCVAEMultiTF.accumulate_mmd parts3 "rbf" =
                 Py.Returns (Some (2 * (2 - 2 * exp (- 1))))).
  { rewrite (accumulate_mmd_sum parts3 "rbf" mmd3 parts3_adjacent).
    do 2 f_equal. unfold Spec.sum_upto, reduce_sum. simpl. ring. }
  assert (Honce : Spec.adjacent_pairs_once parts3 "rbf" =
                  Py.Returns (Some (2 - 2 * exp (- 1)))).
  { unfold parts3. cbn [Spec.adjacent_pairs_once].
    rewrite !mmd_singleton. cbn -[exp]. do 2 f_equal.
    replace (- ((0 - 1) * (0 - 1))) with (- 1) by ring.
    replace (- ((1 - 1) * (1 - 1))) with 0 by ring.
    rewrite exp_0. ring. }
  split; [exact one_hot3_labels|]. split; [reflexivity|].
  split; [exact Hacc|]. split; [exact Honce|].
  rewrite Hacc, Honce. intros H. injection H as H.
  pose proof exp_minus_one_lt_one. lra.
Qed.

End AccumulationClaim.

(** ** Persistence of [RCVAE] *)

Section Paths.




End Paths.

Section PersistenceFacts.

Context {Weights AnnData Latent History Rng : Type}.
Variable predict : Weights -> AnnData -> Latent.
Variable shuffle_data : AnnData -> Rng -> AnnData * Rng.
Variable compose : Weights -> Weights -> Weights.
Variable fit : Weights -> Weights -> RCVAE.fit_args AnnData -> Rng ->
               Weights * Weights * Rng * Py.outcome History.
Variable fit_own : Weights -> RCVAE.fit_args AnnData -> Rng ->
                   Weights * Rng * Py.outcome History.

Abbreviation world := (RCVAE.world Weights Rng).
Abbreviation train := (RCVAE.train shuffle_data compose fit fit_own).
Abbreviation restore_model := (RCVAE.restore_model).
Abbreviation to_latent := (RCVAE.to_latent predict).
Abbreviation files := (@RCVAE.files Weights Rng).






End PersistenceFacts.

(** ** The epoch loop of [RCVAEMultiTF.train] *)

Section EpochLoop.

Context {Sample Vars Rng : Type}.
Variable run_train :
  RCVAEMultiTF.instance -> RCVAEMultiTF.session Vars -> Rng ->
  list Sample -> list nat -> Vars * Rng * Q * Q.
Variable run_valid :
  RCVAEMultiTF.instance -> RCVAEMultiTF.session Vars -> Rng ->
  list Sample -> list nat -> Rng * Q * Q.
Variable self : RCVAEMultiTF.instance.
Variables (train_data : list Sample) (train_labels : list nat).
Variables (valid_data : list Sample) (valid_labels : list nat).
Variables (batch_size : nat) (min_delta : Q) (verbose : bool).

Abbreviation world := (RCVAEMultiTF.world Vars Rng).
Abbreviation body P :=
  (RCVAEMultiTF.epoch run_train run_valid self train_data
     train_labels (Some (valid_data, valid_labels)) batch_size P min_delta
     verbose).
Abbreviation pass :=
  (RCVAEMultiTF.passes run_train run_valid self train_data
     train_labels valid_data valid_labels batch_size).
Abbreviation losses :=
  (RCVAEMultiTF.validation_losses run_train run_valid self
     train_data train_labels valid_data valid_labels batch_size).
Abbreviation saved w := (snd (RCVAEMultiTF.save self w)).
Abbreviation Locals := RCVAEMultiTF.Locals.

(** The body of the loop is the passes of the epoch followed by the
    early-stopping test. *)
Lemma epoch_unfold P it l (w : world) :
  body P it l w =
  match pass w with
  | (Py.Raises e, w1) => (Py.Raises e, w1)
  | (Py.Returns v, w1) =>
      let hist := RCVAEMultiTF.loss_hist l ++ [v] in
      match RCVAEMultiTF.improved hist it min_delta with
      | Py.Raises e => (Py.Raises e, w1)
      | Py.Returns b =>
          let cnt := if b then O else S (RCVAEMultiTF.patience_cnt l) in
          if (P <? cnt)%nat then
            (Py.Returns (Locals hist cnt (Some it)), saved w1)
          else if verbose && (length train_data =? 0)%nat then
            (Py.Raises Py.ZeroDivisionError, w1)
          else (Py.Returns (Locals hist cnt None), w1)
      end
  end.
Proof.
  unfold RCVAEMultiTF.epoch, RCVAEMultiTF.passes, Py.mbind.
  destruct (RCVAEMultiTF.assign_global_step _ w) as [[[]|e] w0];
    [|reflexivity].
  destruct (RCVAEMultiTF.train_pass _ _ _ _ _ w0) as [[t|e] w1];
    [|reflexivity].
  destruct (RCVAEMultiTF.valid_pass _ _ _ _ _ w1) as [[v|e] w2];
    [|reflexivity].
  destruct (length valid_data =? 0)%nat; [reflexivity|].
  unfold Py.ret, Py.lift.
  destruct (RCVAEMultiTF.improved _ it min_delta) as [b|e]; [|reflexivity].
  cbv zeta.
  destruct (P <? _)%nat; [reflexivity|].
  unfold RCVAEMultiTF.print_epoch.
  destruct (verbose && _); reflexivity.
Qed.

Lemma improved_better (hist : list Q) it :
  length hist = S it ->
  RCVAEMultiTF.improved hist it min_delta =
  Py.Returns (Aux.better hist it min_delta).
Proof.
  intros Hlen. unfold RCVAEMultiTF.improved, Aux.better.
  destruct (0 <? it)%nat eqn:E; [|reflexivity].
  apply Nat.ltb_lt in E.
  destruct (lookup_lt_is_Some_2 hist (it - 1)) as [a Ha]; [lia|].
  destruct (lookup_lt_is_Some_2 hist it) as [b Hb]; [lia|].
  rewrite Ha, Hb.
  rewrite (nth_lookup_Some _ _ 0%Q _ Ha), (nth_lookup_Some _ _ 0%Q _ Hb).
  reflexivity.
Qed.

(** [better] and [count] only look at the entries up to the epoch. *)
Lemma better_take (hist : list Q) n k :
  (k < n)%nat ->
  Aux.better (take n hist) k min_delta = Aux.better hist k min_delta.
Proof.
  intros Hk. unfold Aux.better.
  destruct (0 <? k)%nat; [|reflexivity]. simpl.
  assert (E : forall i, (i < n)%nat ->
                        nth i (take n hist) 0%Q = nth i hist 0%Q).
  { intros i Hi. rewrite !nth_lookup, lookup_take_lt by exact Hi.
    reflexivity. }
  rewrite !E by lia. reflexivity.
Qed.

Lemma count_take (hist : list Q) n k :
  (k <= n)%nat ->
  Aux.count (take n hist) min_delta k = Aux.count hist min_delta k.
Proof.
  induction k as [|k IH]; intros Hk; [reflexivity|].
  simpl. rewrite better_take by lia. rewrite IH by lia. reflexivity.
Qed.

Lemma losses_S k (w : world) :
  losses (S k) w =
  match losses k w with
  | (Py.Returns h, wk) =>
      match pass wk with
      | (Py.Returns v, w') => (Py.Returns (h ++ [v]), w')
      | (Py.Raises e, w') => (Py.Raises e, w')
      end
  | (Py.Raises e, wk) => (Py.Raises e, wk)
  end.
Proof.
  cbn [RCVAEMultiTF.validation_losses]. unfold Py.mbind.
  destruct (losses k w) as [[h|e] wk]; [|reflexivity].
  destruct (pass wk) as [[v|e] w']; reflexivity.
Qed.

Lemma losses_length k (w w' : world) h :
  losses k w = (Py.Returns h, w') -> length h = k.
Proof.
  revert h w'. induction k as [|k IH]; intros h w' Hk.
  - injection Hk as <- _. reflexivity.
  - rewrite losses_S in Hk.
    destruct (losses k w) as [[h0|e] wk]; [|discriminate].
    destruct (pass wk) as [[v|e] w1]; [|discriminate].
    injection Hk as <- _. rewrite length_app, (IH h0 wk eq_refl).
    simpl. lia.
Qed.

(** The first [k] epochs of a run of [N] epochs. *)
Lemma losses_prefix N (w wN : world) H :
  losses N w = (Py.Returns H, wN) ->
  forall k, (k <= N)%nat ->
  exists wk, losses k w = (Py.Returns (take k H), wk).
Proof.
  revert H wN. induction N as [|N IH]; intros H wN HN k Hk.
  - assert (k = 0%nat) as -> by lia. exists w.
    injection HN as <- _. reflexivity.
  - pose proof (losses_length _ _ _ _ HN) as Hlen.
    destruct (Nat.eq_dec k (S N)) as [-> | Hne].
    + exists wN. rewrite take_ge by lia. exact HN.
    + rewrite losses_S in HN.
      destruct (losses N w) as [[h0|e] w0] eqn:E0; [|discriminate].
      destruct (pass w0) as [[v|e] w1]; [|discriminate].
      injection HN as <- _.
      destruct (IH h0 w0 eq_refl k) as [wk Hwk]; [lia|].
      exists wk. rewrite Hwk. do 2 f_equal.
      pose proof (losses_length _ _ _ _ E0) as Hl0.
      rewrite take_app_le by lia. reflexivity.
Qed.

Lemma losses_step k (w wk wk1 : world) H :
  (k < length H)%nat ->
  losses k w = (Py.Returns (take k H), wk) ->
  losses (S k) w = (Py.Returns (take (S k) H), wk1) ->
  pass wk = (Py.Returns (nth k H 0%Q), wk1).
Proof.
  intros Hk Hkk HS. rewrite losses_S, Hkk in HS.
  destruct (pass wk) as [[v|e] w']; [|discriminate].
  injection HS as Hh ->. do 2 f_equal.
  destruct (lookup_lt_is_Some_2 H k Hk) as [x Hx].
  rewrite (take_S_r _ _ _ Hx) in Hh. apply app_inv_head in Hh.
  injection Hh as ->. symmetry. now apply nth_lookup_Some.
Qed.

(** A loop that was left by [break] does not look at later epochs. *)
Lemma epochs_app_stopped (b : nat -> RCVAEMultiTF.locals ->
                              Py.M world RCVAEMultiTF.locals)
    (l1 l2 : list nat) l (w : world) l' w' j :
  RCVAEMultiTF.stopped_at l = None ->
  RCVAEMultiTF.epochs b l1 l w = (Py.Returns l', w') ->
  RCVAEMultiTF.stopped_at l' = Some j ->
  RCVAEMultiTF.epochs b (l1 ++ l2) l w = (Py.Returns l', w').
Proof.
  revert l w. induction l1 as [|a l1 IH]; intros l w Hnone Hrun Hstop.
  - injection Hrun as <- _. congruence.
  - cbn [app RCVAEMultiTF.epochs] in *. unfold Py.mbind in *.
    destruct (b a l w) as [[la|e] wa]; [|discriminate].
    destruct (RCVAEMultiTF.stopped_at la) eqn:Ea; [exact Hrun|].
    now apply IH.
Qed.

Section Run.

Variables (w0 wN : world) (H : list Q) (N P : nat).
Hypothesis Hrun : losses N w0 = (Py.Returns H, wN).
Hypothesis Hprint : verbose && (length train_data =? 0)%nat = false.

(** From the start of epoch [k], the loop stops at the first epoch whose
    count exceeds the patience, if there is one among the next [m]. *)
Lemma loop_stops m :
  forall k (wk : world),
    (k + m <= N)%nat ->
    losses k w0 = (Py.Returns (take k H), wk) ->
    (exists j, (k <= j < k + m)%nat /\
               (P < Aux.count H min_delta (S j))%nat) ->
    exists j (wj : world),
      (k <= j < k + m)%nat /\
      (P < Aux.count H min_delta (S j))%nat /\
      (forall i, (k <= i < j)%nat ->
                 (Aux.count H min_delta (S i) <= P)%nat) /\
      losses (S j) w0 = (Py.Returns (take (S j) H), wj) /\
      RCVAEMultiTF.epochs (body P) (seq k m)
        (Locals (take k H) (Aux.count H min_delta k) None) wk =
      (Py.Returns (Locals (take (S j) H) (Aux.count H min_delta (S j))
                          (Some j)),
       saved wj).
Proof.
  pose proof (losses_length _ _ _ _ Hrun) as Hlen.
  induction m as [|m IH]; intros k wk Hk Hkk (j & Hj & Hcnt); [lia|].
  destruct (losses_prefix N w0 wN H Hrun (S k)) as [wk1 Hk1]; [lia|].
  pose proof (losses_step k w0 wk wk1 H ltac:(lia) Hkk Hk1) as Hpass.
  cbn [seq RCVAEMultiTF.epochs]. unfold Py.mbind.
  rewrite epoch_unfold, Hpass. cbn [RCVAEMultiTF.loss_hist].
  destruct (lookup_lt_is_Some_2 H k ltac:(lia)) as [x Hx].
  rewrite (nth_lookup_Some _ _ 0%Q _ Hx), <- (take_S_r _ _ _ Hx).
  rewrite improved_better by (rewrite length_take; lia).
  rewrite better_take by lia. cbv zeta.
  cbn [RCVAEMultiTF.patience_cnt].
  change (if Aux.better H k min_delta then 0%nat
          else S (Aux.count H min_delta k))
    with (Aux.count H min_delta (S k)).
  destruct (P <? Aux.count H min_delta (S k))%nat eqn:Estop.
  - apply Nat.ltb_lt in Estop.
    exists k, wk1. repeat split; try lia; try assumption.
  - apply Nat.ltb_ge in Estop. rewrite Hprint.
    cbn [RCVAEMultiTF.stopped_at].
    destruct (IH (S k) wk1) as (j' & wj & Hj' & Hc' & Hfirst & Hl & He);
      [lia|exact Hk1| |].
    + exists j. split; [|exact Hcnt].
      destruct (Nat.eq_dec j k) as [-> | Hne]; lia.
    + exists j', wj. repeat split; try lia; try assumption.
      intros i Hi. destruct (Nat.eq_dec i k) as [-> | Hne];
        [exact Estop|apply Hfirst; lia].
Qed.

End Run.

End EpochLoop.

Section Plateau.

Variables (H : list Q) (min_delta : Q) (p n : nat) (c : Q).
Hypothesis Hdelta : (0 <= min_delta)%Q.
Hypothesis Hplateau : Aux.plateau H p n c.

(** Inside a plateau no epoch improves on the one before. *)
Lemma plateau_not_better j :
  (1 <= j < n)%nat -> Aux.better H (p + j) min_delta = false.
Proof.
  intros Hj. unfold Aux.better.
  apply andb_false_iff. right. apply negb_false_iff, Qle_bool_iff.
  pose proof (Hplateau (p + j - 1)%nat ltac:(lia)) as Ha.
  pose proof (Hplateau (p + j)%nat ltac:(lia)) as Hb.
  rewrite Ha, Hb.
  assert (E : (c - c == 0)%Q) by ring.
  rewrite E. exact Hdelta.
Qed.

(** After [j + 1] epochs of a plateau the count is at least [j]. *)
Lemma plateau_count j :
  (j < n)%nat -> (j <= Aux.count H min_delta (S (p + j)))%nat.
Proof.
  induction j as [|j IH]; intros Hj; [lia|].
  assert (Hb : Aux.better H (S (p + j)) min_delta = false).
  { replace (S (p + j)) with (p + S j)%nat by lia.
    apply plateau_not_better. lia. }
  rewrite Nat.add_succ_r.
  change (Aux.count H min_delta (S (S (p + j))))
    with (if Aux.better H (S (p + j)) min_delta then 0%nat
          else S (Aux.count H min_delta (S (p + j)))).
  rewrite Hb. specialize (IH ltac:(lia)). lia.
Qed.

End Plateau.

(** When the plateau starts with the first epoch, the count is the
    number of epochs. *)
Lemma plateau_count_from_start (H : list Q) (min_delta : Q) n c j :
  (0 <= min_delta)%Q -> Aux.plateau H 0 n c ->
  (j < n)%nat -> Aux.count H min_delta (S j) = S j.
Proof.
  intros Hd Hp. induction j as [|j IH]; intros Hj; [reflexivity|].
  pose proof (plateau_not_better H min_delta 0 n c Hd Hp (S j) ltac:(lia))
    as Hb.
  change (0 + S j)%nat with (S j) in Hb.
  change (Aux.count H min_delta (S (S j)))
    with (if Aux.better H (S j) min_delta then 0%nat
          else S (Aux.count H min_delta (S j))).
  rewrite Hb, IH by lia. reflexivity.
Qed.


Section EarlyStopping.

Context {Sample Vars Rng Encoder : Type}.
Variable label_encoder :
  list Sample -> option Encoder -> string -> Py.outcome (list nat * Encoder).
Variable shuffle_data :
  list Sample -> list nat -> Rng -> list Sample * list nat * Rng.
Variable run_train :
  RCVAEMultiTF.instance -> RCVAEMultiTF.session Vars -> Rng ->
  list Sample -> list nat -> Vars * Rng * Q * Q.
Variable run_valid :
  RCVAEMultiTF.instance -> RCVAEMultiTF.session Vars -> Rng ->
  list Sample -> list nat -> Rng * Q * Q.

Abbreviation mworld := (RCVAEMultiTF.world Vars Rng).
Abbreviation mtrain :=
  (RCVAEMultiTF.train label_encoder shuffle_data
                      run_train run_valid).
Abbreviation mprepare :=
  (RCVAEMultiTF.prepare label_encoder shuffle_data).
Abbreviation mlosses :=
  (RCVAEMultiTF.validation_losses run_train run_valid).
Abbreviation mepoch :=
  (RCVAEMultiTF.epoch run_train run_valid).
Abbreviation msess := (@RCVAEMultiTF.sess Vars Rng).
Abbreviation mfiles := (@RCVAEMultiTF.files Vars Rng).

(** The loop with patience [P] on a plateau of [n >= P + 2] epochs that
    starts at epoch [p]. *)
Lemma loop_halts_on_plateau self td tl vd vl batch_size min_delta verbose
    (w1 wN : mworld) H p n c P n_epochs :
  mlosses self td tl vd vl batch_size (p + n) w1 = (Py.Returns H, wN) ->
  Aux.plateau H p n c -> (0 <= min_delta)%Q -> (P + 2 <= n)%nat ->
  verbose && (length td =? 0)%nat = false ->
  (p + n <= n_epochs)%nat ->
  exists it (wit : mworld),
    (it <= p + P + 1)%nat /\ (p = 0%nat -> (it <= P)%nat) /\
    mlosses self td tl vd vl batch_size (S it) w1 =
      (Py.Returns (take (S it) H), wit) /\
    RCVAEMultiTF.epochs
      (mepoch self td tl (Some (vd, vl)) batch_size P min_delta verbose)
      (seq 0 n_epochs) (RCVAEMultiTF.Locals [] 0 None) w1 =
    (Py.Returns (RCVAEMultiTF.Locals (take (S it) H)
                                     (Aux.count H min_delta (S it)) (Some it)),
     snd (RCVAEMultiTF.save self wit)).
Proof.
  intros Hrun Hp Hd Hn Hprint Hepochs.
  destruct (loop_stops run_train run_valid self td tl vd vl batch_size
              min_delta verbose w1 wN H (p + n) P Hrun Hprint (p + n) 0 w1)
    as (j & wj & Hj & Hcnt & Hfirst & Hl & He).
  - lia.
  - reflexivity.
  - exists (p + (P + 1))%nat. split; [lia|].
    pose proof (plateau_count H min_delta p n c Hd Hp (P + 1) ltac:(lia)).
    lia.
  - exists j, wj. split; [|split; [|split; [exact Hl|]]].
    + destruct (Nat.le_gt_cases j (p + P + 1)) as [Hle|Hgt]; [exact Hle|].
      pose proof (Hfirst (p + (P + 1))%nat ltac:(lia)).
      pose proof (plateau_count H min_delta p n c Hd Hp (P + 1) ltac:(lia)).
      lia.
    + intros ->.
      destruct (Nat.le_gt_cases j P) as [Hle|Hgt]; [exact Hle|].
      pose proof (Hfirst P ltac:(lia)).
      pose proof (plateau_count_from_start H min_delta n c P Hd Hp
                    ltac:(lia)).
      lia.
    + replace n_epochs with ((p + n) + (n_epochs - (p + n)))%nat by lia.
      rewrite seq_app.
      eapply epochs_app_stopped; [reflexivity|exact He|reflexivity].
Qed.

(** C8, as amended.  In [RCVAEMultiTF.train] with validation enabled,
    [early_stop_limit = 20] and [threshold = 0.0025], if the validation
    losses of the epochs are constant for 25 consecutive epochs
    [p .. p + 24], the epoch loop is left by [break] before [n_epochs] is
    exhausted, no later than at the 22nd epoch of the plateau (epoch
    [p + 21]), and no later than at its 21st epoch when the plateau begins
    with the first epoch; the checkpoint that is saved holds the values of
    the variables at the point of stopping. *)
Theorem early_stopping_halts_on_a_plateau
    self train_data le condition_key valid_data n_epochs batch_size
    lr_reducer initial_run shuffle verbose (w w1 wN : mworld)
    td tl vd vl H p c :
  RCVAEMultiTF.prepare label_encoder shuffle_data self train_data le
    condition_key true (Some valid_data) initial_run shuffle w =
    (Py.Returns (td, tl, Some (vd, vl)), w1) ->
  RCVAEMultiTF.validation_losses run_train run_valid self td tl vd vl
    batch_size (p + 25) w1 = (Py.Returns H, wN) ->
  Aux.plateau H p 25 c ->
  verbose && (length td =? 0)%nat = false ->
  (p + 25 <= n_epochs)%nat ->
  exists l (w2 : mworld) it (wit : mworld),
    RCVAEMultiTF.train label_encoder shuffle_data run_train run_valid self
      train_data le condition_key true (Some valid_data) n_epochs batch_size
      20 lr_reducer 0.0025%Q initial_run shuffle verbose w =
      (Py.Returns l, w2) /\
    RCVAEMultiTF.stopped_at l = Some it /\
    (it <= p + 21)%nat /\ (p = 0%nat -> (it <= 20)%nat) /\
    (it < n_epochs)%nat /\
    RCVAEMultiTF.loss_hist l = take (S it) H /\
    RCVAEMultiTF.validation_losses run_train run_valid self td tl vd vl
      batch_size (S it) w1 = (Py.Returns (take (S it) H), wit) /\
    RCVAEMultiTF.sess w2 = RCVAEMultiTF.sess wit /\
    RCVAEMultiTF.files w2 !! RCVAEMultiTF.model_to_use self =
      Some (RCVAEMultiTF.sess wit).
Proof.
  intros Hprep Hrun Hp Hprint Hepochs.
  destruct (loop_halts_on_plateau self td tl vd vl batch_size 0.0025%Q
              verbose w1 wN H p 25 c 20 n_epochs Hrun Hp)
    as (it & wit & Hit & Hit0 & Hl & He);
    [unfold Qle; simpl; lia|lia|exact Hprint|exact Hepochs|].
  eexists _, _, it, wit. split.
  - unfold RCVAEMultiTF.train. unfold Py.mbind at 1. rewrite Hprep.
    unfold Py.mbind at 1. rewrite He. reflexivity.
  - cbn [RCVAEMultiTF.stopped_at RCVAEMultiTF.loss_hist].
    split; [reflexivity|]. split; [lia|]. split; [exact Hit0|].
    split; [lia|]. split; [reflexivity|]. split; [exact Hl|].
    split; [reflexivity|].
    unfold RCVAEMultiTF.save, Py.modify. cbn. apply lookup_insert_eq.
Qed.

(** C9 fails on [RCVAEMultiTF.train].  With [use_validation=True] and
    [valid_data=None] the exception is raised before any optimiser step,
    but only after the statements that precede the test: with
    [initial_run=True] the variable [global_step] has been reset to 0, and
    with [initial_run=False] the session has been overwritten with the
    checkpoint of the model directory. *)
Theorem train_tests_the_configuration_after_touching_the_session
    self train_data le condition_key n_epochs batch_size early_stop_limit
    lr_reducer threshold initial_run shuffle verbose (w : mworld) tl le' :
  label_encoder train_data le condition_key = Py.Returns (tl, le') ->
  (initial_run = false ->
   is_Some (RCVAEMultiTF.files w !! RCVAEMultiTF.model_to_use self)) ->
  exists w' : mworld,
    RCVAEMultiTF.train label_encoder shuffle_data run_train run_valid self
      train_data le condition_key true None n_epochs batch_size
      early_stop_limit lr_reducer threshold initial_run shuffle verbose w =
      (Py.Raises
         (Py.Exception "valid_data is None but use_validation is True."),
       w') /\
    RCVAEMultiTF.files w' = RCVAEMultiTF.files w /\
    (initial_run = true ->
     RCVAEMultiTF.sess w' =
     RCVAEMultiTF.Session 0 (RCVAEMultiTF.variables (RCVAEMultiTF.sess w))) /\
    (initial_run = false ->
     RCVAEMultiTF.files w !! RCVAEMultiTF.model_to_use self =
     Some (RCVAEMultiTF.sess w')).
Proof.
  intros Hle Hck.
  unfold RCVAEMultiTF.train, RCVAEMultiTF.prepare.
  destruct w as [s g fs].
  destruct initial_run.
  - unfold Py.mbind, RCVAEMultiTF.assign_global_step, Py.modify, Py.ret,
           Py.lift, Py.get. cbn. rewrite Hle.
    destruct shuffle; cbn.
    + destruct (shuffle_data train_data tl g) as [[d y] g']. cbn.
      eexists. repeat split; try reflexivity; discriminate.
    + eexists. repeat split; try reflexivity; discriminate.
  - destruct (Hck eq_refl) as [ck Hckp]. cbn in Hckp.
    unfold Py.mbind, RCVAEMultiTF.restore, Py.modify, Py.ret, Py.lift,
           Py.get, Py.mbind. cbn. rewrite Hckp. cbn. rewrite Hle.
    destruct shuffle; cbn.
    + destruct (shuffle_data train_data tl g) as [[d y] g']. cbn.
      eexists. repeat split; try reflexivity; try discriminate;
        try (intros _; exact Hckp).
    + eexists. repeat split; try reflexivity; try discriminate;
        try (intros _; exact Hckp).
Qed.

End EarlyStopping.

(** ** The configuration test of [RCVAE.train] *)

Section DenseConfiguration.

Context {Weights AnnData History Rng : Type}.
Variable shuffle_data : AnnData -> Rng -> AnnData * Rng.
Variable compose : Weights -> Weights -> Weights.
Variable fit : Weights -> Weights -> RCVAE.fit_args AnnData -> Rng ->
               Weights * Weights * Rng * Py.outcome History.
Variable fit_own : Weights -> RCVAE.fit_args AnnData -> Rng ->
                   Weights * Rng * Py.outcome History.

(** In [RCVAE.train] the test comes first: the exception leaves the
    models and the files as they were. *)
Lemma dense_train_tests_the_configuration_first
    self train_data use_validation valid_data n_epochs batch_size
    early_stop_limit threshold initial_run shuffle verbose save_flag
    (w : RCVAE.world Weights Rng) :
  use_validation = true -> valid_data = None ->
  RCVAE.train shuffle_data compose fit fit_own
    self train_data use_validation valid_data n_epochs batch_size
    early_stop_limit threshold initial_run shuffle verbose save_flag w =
  (Py.Raises
     (Py.Exception "valid_data is None but use_validation is True."), w).
Proof.
  intros -> ->. reflexivity.
Qed.

End DenseConfiguration.

(** ** Runs on the stand-ins *)

Section ConcreteRuns.

Import Examples.


Lemma train_tests_the_configuration_after_touching_the_session_witness :
  (exists w',
     toy_train true None 30 20 true trained_world =
       (Py.Raises
          (Py.Exception "valid_data is None but use_validation is True."),
        w') /\
     RCVAEMultiTF.sess trained_world =
       RCVAEMultiTF.Session 25 25 /\
     RCVAEMultiTF.sess w' = RCVAEMultiTF.Session 0 25) /\
  (exists w',
     toy_train true None 30 20 false trained_world =
       (Py.Raises
          (Py.Exception "valid_data is None but use_validation is True."),
        w') /\
     RCVAEMultiTF.sess trained_world =
       RCVAEMultiTF.Session 25 25 /\
     RCVAEMultiTF.sess w' = RCVAEMultiTF.Session 3 3).
Proof.
  split.
  - destruct (train_tests_the_configuration_after_touching_the_session
                toy_label_encoder toy_shuffle_multi toy_run_train
                toy_run_valid multi_model [tt] None "condition" 30 32 20 0%Z
                0.0025%Q true true true trained_world [O] tt eq_refl)
      as (w' & Ht & _ & Hs & _).
    + discriminate.
    + exists w'. split; [exact Ht|]. split; [reflexivity|].
      exact (Hs eq_refl).
  - destruct (train_tests_the_configuration_after_touching_the_session
                toy_label_encoder toy_shuffle_multi toy_run_train
                toy_run_valid multi_model [tt] None "condition" 30 32 20 0%Z
                0.0025%Q false true true trained_world [O] tt eq_refl)
      as (w' & Ht & _ & _ & Hs).
    + intros _. eexists. reflexivity.
    + exists w'. split; [exact Ht|]. split; [reflexivity|].
      specialize (Hs eq_refl).
      assert (E : RCVAEMultiTF.files trained_world !!
                    RCVAEMultiTF.model_to_use multi_model =
                  Some (RCVAEMultiTF.Session 3 3)) by reflexivity.
      rewrite E in Hs. injection Hs as Hs. symmetry. exact Hs.
Defined.

Lemma toy_losses_plateau : Aux.plateau toy_losses 1 25 (1 # 2)%Q.
Proof.
  intros k Hk.
  do 26 (destruct k as [|k]; [try lia; reflexivity|]). lia.
Qed.

Lemma early_stopping_halts_on_a_plateau_witness :
  exists l w2 it wit,
    toy_train true (Some [tt]) 30 20 true new_world = (Py.Returns l, w2) /\
    RCVAEMultiTF.stopped_at l = Some it /\
    (it <= 1 + 21)%nat /\ (1%nat = 0%nat -> (it <= 20)%nat) /\
    (it < 30)%nat /\
    RCVAEMultiTF.loss_hist l = take (S it) toy_losses /\
    RCVAEMultiTF.validation_losses toy_run_train toy_run_valid
      multi_model [tt] [O] [tt] [O] 32 (S it) new_world =
      (Py.Returns (take (S it) toy_losses), wit) /\
    RCVAEMultiTF.sess w2 = RCVAEMultiTF.sess wit /\
    RCVAEMultiTF.files w2 !! RCVAEMultiTF.model_to_use multi_model =
      Some (RCVAEMultiTF.sess wit).
Proof.
  apply (early_stopping_halts_on_a_plateau
           toy_label_encoder toy_shuffle_multi toy_run_train toy_run_valid
           multi_model [tt] None "condition" [tt] 30 32 0%Z true true true
           new_world new_world
           (RCVAEMultiTF.World (RCVAEMultiTF.Session 26 26) tt ∅)
           [tt] [O] [tt] [O] toy_losses 1 (1 # 2)%Q).
  - vm_compute. reflexivity.
  - vm_compute. reflexivity.
  - exact toy_losses_plateau.
  - reflexivity.
  - vm_compute. lia.
Defined.

(** C8 as stated fails: on a validation loss that drops from 1 to 1/2
    after the first epoch and then stays at 1/2 for 25 epochs (the epochs
    1 to 25), the loop is left at epoch 22, the 22nd epoch of the plateau,
    and not by its 21st epoch (epoch 21). *)
Lemma early_stopping_halts_at_the_22nd_epoch_of_a_plateau :
  fst (RCVAEMultiTF.validation_losses toy_run_train
         toy_run_valid multi_model [tt] [O] [tt] [O] 32 26 new_world) =
    Py.Returns toy_losses /\
  Aux.plateau toy_losses 1 25 (1 # 2)%Q /\
  fst (toy_train true (Some [tt]) 30 20 true new_world) =
    Py.Returns (RCVAEMultiTF.Locals (take 23 toy_losses) 21 (Some 22%nat)) /\
  ~ (22 <= 1 + 20)%nat.
Proof.
  split; [vm_compute; reflexivity|].
  split; [exact toy_losses_plateau|].
  split; [vm_compute; reflexivity|]. lia.
Qed.

End ConcreteRuns.

(** * Further properties of the code *)

(** ** The mini-batches of [RCVAEMultiTF.train] *)

Section MiniBatches.

Context {A : Type}.





End MiniBatches.


(** ** Runs of [RCVAEMultiTF.train] *)

(** A [for] loop whose body always returns and keeps an invariant of the
    world returns and keeps it. *)
Lemma for_each_returns {W B S : Type} (I : W -> Prop)
    (body : B -> S -> Py.M W S) :
  (forall a s w, I w ->
     exists s' w', body a s w = (Py.Returns s', w') /\ I w') ->
  forall l s w, I w ->
    exists s' w', Py.for_each l body s w = (Py.Returns s', w') /\ I w'.
Proof.
  intros Hbody. induction l as [|a l IH]; intros s w Hw.
  - exists s, w. split; [reflexivity|exact Hw].
  - cbn [Py.for_each]. unfold Py.mbind.
    destruct (Hbody a s w Hw) as (s1 & w1 & E1 & H1). rewrite E1.
    apply IH. exact H1.
Qed.

Lemma wrap_int32_id (z : Z) :
  (- 2 ^ 31 <= z < 2 ^ 31)%Z -> RCVAEMultiTF.wrap_int32 z = z.
Proof.
  intros Hz. unfold RCVAEMultiTF.wrap_int32.
  rewrite Z.mod_small by lia. lia.
Qed.

Lemma iter_wrap_int32 (n : nat) (g : Z) :
  (0 <= g)%Z -> (g + Z.of_nat n < 2 ^ 31)%Z ->
  Nat.iter n (fun g => RCVAEMultiTF.wrap_int32 (g + 1)) g =
  (g + Z.of_nat n)%Z.
Proof.
  intros Hg. induction n as [|n IH]; intros Hn.
  - simpl. lia.
  - rewrite Nat.iter_succ, IH by lia. rewrite wrap_int32_id by lia. lia.
Qed.

Section TrainingRuns.

Context {Sample Vars Rng Encoder : Type}.
Variable label_encoder :
  list Sample -> option Encoder -> string -> Py.outcome (list nat * Encoder).
Variable shuffle_data :
  list Sample -> list nat -> Rng -> list Sample * list nat * Rng.
Variable run_train :
  RCVAEMultiTF.instance -> RCVAEMultiTF.session Vars -> Rng ->
  list Sample -> list nat -> Vars * Rng * Q * Q.
Variable run_valid :
  RCVAEMultiTF.instance -> RCVAEMultiTF.session Vars -> Rng ->
  list Sample -> list nat -> Rng * Q * Q.

Abbreviation tworld := (RCVAEMultiTF.world Vars Rng).
Abbreviation tsess := (@RCVAEMultiTF.sess Vars Rng).
Abbreviation tfiles := (@RCVAEMultiTF.files Vars Rng).
Abbreviation tstep w := (RCVAEMultiTF.global_step (tsess w)).
Abbreviation tepoch := (RCVAEMultiTF.epoch run_train run_valid).
Abbreviation next_step := (fun g => RCVAEMultiTF.wrap_int32 (g + 1)).

(** The training pass makes its optimiser steps and leaves [global_step]
    and the checkpoints alone. *)
Lemma train_pass_returns self td tl batch_size (w : tworld) :
  batch_size <> 0%nat ->
  exists r (w' : tworld),
    RCVAEMultiTF.train_pass run_train self td tl batch_size w =
      (Py.Returns r, w') /\
    tstep w' = tstep w /\ tfiles w' = tfiles w.
Proof.
  intros Hb. unfold RCVAEMultiTF.train_pass.
  destruct (Nat.eqb_spec batch_size 0) as [E|_]; [contradiction|].
  apply (for_each_returns
           (fun w' : tworld => tstep w' = tstep w /\ tfiles w' = tfiles w));
    [|split; reflexivity].
  intros lower [a b] w1 [H1 H2].
  unfold Py.mbind, Py.get, Py.modify, Py.ret.
  destruct (run_train _ _ _ _ _) as [[[v g] c1] c2].
  eexists _, _. split; [reflexivity|]. split; assumption.
Qed.

Lemma train_pass_batch_size_zero self td tl (w : tworld) :
  RCVAEMultiTF.train_pass run_train self td tl 0 w =
  (Py.Raises Py.ValueError, w).
Proof. reflexivity. Qed.

(** The validation pass leaves the session and the checkpoints alone. *)
Lemma valid_pass_returns self vd vl batch_size (w : tworld) :
  batch_size <> 0%nat ->
  exists r (w' : tworld),
    RCVAEMultiTF.valid_pass run_valid self vd vl batch_size w =
      (Py.Returns r, w') /\
    tsess w' = tsess w /\ tfiles w' = tfiles w.
Proof.
  intros Hb. unfold RCVAEMultiTF.valid_pass.
  destruct (Nat.eqb_spec batch_size 0) as [E|_]; [contradiction|].
  apply (for_each_returns
           (fun w' : tworld => tsess w' = tsess w /\ tfiles w' = tfiles w));
    [|split; reflexivity].
  intros lower [a b] w1 [H1 H2].
  unfold Py.mbind, Py.get, Py.modify, Py.ret.
  destruct (run_valid _ _ _ _ _) as [[g c1] c2].
  eexists _, _. split; [reflexivity|]. split; assumption.
Qed.

(** An epoch without validation. *)
Lemma epoch_without_validation self td tl batch_size P min_delta verbose
    it l (w : tworld) :
  batch_size <> 0%nat ->
  verbose && (length td =? 0)%nat = false ->
  exists w' : tworld,
    tepoch self td tl None batch_size P min_delta verbose it l w =
      (Py.Returns l, w') /\
    tstep w' = next_step (tstep w) /\ tfiles w' = tfiles w.
Proof.
  intros Hb Hp. unfold RCVAEMultiTF.epoch.
  unfold Py.mbind at 1.
  unfold RCVAEMultiTF.assign_global_step, Py.modify.
  unfold Py.mbind at 1.
  match goal with
  | |- context [RCVAEMultiTF.train_pass _ _ _ _ _ ?w0] =>
      destruct (train_pass_returns self td tl batch_size w0 Hb)
        as (r & w1 & E & Hs & Hf)
  end.
  rewrite E. unfold Py.mbind, RCVAEMultiTF.print_epoch. rewrite Hp.
  exists w1. split; [reflexivity|]. split; [exact Hs|exact Hf].
Qed.

Lemma epochs_without_validation self td tl batch_size P min_delta verbose l :
  batch_size <> 0%nat ->
  verbose && (length td =? 0)%nat = false ->
  RCVAEMultiTF.stopped_at l = None ->
  forall n k (w : tworld),
  exists w' : tworld,
    RCVAEMultiTF.epochs
      (tepoch self td tl None batch_size P min_delta verbose)
      (seq k n) l w = (Py.Returns l, w') /\
    tstep w' = Nat.iter n next_step (tstep w) /\ tfiles w' = tfiles w.
Proof.
  intros Hb Hp Hl. induction n as [|n IH]; intros k w.
  - exists w. split; [reflexivity|]. split; reflexivity.
  - cbn [seq RCVAEMultiTF.epochs]. unfold Py.mbind.
    destruct (epoch_without_validation self td tl batch_size P min_delta
                verbose k l w Hb Hp) as (w1 & E & Hs & Hf).
    rewrite E, Hl.
    destruct (IH (S k) w1) as (w2 & E2 & Hs2 & Hf2).
    exists w2. split; [exact E2|]. split.
    + rewrite Hs2, Hs. symmetry. apply (Nat.iter_succ_r n next_step).
    + congruence.
Qed.

(** With [initial_run=True] the preparation leaves [global_step] at 0;
    the preparation never writes a checkpoint. *)
Lemma prepare_post self train_data le condition_key use_validation
    valid_data initial_run shuffle (w w1 : tworld) r :
  RCVAEMultiTF.prepare label_encoder shuffle_data self train_data le
    condition_key use_validation valid_data initial_run shuffle w =
    (Py.Returns r, w1) ->
  tfiles w1 = tfiles w /\ (initial_run = true -> tstep w1 = 0%Z).
Proof.
  unfold RCVAEMultiTF.prepare. destruct w as [s g fs].
  unfold Py.mbind, RCVAEMultiTF.assign_global_step, RCVAEMultiTF.restore,
         Py.modify, Py.ret, Py.lift, Py.get, Py.raise.
  destruct initial_run; cbn.
  - destruct (label_encoder train_data le condition_key) as [[tl le']|e];
      [|discriminate].
    destruct shuffle; cbn.
    + destruct (shuffle_data train_data tl g) as [[d y] g']. cbn.
      destruct (use_validation && Py.is_None valid_data); [discriminate|].
      destruct use_validation, valid_data as [v|]; cbn;
        try (intros H; injection H as _ <-; split; reflexivity).
      destruct (label_encoder v (Some le') condition_key); cbn;
        [|discriminate].
      intros H; injection H as _ <-; split; reflexivity.
    + destruct (use_validation && Py.is_None valid_data); [discriminate|].
      destruct use_validation, valid_data as [v|]; cbn;
        try (intros H; injection H as _ <-; split; reflexivity).
      destruct (label_encoder v (Some le') condition_key); cbn;
        [|discriminate].
      intros H; injection H as _ <-; split; reflexivity.
  - destruct (fs !! RCVAEMultiTF.model_to_use self) as [ck|]; cbn;
      [|discriminate].
    destruct (label_encoder train_data le condition_key) as [[tl le']|e];
      [|discriminate].
    destruct shuffle; cbn.
    + destruct (shuffle_data train_data tl g) as [[d y] g']. cbn.
      destruct (use_validation && Py.is_None valid_data); [discriminate|].
      destruct use_validation, valid_data as [v|]; cbn;
        try (intros H; injection H as _ <-; split;
             [reflexivity|discriminate]).
      destruct (label_encoder v (Some le') condition_key); cbn;
        [|discriminate].
      intros H; injection H as _ <-; split; [reflexivity|discriminate].
    + destruct (use_validation && Py.is_None valid_data); [discriminate|].
      destruct use_validation, valid_data as [v|]; cbn;
        try (intros H; injection H as _ <-; split;
             [reflexivity|discriminate]).
      destruct (label_encoder v (Some le') condition_key); cbn;
        [|discriminate].
      intros H; injection H as _ <-; split; [reflexivity|discriminate].
Qed.

Lemma valid_pass_no_data self vl batch_size (w : tworld) :
  batch_size <> 0%nat ->
  RCVAEMultiTF.valid_pass run_valid self [] vl batch_size w =
  (Py.Returns (0%Q, 0%Q), w).
Proof.
  intros Hb. unfold RCVAEMultiTF.valid_pass, Py.range_step.
  destruct (Nat.eqb_spec batch_size 0) as [E|_]; [contradiction|].
  cbn [length]. rewrite Nat.div_small by lia. reflexivity.
Qed.

(** A training pass that returns has left [global_step] and the
    checkpoints alone. *)
Lemma train_pass_frame self td tl batch_size (w w' : tworld) r :
  RCVAEMultiTF.train_pass run_train self td tl batch_size w =
    (Py.Returns r, w') ->
  batch_size <> 0%nat /\ tstep w' = tstep w /\ tfiles w' = tfiles w.
Proof.
  intros H. destruct (Nat.eq_dec batch_size 0) as [-> | Hb].
  - rewrite train_pass_batch_size_zero in H. discriminate.
  - destruct (train_pass_returns self td tl batch_size w Hb)
      as (r' & w'' & E & Hs & Hf).
    rewrite E in H. injection H as _ <-. repeat split; assumption.
Qed.

(** An epoch without validation that returns. *)
Lemma epoch_without_validation_frame self td tl batch_size P min_delta
    verbose it l (w w' : tworld) l' :
  tepoch self td tl None batch_size P min_delta verbose it l w =
    (Py.Returns l', w') ->
  l' = l /\ tstep w' = next_step (tstep w) /\ tfiles w' = tfiles w.
Proof.
  unfold RCVAEMultiTF.epoch. unfold Py.mbind at 1.
  unfold RCVAEMultiTF.assign_global_step, Py.modify.
  unfold Py.mbind at 1.
  match goal with
  | |- context [RCVAEMultiTF.train_pass _ _ _ _ _ ?w0] =>
      destruct (RCVAEMultiTF.train_pass run_train self td tl batch_size w0)
        as [[r|e] w1] eqn:E; [|discriminate];
      destruct (train_pass_frame _ _ _ _ _ _ _ E) as (_ & Hs & Hf)
  end.
  unfold Py.mbind, RCVAEMultiTF.print_epoch.
  destruct (verbose && (length td =? 0)%nat); [discriminate|].
  intros H. injection H as <- <-. split; [reflexivity|].
  split; [exact Hs|exact Hf].
Qed.

Lemma epochs_without_validation_frame self td tl batch_size P min_delta
    verbose l :
  RCVAEMultiTF.stopped_at l = None ->
  forall n k (w w' : tworld) l',
    RCVAEMultiTF.epochs
      (tepoch self td tl None batch_size P min_delta verbose)
      (seq k n) l w = (Py.Returns l', w') ->
    l' = l /\ tstep w' = Nat.iter n next_step (tstep w) /\
    tfiles w' = tfiles w.
Proof.
  intros Hl. induction n as [|n IH]; intros k w w' l' H.
  - injection H as <- <-. repeat split.
  - cbn [seq RCVAEMultiTF.epochs] in H. unfold Py.mbind at 1 in H.
    destruct (tepoch self td tl None batch_size P min_delta verbose k l w)
      as [[la|e] wa] eqn:Ea; [|discriminate].
    destruct (epoch_without_validation_frame _ _ _ _ _ _ _ _ _ _ _ _ Ea)
      as (-> & Hs & Hf).
    rewrite Hl in H.
    destruct (IH (S k) wa w' l' H) as (-> & Hs2 & Hf2).
    split; [reflexivity|]. split.
    + rewrite Hs2, Hs. symmetry. apply (Nat.iter_succ_r n next_step).
    + congruence.
Qed.

(** X2.  Whenever [train] without validation returns, it has run each of
    its [n_epochs] epochs: there has been no early stopping, [loss_hist]
    is empty and the counter of the patience is 0; the checkpoint holds
    the session as [train] leaves it and, with [initial_run=True],
    [global_step] ends at [n_epochs]. *)
Theorem train_without_validation_runs_every_epoch
    self train_data le condition_key use_validation valid_data n_epochs
    batch_size early_stop_limit lr_reducer threshold initial_run shuffle
    verbose (w w1 w2 : tworld) td tl l :
  RCVAEMultiTF.prepare label_encoder shuffle_data self train_data le
    condition_key use_validation valid_data initial_run shuffle w =
    (Py.Returns (td, tl, None), w1) ->
  RCVAEMultiTF.train label_encoder shuffle_data run_train run_valid self
    train_data le condition_key use_validation valid_data n_epochs
    batch_size early_stop_limit lr_reducer threshold initial_run shuffle
    verbose w = (Py.Returns l, w2) ->
  (Z.of_nat n_epochs < 2 ^ 31)%Z ->
  l = RCVAEMultiTF.Locals [] 0 None /\
  RCVAEMultiTF.files w2 =
    <[RCVAEMultiTF.model_to_use self := RCVAEMultiTF.sess w2]>
      (RCVAEMultiTF.files w) /\
  (initial_run = true ->
   RCVAEMultiTF.global_step (RCVAEMultiTF.sess w2) = Z.of_nat n_epochs).
Proof.
  intros Hprep Hrun Hn.
  destruct (prepare_post _ _ _ _ _ _ _ _ _ _ _ Hprep) as [Hf0 Hs0].
  unfold RCVAEMultiTF.train in Hrun. unfold Py.mbind at 1 in Hrun.
  rewrite Hprep in Hrun. unfold Py.mbind at 1 in Hrun.
  destruct (RCVAEMultiTF.epochs _ _ _ w1) as [[le_|e] we] eqn:Ee;
    [|discriminate].
  destruct (epochs_without_validation_frame self td tl batch_size
              early_stop_limit threshold verbose
              (RCVAEMultiTF.Locals [] 0 None) eq_refl n_epochs 0%nat w1 we
              le_ Ee) as (-> & Hse & Hfe).
  injection Hrun as <- <-. split; [reflexivity|]. split.
  - cbn. now rewrite Hfe, Hf0.
  - intros Hi. cbn. rewrite Hse, (Hs0 Hi).
    rewrite iter_wrap_int32 by lia. lia.
Qed.

(** X3.  With [batch_size=0] and at least one epoch, [train] raises the
    [ValueError] of [range(0, n, 0)] in its first epoch: no optimiser step
    has been made and no checkpoint is written, but [global_step] has
    already been incremented. *)
Theorem train_with_batch_size_zero_raises
    self train_data le condition_key use_validation valid_data n_epochs
    early_stop_limit lr_reducer threshold initial_run shuffle verbose
    (w w1 : tworld) td tl valid :
  RCVAEMultiTF.prepare label_encoder shuffle_data self train_data le
    condition_key use_validation valid_data initial_run shuffle w =
    (Py.Returns (td, tl, valid), w1) ->
  n_epochs <> 0%nat ->
  exists w2 : tworld,
    RCVAEMultiTF.train label_encoder shuffle_data run_train run_valid self
      train_data le condition_key use_validation valid_data n_epochs 0
      early_stop_limit lr_reducer threshold initial_run shuffle verbose w =
      (Py.Raises Py.ValueError, w2) /\
    RCVAEMultiTF.files w2 = RCVAEMultiTF.files w /\
    RCVAEMultiTF.variables (RCVAEMultiTF.sess w2) =
      RCVAEMultiTF.variables (RCVAEMultiTF.sess w1) /\
    RCVAEMultiTF.global_step (RCVAEMultiTF.sess w2) =
      RCVAEMultiTF.wrap_int32
        (RCVAEMultiTF.global_step (RCVAEMultiTF.sess w1) + 1).
Proof.
  intros Hprep Hn.
  destruct (prepare_post _ _ _ _ _ _ _ _ _ _ _ Hprep) as [Hf0 _].
  destruct n_epochs as [|n]; [contradiction|].
  eexists. split; [|split; [|split]].
  - unfold RCVAEMultiTF.train. unfold Py.mbind at 1. rewrite Hprep.
    cbn [seq RCVAEMultiTF.epochs]. unfold RCVAEMultiTF.epoch.
    unfold Py.mbind, RCVAEMultiTF.assign_global_step, Py.modify.
    rewrite train_pass_batch_size_zero. reflexivity.
  - cbn. exact Hf0.
  - reflexivity.
  - reflexivity.
Qed.

(** A loop whose first epoch raises. *)
Lemma epochs_first_raises
    (body : nat -> RCVAEMultiTF.locals -> Py.M tworld RCVAEMultiTF.locals)
    k n l (w w' : tworld) e :
  body k l w = (Py.Raises e, w') ->
  RCVAEMultiTF.epochs body (seq k (S n)) l w = (Py.Raises e, w').
Proof.
  intros E. cbn [seq RCVAEMultiTF.epochs]. unfold Py.mbind. now rewrite E.
Qed.

Lemma epoch_with_empty_validation_set self td tl vl batch_size P min_delta
    verbose it l (w wt : tworld) r :
  RCVAEMultiTF.train_pass run_train self td tl batch_size
    (snd (RCVAEMultiTF.assign_global_step (fun g => g + 1)%Z w)) =
    (Py.Returns r, wt) ->
  tepoch self td tl (Some ([], vl)) batch_size P min_delta verbose it l w =
    (Py.Raises Py.ZeroDivisionError, wt) /\
  tfiles wt = tfiles w.
Proof.
  intros Et.
  destruct (train_pass_frame _ _ _ _ _ _ _ Et) as (Hb & _ & Hft).
  split; [|exact Hft].
  unfold RCVAEMultiTF.epoch. unfold Py.mbind at 1.
  change (RCVAEMultiTF.assign_global_step (fun g => g + 1)%Z w)
    with (Py.Returns tt,
          snd (RCVAEMultiTF.assign_global_step (fun g => g + 1)%Z w)).
  cbv iota. unfold Py.mbind at 1. rewrite Et.
  unfold Py.mbind at 1.
  rewrite (valid_pass_no_data self vl batch_size wt Hb).
  reflexivity.
Qed.

(** X4.  With validation on a validation set without samples, once the
    training pass of the first epoch has been made, [train] raises
    [ZeroDivisionError], at [valid_loss / valid_data.shape[0]]: the
    session is left as that training pass left it, and no checkpoint is
    written. *)
Theorem train_with_empty_validation_set_raises
    self train_data le condition_key use_validation valid_data n_epochs
    batch_size early_stop_limit lr_reducer threshold initial_run shuffle
    verbose (w w1 wt : tworld) td tl vl r :
  RCVAEMultiTF.prepare label_encoder shuffle_data self train_data le
    condition_key use_validation valid_data initial_run shuffle w =
    (Py.Returns (td, tl, Some ([], vl)), w1) ->
  RCVAEMultiTF.train_pass run_train self td tl batch_size
    (snd (RCVAEMultiTF.assign_global_step (fun g => g + 1)%Z w1)) =
    (Py.Returns r, wt) ->
  n_epochs <> 0%nat ->
  RCVAEMultiTF.train label_encoder shuffle_data run_train run_valid self
    train_data le condition_key use_validation valid_data n_epochs
    batch_size early_stop_limit lr_reducer threshold initial_run shuffle
    verbose w = (Py.Raises Py.ZeroDivisionError, wt) /\
  RCVAEMultiTF.files wt = RCVAEMultiTF.files w.
Proof.
  intros Hprep Hpass Hn.
  destruct (prepare_post _ _ _ _ _ _ _ _ _ _ _ Hprep) as [Hf0 _].
  destruct n_epochs as [|n]; [contradiction|].
  destruct (epoch_with_empty_validation_set self td tl vl batch_size
              early_stop_limit threshold verbose 0%nat
              (RCVAEMultiTF.Locals [] 0 None) w1 wt r Hpass)
    as (Ee & Hft).
  split.
  - unfold RCVAEMultiTF.train. unfold Py.mbind at 1. rewrite Hprep.
    unfold Py.mbind at 1.
    now rewrite (epochs_first_raises _ 0%nat n _ w1 wt _ Ee).
  - now rewrite Hft.
Qed.

(** The passes of an epoch never write a checkpoint. *)
Lemma passes_files self td tl vd vl batch_size (w w' : tworld) v :
  RCVAEMultiTF.passes run_train run_valid self td tl vd vl batch_size w =
    (Py.Returns v, w') ->
  tfiles w' = tfiles w.
Proof.
  destruct (Nat.eq_dec batch_size 0) as [-> | Hb].
  - unfold RCVAEMultiTF.passes, Py.mbind,
           RCVAEMultiTF.assign_global_step, Py.modify.
    rewrite train_pass_batch_size_zero. discriminate.
  - unfold RCVAEMultiTF.passes. unfold Py.mbind at 1.
    unfold RCVAEMultiTF.assign_global_step, Py.modify.
    unfold Py.mbind at 1.
    match goal with
    | |- context [RCVAEMultiTF.train_pass _ _ _ _ _ ?w0] =>
        destruct (train_pass_returns self td tl batch_size w0 Hb)
          as (r & wt & Et & _ & Hft)
    end.
    rewrite Et. unfold Py.mbind at 1.
    destruct (valid_pass_returns self vd vl batch_size wt Hb)
      as (rv & wv & Ev & _ & Hfv).
    rewrite Ev.
    destruct (length vd =? 0)%nat; [discriminate|].
    intros H. injection H as _ <-. now rewrite Hfv, Hft.
Qed.

(** X5.  With validation and [early_stop_limit=0], [train] stops after
    its first epoch whatever the losses and the threshold: the first
    epoch never counts as an improvement ([it > 0] fails), so that
    [patience_cnt] is 1 after it; the checkpoint holds the session after
    that epoch. *)
Theorem zero_patience_stops_after_the_first_epoch
    self train_data le condition_key use_validation valid_data n_epochs
    batch_size lr_reducer threshold initial_run shuffle verbose
    (w w1 wp : tworld) td tl vd vl v :
  RCVAEMultiTF.prepare label_encoder shuffle_data self train_data le
    condition_key use_validation valid_data initial_run shuffle w =
    (Py.Returns (td, tl, Some (vd, vl)), w1) ->
  RCVAEMultiTF.passes run_train run_valid self td tl vd vl batch_size w1 =
    (Py.Returns v, wp) ->
  n_epochs <> 0%nat ->
  exists w2 : tworld,
    RCVAEMultiTF.train label_encoder shuffle_data run_train run_valid self
      train_data le condition_key use_validation valid_data n_epochs
      batch_size 0 lr_reducer threshold initial_run shuffle verbose w =
      (Py.Returns (RCVAEMultiTF.Locals [v] 1 (Some 0%nat)), w2) /\
    RCVAEMultiTF.sess w2 = RCVAEMultiTF.sess wp /\
    RCVAEMultiTF.files w2 =
      <[RCVAEMultiTF.model_to_use self := RCVAEMultiTF.sess wp]>
        (RCVAEMultiTF.files w).
Proof.
  intros Hprep Hpass Hn.
  destruct (prepare_post _ _ _ _ _ _ _ _ _ _ _ Hprep) as [Hf0 _].
  pose proof (passes_files _ _ _ _ _ _ _ _ _ Hpass) as Hfp.
  destruct n_epochs as [|n]; [contradiction|].
  eexists. split; [|split].
  - unfold RCVAEMultiTF.train. unfold Py.mbind at 1. rewrite Hprep.
    unfold Py.mbind at 1. cbn [seq RCVAEMultiTF.epochs].
    unfold Py.mbind at 1. rewrite epoch_unfold, Hpass. reflexivity.
  - reflexivity.
  - cbn. rewrite insert_insert_eq. now rewrite Hfp, Hf0.
Qed.

(** The result of an epoch with validation that returns. *)
Lemma epoch_step self td tl vd vl batch_size P min_delta verbose it l
    (w w' : tworld) l' :
  tepoch self td tl (Some (vd, vl)) batch_size P min_delta verbose it l w =
    (Py.Returns l', w') ->
  length (RCVAEMultiTF.loss_hist l') =
    S (length (RCVAEMultiTF.loss_hist l)) /\
  (RCVAEMultiTF.patience_cnt l' <= S (RCVAEMultiTF.patience_cnt l))%nat /\
  (RCVAEMultiTF.stopped_at l' = None /\
   (RCVAEMultiTF.patience_cnt l' <= P)%nat \/
   RCVAEMultiTF.stopped_at l' = Some it /\
   (P < RCVAEMultiTF.patience_cnt l')%nat).
Proof.
  rewrite epoch_unfold.
  destruct (RCVAEMultiTF.passes _ _ _ _ _ _ _ _ w) as [[v|e] wp];
    [|discriminate].
  cbv zeta.
  destruct (RCVAEMultiTF.improved _ it min_delta) as [b|e]; [|discriminate].
  destruct (P <? _)%nat eqn:E.
  - intros H. injection H as <- _. cbn.
    rewrite length_app. cbn. apply Nat.ltb_lt in E.
    split; [lia|]. split; [destruct b; lia|]. right. split; [reflexivity|].
    exact E.
  - destruct (verbose && _); [discriminate|].
    intros H. injection H as <- _. cbn.
    rewrite length_app. cbn. apply Nat.ltb_ge in E.
    split; [lia|]. split; [destruct b; lia|]. left. split; [reflexivity|].
    exact E.
Qed.

Lemma epochs_stop_late self td tl vd vl batch_size P min_delta verbose n :
  forall k l (w w' : tworld) l' it,
    RCVAEMultiTF.epochs
      (tepoch self td tl (Some (vd, vl)) batch_size P min_delta verbose)
      (seq k n) l w = (Py.Returns l', w') ->
    RCVAEMultiTF.stopped_at l = None ->
    (RCVAEMultiTF.patience_cnt l <= P)%nat ->
    (RCVAEMultiTF.patience_cnt l <= k)%nat ->
    length (RCVAEMultiTF.loss_hist l) = k ->
    RCVAEMultiTF.stopped_at l' = Some it ->
    (P <= it)%nat /\ (k <= it < k + n)%nat /\
    RCVAEMultiTF.patience_cnt l' = S P /\
    length (RCVAEMultiTF.loss_hist l') = S it.
Proof.
  induction n as [|n IH]; intros k l w w' l' it Hrun Hnone HP Hk Hlen Hstop.
  - injection Hrun as <- _. congruence.
  - cbn [seq RCVAEMultiTF.epochs] in Hrun. unfold Py.mbind in Hrun.
    destruct (tepoch self td tl (Some (vd, vl)) batch_size P min_delta
                     verbose k l w) as [[la|e] wa] eqn:Ea; [|discriminate].
    destruct (epoch_step _ _ _ _ _ _ _ _ _ _ _ _ _ _ Ea)
      as (Hl & Hc & [[Hn Hle] | [Hs Hgt]]).
    + rewrite Hn in Hrun.
      destruct (IH (S k) la wa w' l' it Hrun Hn Hle ltac:(lia) ltac:(lia)
                   Hstop) as (H1 & H2 & H3 & H4).
      repeat split; try assumption; lia.
    + rewrite Hs in Hrun. injection Hrun as <- _.
      rewrite Hs in Hstop. injection Hstop as <-.
      repeat split; lia.
Qed.

Lemma epochs_without_validation_result self td tl batch_size P min_delta
    verbose its :
  forall l (w w' : tworld) l',
    RCVAEMultiTF.epochs
      (tepoch self td tl None batch_size P min_delta verbose) its l w =
      (Py.Returns l', w') ->
    RCVAEMultiTF.stopped_at l = None -> l' = l.
Proof.
  induction its as [|it its IH]; intros l w w' l' Hrun Hnone.
  - now injection Hrun as <- _.
  - cbn [RCVAEMultiTF.epochs] in Hrun. unfold Py.mbind at 1 in Hrun.
    destruct (tepoch self td tl None batch_size P min_delta verbose it l w)
      as [[la|e] wa] eqn:Ea; [|discriminate].
    assert (la = l) as ->.
    { unfold RCVAEMultiTF.epoch, Py.mbind in Ea.
      destruct (RCVAEMultiTF.assign_global_step _ w) as [[[]|?] ?];
        [|discriminate].
      destruct (RCVAEMultiTF.train_pass _ _ _ _ _ _) as [[?|?] ?];
        [|discriminate].
      destruct (RCVAEMultiTF.print_epoch _ _ _) as [[[]|?] ?];
        [|discriminate].
      now injection Ea as <- _. }
    rewrite Hnone in Hrun. now apply (IH l wa w' l').
Qed.

(** X6.  Whenever [train] is left by the [break] of early stopping, at
    epoch [it], more epochs than the patience have been run
    ([it >= early_stop_limit]), the counter stands at exactly
    [early_stop_limit + 1], and [loss_hist] holds one loss for each of the
    [it + 1] epochs; without validation [train] is never left that way. *)
Theorem early_stopping_takes_more_epochs_than_the_patience
    self train_data le condition_key use_validation valid_data n_epochs
    batch_size early_stop_limit lr_reducer threshold initial_run shuffle
    verbose (w w2 : tworld) l it :
  RCVAEMultiTF.train label_encoder shuffle_data run_train run_valid self
    train_data le condition_key use_validation valid_data n_epochs
    batch_size early_stop_limit lr_reducer threshold initial_run shuffle
    verbose w = (Py.Returns l, w2) ->
  RCVAEMultiTF.stopped_at l = Some it ->
  use_validation = true /\
  (early_stop_limit <= it < n_epochs)%nat /\
  RCVAEMultiTF.patience_cnt l = S early_stop_limit /\
  length (RCVAEMultiTF.loss_hist l) = S it.
Proof.
  intros Hrun Hstop. unfold RCVAEMultiTF.train in Hrun.
  unfold Py.mbind at 1 in Hrun.
  destruct (RCVAEMultiTF.prepare _ _ _ _ _ _ _ _ _ _ w)
    as [[[[td tl] valid]|e] w1] eqn:Hprep; [|discriminate].
  unfold Py.mbind at 1 in Hrun.
  destruct (RCVAEMultiTF.epochs _ _ _ w1) as [[le_|e] we] eqn:Ee;
    [|discriminate].
  injection Hrun as <- _.
  destruct valid as [[vd vl]|].
  - destruct (epochs_stop_late _ _ _ _ _ _ _ _ _ _ _ _ _ _ _ _ Ee
                eq_refl ltac:(cbn; lia) ltac:(cbn; lia) eq_refl Hstop)
      as (H1 & H2 & H3 & H4).
    split; [|repeat split; try assumption; lia].
    destruct use_validation; [reflexivity|].
    unfold RCVAEMultiTF.prepare, Py.mbind in Hprep.
    repeat match type of Hprep with
           | context [match ?x with _ => _ end] =>
               destruct x; try discriminate
           end.
  - apply epochs_without_validation_result in Ee; [|reflexivity].
    subst. discriminate.
Qed.

(** X7.  Whenever [train] returns, the checkpoint under [model_to_use]
    holds the session as [train] leaves it: a [restore_model()] that
    follows succeeds and changes nothing. *)
Theorem restore_model_after_train_changes_nothing
    self train_data le condition_key use_validation valid_data n_epochs
    batch_size early_stop_limit lr_reducer threshold initial_run shuffle
    verbose (w w2 : tworld) l :
  RCVAEMultiTF.train label_encoder shuffle_data run_train run_valid self
    train_data le condition_key use_validation valid_data n_epochs
    batch_size early_stop_limit lr_reducer threshold initial_run shuffle
    verbose w = (Py.Returns l, w2) ->
  RCVAEMultiTF.files w2 !! RCVAEMultiTF.model_to_use self =
    Some (RCVAEMultiTF.sess w2) /\
  RCVAEMultiTF.restore_model self w2 = (Py.Returns tt, w2).
Proof.
  intros Hrun. unfold RCVAEMultiTF.train in Hrun.
  unfold Py.mbind at 1 in Hrun.
  destruct (RCVAEMultiTF.prepare _ _ _ _ _ _ _ _ _ _ w)
    as [[[[td tl] valid]|e] w1]; [|discriminate].
  unfold Py.mbind at 1 in Hrun.
  destruct (RCVAEMultiTF.epochs _ _ _ w1) as [[le_|e] we];
    [|discriminate].
  injection Hrun as _ <-. destruct we as [s g fs].
  assert (Hf : RCVAEMultiTF.files
                 (snd (RCVAEMultiTF.save self (RCVAEMultiTF.World s g fs)))
               !! RCVAEMultiTF.model_to_use self = Some s).
  { cbn. apply lookup_insert_eq. }
  split; [exact Hf|].
  unfold RCVAEMultiTF.restore_model, RCVAEMultiTF.restore, Py.mbind, Py.get.
  cbn in Hf |- *. rewrite Hf. reflexivity.
Qed.

End TrainingRuns.

Section ConcreteTrainingRuns.

Import Examples.

Lemma train_without_validation_runs_every_epoch_witness :
  exists l (w2 : RCVAEMultiTF.world nat unit),
    RCVAEMultiTF.train toy_label_encoder toy_shuffle_multi toy_run_train
      toy_run_valid multi_model [tt] None "condition" false None 3 32 20 0%Z
      0.0025%Q true true true new_world = (Py.Returns l, w2) /\
    l = RCVAEMultiTF.Locals [] 0 None /\
    RCVAEMultiTF.files w2 =
      <[RCVAEMultiTF.model_to_use multi_model := RCVAEMultiTF.sess w2]>
        (RCVAEMultiTF.files new_world) /\
    (true = true ->
     RCVAEMultiTF.global_step (RCVAEMultiTF.sess w2) = Z.of_nat 3).
Proof.
  exists (RCVAEMultiTF.Locals [] 0 None),
         (RCVAEMultiTF.World
            (RCVAEMultiTF.Session 3 3%nat) tt
            {[ "./"%string := RCVAEMultiTF.Session 3 3%nat ]}).
  split; [vm_compute; reflexivity|].
  apply (train_without_validation_runs_every_epoch
           toy_label_encoder toy_shuffle_multi toy_run_train toy_run_valid
           multi_model [tt] None "condition" false None 3 32 20 0%Z
           0.0025%Q true true true new_world new_world _ [tt] [O]).
  - reflexivity.
  - vm_compute. reflexivity.
  - reflexivity.
Defined.

Lemma train_with_batch_size_zero_raises_witness :
  exists w2 : RCVAEMultiTF.world nat unit,
    RCVAEMultiTF.train toy_label_encoder toy_shuffle_multi toy_run_train
      toy_run_valid multi_model [tt] None "condition" false None 3 0 20 0%Z
      0.0025%Q true true true new_world = (Py.Raises Py.ValueError, w2) /\
    RCVAEMultiTF.files w2 = RCVAEMultiTF.files new_world /\
    RCVAEMultiTF.variables (RCVAEMultiTF.sess w2) =
      RCVAEMultiTF.variables (RCVAEMultiTF.sess new_world) /\
    RCVAEMultiTF.global_step (RCVAEMultiTF.sess w2) =
      RCVAEMultiTF.wrap_int32
        (RCVAEMultiTF.global_step (RCVAEMultiTF.sess new_world) + 1).
Proof.
  apply (train_with_batch_size_zero_raises
           toy_label_encoder toy_shuffle_multi toy_run_train toy_run_valid
           multi_model [tt] None "condition" false None 3 20 0%Z 0.0025%Q
           true true true new_world new_world [tt] [O] None).
  - reflexivity.
  - discriminate.
Defined.

Lemma train_with_empty_validation_set_raises_witness :
  RCVAEMultiTF.train toy_label_encoder toy_shuffle_multi toy_run_train
    toy_run_valid multi_model [tt] None "condition" true (Some []) 3 32 20
    0%Z 0.0025%Q true true true new_world =
    (Py.Raises Py.ZeroDivisionError,
     RCVAEMultiTF.World (RCVAEMultiTF.Session 1 1%nat) tt ∅) /\
  RCVAEMultiTF.files
    (RCVAEMultiTF.World (RCVAEMultiTF.Session 1 1%nat) tt ∅) =
  RCVAEMultiTF.files new_world.
Proof.
  apply (train_with_empty_validation_set_raises
           toy_label_encoder toy_shuffle_multi toy_run_train toy_run_valid
           multi_model [tt] None "condition" true (Some []) 3 32 20 0%Z
           0.0025%Q true true true new_world new_world
           (RCVAEMultiTF.World (RCVAEMultiTF.Session 1 1%nat) tt ∅)
           [tt] [O] [] (0%Q, 0%Q)).
  - reflexivity.
  - reflexivity.
  - discriminate.
Defined.

Lemma zero_patience_stops_after_the_first_epoch_witness :
  exists w2 : RCVAEMultiTF.world nat unit,
    RCVAEMultiTF.train toy_label_encoder toy_shuffle_multi toy_run_train
      toy_run_valid multi_model [tt] None "condition" true (Some [tt]) 30 32
      0 0%Z 0.0025%Q true true true new_world =
      (Py.Returns (RCVAEMultiTF.Locals [1%Q] 1 (Some 0%nat)), w2) /\
    RCVAEMultiTF.sess w2 = RCVAEMultiTF.Session 1 1%nat /\
    RCVAEMultiTF.files w2 =
      <[RCVAEMultiTF.model_to_use multi_model :=
          RCVAEMultiTF.Session 1 1%nat]>
        (RCVAEMultiTF.files new_world).
Proof.
  apply (zero_patience_stops_after_the_first_epoch
           toy_label_encoder toy_shuffle_multi toy_run_train toy_run_valid
           multi_model [tt] None "condition" true (Some [tt]) 30 32 0%Z
           0.0025%Q true true true new_world new_world
           (RCVAEMultiTF.World (RCVAEMultiTF.Session 1 1%nat) tt ∅)
           [tt] [O] [tt] [O] 1%Q).
  - reflexivity.
  - vm_compute. reflexivity.
  - discriminate.
Defined.

Lemma early_stopping_takes_more_epochs_than_the_patience_witness :
  true = true /\ (20 <= 22 < 30)%nat /\
  RCVAEMultiTF.patience_cnt
    (RCVAEMultiTF.Locals (take 23 toy_losses) 21 (Some 22%nat)) = 21%nat /\
  length (RCVAEMultiTF.loss_hist
            (RCVAEMultiTF.Locals (take 23 toy_losses) 21 (Some 22%nat))) =
    23%nat.
Proof.
  apply (early_stopping_takes_more_epochs_than_the_patience
           toy_label_encoder toy_shuffle_multi toy_run_train toy_run_valid
           multi_model [tt] None "condition" true (Some [tt]) 30 32 20 0%Z
           0.0025%Q true true true new_world
           (snd (toy_train true (Some [tt]) 30 20 true new_world))
           (RCVAEMultiTF.Locals (take 23 toy_losses) 21 (Some 22%nat))
           22%nat).
  - vm_compute. reflexivity.
  - reflexivity.
Defined.

Lemma restore_model_after_train_changes_nothing_witness :
  RCVAEMultiTF.files (snd (toy_train true (Some [tt]) 30 20 true new_world))
    !! RCVAEMultiTF.model_to_use multi_model =
    Some (RCVAEMultiTF.sess
            (snd (toy_train true (Some [tt]) 30 20 true new_world))) /\
  RCVAEMultiTF.restore_model multi_model
    (snd (toy_train true (Some [tt]) 30 20 true new_world)) =
  (Py.Returns tt, snd (toy_train true (Some [tt]) 30 20 true new_world)).
Proof.
  apply (restore_model_after_train_changes_nothing
           toy_label_encoder toy_shuffle_multi toy_run_train toy_run_valid
           multi_model [tt] None "condition" true (Some [tt]) 30 32 20 0%Z
           0.0025%Q true true true new_world
           (snd (toy_train true (Some [tt]) 30 20 true new_world))
           (RCVAEMultiTF.Locals (take 23 toy_losses) 21 (Some 22%nat))).
  vm_compute. reflexivity.
Defined.

End ConcreteTrainingRuns.

(** ** Saving and restoring [RCVAE] *)

Section DensePersistence.

Context {Weights Rng : Type}.

Abbreviation dworld := (RCVAE.world Weights Rng).
Abbreviation artifact self name :=
  (Py.os_path_join (RCVAE.model_to_use self) name).

(** X8.  [restore_model] reads [mmd_ae.h5], [encoder.h5] and
    [decoder.h5], in that order, and assigns each model as soon as it is
    read: when the three files exist the three models are those of the
    files; when one is missing, [OSError] is raised and the models read
    before it have already replaced those of the instance. *)
Theorem restore_model_is_not_atomic self (w : dworld) :
  (forall m e d,
     RCVAE.files w !! artifact self "mmd_ae.h5" = Some m ->
     RCVAE.files w !! artifact self "encoder.h5" = Some e ->
     RCVAE.files w !! artifact self "decoder.h5" = Some d ->
     RCVAE.restore_model self w =
     (Py.Returns tt,
      RCVAE.World (RCVAE.Own m) e d (RCVAE.rng w) (RCVAE.files w))) /\
  (RCVAE.files w !! artifact self "mmd_ae.h5" = None ->
   RCVAE.restore_model self w = (Py.Raises Py.OSError, w)) /\
  (forall m,
     RCVAE.files w !! artifact self "mmd_ae.h5" = Some m ->
     RCVAE.files w !! artifact self "encoder.h5" = None ->
     RCVAE.restore_model self w =
     (Py.Raises Py.OSError,
      RCVAE.World (RCVAE.Own m) (RCVAE.encoder_model w)
                  (RCVAE.decoder_model w) (RCVAE.rng w) (RCVAE.files w))) /\
  (forall m e,
     RCVAE.files w !! artifact self "mmd_ae.h5" = Some m ->
     RCVAE.files w !! artifact self "encoder.h5" = Some e ->
     RCVAE.files w !! artifact self "decoder.h5" = None ->
     RCVAE.restore_model self w =
     (Py.Raises Py.OSError,
      RCVAE.World (RCVAE.Own m) e (RCVAE.decoder_model w) (RCVAE.rng w)
                  (RCVAE.files w))).
Proof.
  destruct w as [rae enc dec g fs].
  unfold RCVAE.restore_model, RCVAE.load_model, Py.mbind, Py.get, Py.modify,
         Py.ret, Py.raise.
  cbn. repeat split.
  - intros m e d Hm He Hd. rewrite Hm. cbn. rewrite He. cbn.
    now rewrite Hd.
  - intros Hm. now rewrite Hm.
  - intros m Hm He. rewrite Hm. cbn. now rewrite He.
  - intros m e Hm He Hd. rewrite Hm. cbn. rewrite He. cbn.
    now rewrite Hd.
Qed.

End DensePersistence.

Section ConcreteDenseRuns.

Import Examples.

Lemma restore_model_is_not_atomic_witness :
  RCVAE.restore_model dense_model archived_world =
  (Py.Returns tt, restored_world).
Proof.
  apply (proj1 (restore_model_is_not_atomic dense_model archived_world)
               7%nat 3%nat 4%nat); reflexivity.
Defined.

End ConcreteDenseRuns.

(** ** The kernels, entry by entry *)

Section KernelCells.

Import Fl Backend.
Local Open Scope R_scope.

Lemma map_map_rows {A B C : Type} (f : A -> B) (g : B -> C)
    (m : list (list A)) :
  map (map g) (map (map f) m) = map (map (fun a => g (f a))) m.
Proof.
  rewrite map_map. apply map_ext. intros row. apply map_map.
Qed.

Lemma square_diff_sym (a b : list R) :
  map square (zip_with Rminus a b) = map square (zip_with Rminus b a).
Proof.
  revert b. induction a as [|u a IH]; intros [|v b]; simpl;
    try reflexivity.
  rewrite IH. f_equal. unfold square. ring.
Qed.

Lemma broadcast_sub_lookup (x y : list (list R)) i j :
  Spec.entry (broadcast_sub x y) i j =
  xi ← x !! i; yj ← y !! j; Some (zip_with Rminus xi yj).
Proof.
  unfold Spec.entry, broadcast_sub. rewrite list_lookup_fmap.
  destruct (x !! i) as [xi|]; simpl; [|reflexivity].
  rewrite list_lookup_fmap. now destruct (y !! j).
Qed.

(** A matrix of the kernel's shape whose entry [(i, j)] is a function of
    the squared differences between row [i] and row [j] is symmetric. *)
Lemma cells_symmetric {B : Type} (c : list R -> B) (x y : list (list R))
    i j :
  Spec.entry (map (map (fun d => c (map square d))) (broadcast_sub x y)) i j =
  Spec.entry (map (map (fun d => c (map square d))) (broadcast_sub y x)) j i.
Proof.
  rewrite !entry_map, !broadcast_sub_lookup.
  destruct (x !! i) as [xi|], (y !! j) as [yj|]; simpl; try reflexivity.
  now rewrite square_diff_sym.
Qed.

Lemma zip_add_cells (f g : R -> fl) (D : list (list R)) :
  zip_with (zip_with add) (map (map f) D) (map (map g) D) =
  map (map (fun d => add (f d) (g d))) D.
Proof.
  induction D as [|row D IH]; simpl; [reflexivity|].
  rewrite IH. f_equal.
  induction row as [|v row IHr]; simpl; [reflexivity|].
  now rewrite IHr.
Qed.

(** The [raphy] branch, whatever the scales: entry by entry, the sum over
    the scales, from the last to the first. *)
Lemma raphy_cells (w : R) (scales : list R) (D : list (list R)) :
  sum_axis0 (map (map (fun _ => Some 0)) D)
    (map (fun s => map (map (fun d => mul (Some w) (exp_neg_div d (s ^ 2)))) D)
         scales) =
  map (map (fun d =>
              foldr (fun s acc => add (mul (Some w) (exp_neg_div d (s ^ 2)))
                                      acc)
                    (Some 0) scales))
      D.
Proof.
  unfold sum_axis0. induction scales as [|s scales IH]; [reflexivity|].
  cbn [map foldr]. rewrite IH.
  apply (zip_add_cells (fun d => mul (Some w) (exp_neg_div d (s ^ 2)))).
Qed.

(** Every supported kind computes its entry [(i, j)] from the squared
    differences between row [i] of [x] and row [j] of [y]. *)
Lemma kernel_cells kernel scales dim :
  Spec.supported kernel ->
  exists c : list R -> fl,
    forall x y, shape1 x = dim ->
      RCVAE.compute_kernel x y kernel scales =
      Some (map (map (fun d => c (map square d)))
                (broadcast_sub (data x) (data y))).
Proof.
  intros [-> | [-> | ->]].
  - exists (fun sq => m ← reduce_mean sq; Some (exp (- m / INR dim))).
    intros x y <-. now rewrite rbf_branch.
  - exists (fun sq =>
              foldr (fun s acc =>
                       add (mul (Some (INR (length scales)))
                                (exp_neg_div (reduce_sum sq) (s ^ 2))) acc)
                    (Some 0) scales).
    intros x y _. unfold RCVAE.compute_kernel. simpl String.eqb.
    cbv iota zeta. f_equal. rewrite raphy_cells.
    unfold RCVAE.squared_distance. now rewrite map_map_rows.
  - exists (fun sq =>
              Some (Aux.multi_scale_cell RCVAE.sigmas (reduce_sum sq))).
    intros x y _. rewrite multi_scale_branch.
    unfold RCVAE.squared_distance. now rewrite map_map_rows.
Qed.

End KernelCells.

Section KernelFacts.

Import Fl Backend Examples.
Local Open Scope R_scope.

(** X11.  For every supported kind and operands of one width,
    [compute_kernel] is symmetric: entry [(i, j)] of [K(x, y)] is entry
    [(j, i)] of [K(y, x)], NaN included.  ([RCVAE] and [RCCVAE], and
    [RCVAEMultiTF] for its two kinds.) *)
Theorem compute_kernel_is_symmetric x y kernel scales :
  Spec.supported kernel -> shape1 y = shape1 x ->
  exists Kxy Kyx,
    RCVAE.compute_kernel x y kernel scales = Some Kxy /\
    RCVAE.compute_kernel y x kernel scales = Some Kyx /\
    RCCVAE.compute_kernel x y kernel scales = Some Kxy /\
    RCCVAE.compute_kernel y x kernel scales = Some Kyx /\
    (Spec.supported_multi kernel ->
     RCVAEMultiTF.compute_kernel x y kernel = Some Kxy /\
     RCVAEMultiTF.compute_kernel y x kernel = Some Kyx) /\
    forall i j, Spec.entry Kxy i j = Spec.entry Kyx j i.
Proof.
  intros Hk Hw.
  destruct (kernel_cells kernel scales (shape1 x) Hk) as [c Hc].
  pose proof (Hc x y eq_refl) as Exy. pose proof (Hc y x Hw) as Eyx.
  eexists _, _. split; [exact Exy|]. split; [exact Eyx|].
  split; [exact Exy|]. split; [exact Eyx|]. split.
  - intros Hm. now rewrite !(compute_kernel_multi _ _ kernel scales Hm).
  - intros i j. apply cells_symmetric.
Qed.

Lemma compute_kernel_is_symmetric_witness :
  exists Kxy Kyx,
    RCVAE.compute_kernel zeros ones "rbf" [] = Some Kxy /\
    RCVAE.compute_kernel ones zeros "rbf" [] = Some Kyx /\
    RCCVAE.compute_kernel zeros ones "rbf" [] = Some Kxy /\
    RCCVAE.compute_kernel ones zeros "rbf" [] = Some Kyx /\
    (Spec.supported_multi "rbf" ->
     RCVAEMultiTF.compute_kernel zeros ones "rbf" = Some Kxy /\
     RCVAEMultiTF.compute_kernel ones zeros "rbf" = Some Kyx) /\
    forall i j, Spec.entry Kxy i j = Spec.entry Kyx j i.
Proof.
  apply (compute_kernel_is_symmetric zeros ones "rbf" []).
  - left. reflexivity.
  - reflexivity.
Defined.

Lemma sum_entries_zero {A : Type} (D : list (list A)) :
  Spec.sum_entries (map (map (fun _ => 0)) D) = 0.
Proof.
  unfold Spec.sum_entries, reduce_sum.
  induction D as [|row D IH]; simpl; [reflexivity|].
  rewrite IH.
  assert (E : foldr Rplus 0 (map (fun _ : A => 0) row) = 0).
  { induction row as [|a row IHr]; simpl; [reflexivity|]. rewrite IHr. lra. }
  rewrite E. lra.
Qed.

Lemma mean_zero_matrix (D : list (list R)) r c :
  Spec.has_shape D r c -> (0 < r)%nat -> (0 < c)%nat ->
  mean (map (map (fun _ => Some 0)) D) = Some 0.
Proof.
  intros Hs Hr Hc.
  assert (E : map (map (fun _ : R => Some 0)) D =
              Aux.real_matrix (map (map (fun _ => 0)) D)).
  { unfold Aux.real_matrix. now rewrite map_map_rows. }
  rewrite E, (mean_average _ r c (has_shape_map _ _ _ _ Hs) Hr Hc).
  f_equal. unfold Spec.average. rewrite sum_entries_zero.
  unfold Rdiv. ring.
Qed.

Lemma raphy_without_scales x y :
  RCVAE.compute_kernel x y "raphy" [] =
  Some (map (map (fun _ => Some 0)) (RCVAE.squared_distance x y)).
Proof. reflexivity. Qed.

(** X12.  [mmd_loss] calls [compute_mmd] without [scales], and the
    [raphy] kernel sums over its scales: with [kernel='raphy'] every
    kernel matrix is zero whatever the data, and the MMD loss of a batch
    in which both labels occur is 0.  ([RCVAE] and [RCCVAE].) *)
Theorem raphy_kernel_without_scales_is_blind :
  (forall x y,
     RCVAE.compute_kernel x y "raphy" [] =
     Some (map (map (fun _ => Some 0)) (RCVAE.squared_distance x y))) /\
  (forall self labels y_pred,
     RCVAE.kernel_method self = "raphy"%string ->
     length labels = shape0 y_pred -> Forall Spec.binary labels ->
     In 0%Z labels -> In 1%Z labels ->
     RCVAE.mmd_loss self labels y_pred = Py.Returns (Some 0)) /\
  (forall self labels y_pred,
     RCCVAE.kernel_method self = "raphy"%string ->
     wf y_pred -> shape1 y_pred = RCCVAE.mmd_dim self ->
     (0 < RCCVAE.mmd_dim self)%nat ->
     length labels = shape0 y_pred -> Forall Spec.binary labels ->
     In 0%Z labels -> In 1%Z labels ->
     RCCVAE.mmd_loss self labels y_pred = Py.Returns (Some 0)).
Proof.
  assert (Hmmd : forall t labels,
            length labels = shape0 t ->
            In 0%Z labels -> In 1%Z labels ->
            RCVAE.compute_mmd (Spec.label_group t labels 0)
                              (Spec.label_group t labels 1) "raphy" [] =
            Py.Returns (Some 0)).
  { intros t labels Hlen H0 H1.
    pose proof (label_group_rows t labels 0%Z Hlen) as E0.
    pose proof (label_group_rows t labels 1%Z Hlen) as E1.
    assert (P0 : (0 < shape0 (Spec.label_group t labels 0))%nat).
    { destruct (shape0 (Spec.label_group t labels 0)); [tauto|lia]. }
    assert (P1 : (0 < shape0 (Spec.label_group t labels 1))%nat).
    { destruct (shape0 (Spec.label_group t labels 1)); [tauto|lia]. }
    unfold RCVAE.compute_mmd. rewrite !raphy_without_scales.
    rewrite !(mean_zero_matrix _ _ _ (squared_distance_shape _ _))
      by assumption.
    cbn. do 2 f_equal. ring. }
  split; [exact raphy_without_scales|]. split.
  - intros self labels y_pred Hk Hlen Hb H0 H1.
    rewrite (mmd_loss_binary _ _ _ Hlen Hb), Hk, (Hmmd _ _ Hlen H0 H1).
    cbn. do 2 f_equal. ring.
  - intros self labels y_pred Hk Hw Hd Hpos Hlen Hb H0 H1.
    rewrite (mmd_loss_conv_binary _ _ _ Hw Hd Hpos Hlen Hb), Hk.
    rewrite compute_mmd_conv, (Hmmd _ _ Hlen H0 H1).
    cbn. do 2 f_equal. ring.
Qed.

(** X13.  A kernel name that is none of the kinds of the class makes
    [compute_kernel] fall off its [if] chain and return Python's [None],
    on which [compute_mmd] does not return a value: this is so for every
    unknown name, and for ['raphy'] in [RCVAEMultiTF], whose
    [compute_kernel] has no such branch. *)
Theorem unknown_kernel_kind_yields_no_loss x y kernel scales :
  (~ Spec.supported kernel ->
   RCVAE.compute_kernel x y kernel scales = None /\
   forall v, RCVAE.compute_mmd x y kernel scales <> Py.Returns v) /\
  (~ Spec.supported_multi kernel ->
   RCVAEMultiTF.compute_kernel x y kernel = None /\
   forall v, RCVAEMultiTF.compute_mmd x y kernel <> Py.Returns v) /\
  RCVAEMultiTF.compute_kernel x y "raphy" = None.
Proof.
  split; [|split; [|reflexivity]].
  - intros Hn.
    assert (E : forall a b, RCVAE.compute_kernel a b kernel scales = None).
    { intros a b. unfold RCVAE.compute_kernel.
      destruct (String.eqb_spec kernel "rbf") as [-> | _].
      { exfalso. apply Hn. left. reflexivity. }
      destruct (String.eqb_spec kernel "raphy") as [-> | _].
      { exfalso. apply Hn. right. left. reflexivity. }
      destruct (String.eqb_spec kernel "multi-scale-rbf") as [-> | _].
      { exfalso. apply Hn. right. right. reflexivity. }
      reflexivity. }
    split; [apply E|]. intros v. unfold RCVAE.compute_mmd.
    rewrite !E. discriminate.
  - intros Hn.
    assert (E : forall a b, RCVAEMultiTF.compute_kernel a b kernel = None).
    { intros a b. unfold RCVAEMultiTF.compute_kernel.
      destruct (String.eqb_spec kernel "rbf") as [-> | _].
      { exfalso. apply Hn. left. reflexivity. }
      destruct (String.eqb_spec kernel "multi-scale-rbf") as [-> | _].
      { exfalso. apply Hn. right. reflexivity. }
      reflexivity. }
    split; [apply E|]. intros v. unfold RCVAEMultiTF.compute_mmd.
    rewrite !E. discriminate.
Qed.

End KernelFacts.

Section KernelValues.

Import Fl Backend Examples.
Local Open Scope R_scope.

Lemma raphy_kernel_without_scales_is_blind_witness :
  RCVAE.mmd_loss raphy_model mixed_labels pair_batch = Py.Returns (Some 0).
Proof.
  apply (proj1 (proj2 raphy_kernel_without_scales_is_blind)
               raphy_model mixed_labels pair_batch eq_refl eq_refl
               mixed_labels_binary).
  - left. reflexivity.
  - right. left. reflexivity.
Defined.

Lemma unknown_kernel_kind_yields_no_loss_witness :
  RCVAE.compute_kernel zeros ones "linear" [] = None /\
  forall v, RCVAE.compute_mmd zeros ones "linear" [] <> Py.Returns v.
Proof.
  apply (proj1 (unknown_kernel_kind_yields_no_loss zeros ones "linear" [])).
  intros [H|[H|H]]; discriminate H.
Defined.

(** For a supported kind, operands of one positive width and scales that
    are not zero, the kernel matrix holds the [cell_value] of each pair of
    rows. *)
Lemma kernel_cell_values x y kernel scales :
  Spec.supported kernel ->
  wf x -> wf y -> shape1 y = shape1 x -> (0 < shape1 x)%nat ->
  Forall (fun s => s <> 0) scales ->
  RCVAE.compute_kernel x y kernel scales =
  Some (Aux.real_matrix
          (map (map (Aux.cell_value kernel scales (shape1 x)))
               (broadcast_sub (data x) (data y)))).
Proof.
  intros [-> | [-> | ->]] Hx Hy Hw Hd Hs.
  - rewrite rbf_branch. f_equal. now apply rbf_real.
  - rewrite (raphy_branch _ _ _ Hs). do 2 f_equal.
    unfold RCVAE.squared_distance. now rewrite map_map_rows.
  - rewrite multi_scale_branch. f_equal. unfold Aux.real_matrix.
    unfold RCVAE.squared_distance. now rewrite !map_map_rows.
Qed.

Lemma cell_value_sym kernel scales dim (a b : list R) :
  Aux.cell_value kernel scales dim (zip_with Rminus a b) =
  Aux.cell_value kernel scales dim (zip_with Rminus b a).
Proof.
  unfold Aux.cell_value, Aux.rbf_value.
  rewrite (square_diff_sym a b).
  replace (length (zip_with Rminus a b)) with (length (zip_with Rminus b a))
    by (rewrite !length_zip_with; lia).
  reflexivity.
Qed.

Lemma sum_squares_nonneg (d : list R) : 0 <= reduce_sum (map square d).
Proof.
  unfold reduce_sum, square.
  induction d as [|v d IH]; simpl; [lra|]. nra.
Qed.

Lemma sum_squares_zero (a : list R) :
  reduce_sum (map square (zip_with Rminus a a)) = 0.
Proof.
  unfold reduce_sum, square.
  induction a as [|v a IH]; simpl; [reflexivity|]. rewrite IH. ring.
Qed.

Lemma reduce_sum_const_zero {A : Type} (l : list A) :
  reduce_sum (map (fun _ => 0) l) = 0.
Proof.
  unfold reduce_sum. induction l as [|a l IH]; simpl; [reflexivity|].
  rewrite IH. lra.
Qed.

Lemma reduce_sum_plus {A : Type} (f g : A -> R) (l : list A) :
  reduce_sum (map (fun a => f a + g a) l) =
  reduce_sum (map f l) + reduce_sum (map g l).
Proof.
  unfold reduce_sum. induction l as [|a l IH]; simpl; [lra|].
  rewrite IH. lra.
Qed.

(** A double sum may be taken in either order. *)
Lemma sum_swap {A B : Type} (f : A -> B -> R) (la : list A) (lb : list B) :
  reduce_sum (map (fun a => reduce_sum (map (f a) lb)) la) =
  reduce_sum (map (fun b => reduce_sum (map (fun a => f a b) la)) lb).
Proof.
  induction la as [|a la IH]; simpl.
  - now rewrite reduce_sum_const_zero.
  - rewrite (reduce_sum_plus (f a)
               (fun b => foldr Rplus 0 (map (fun a' => f a' b) la))).
    unfold reduce_sum in *. simpl. now rewrite IH.
Qed.

Lemma reduce_mean_eq (l1 l2 : list R) :
  length l1 = length l2 -> reduce_sum l1 = reduce_sum l2 ->
  reduce_mean l1 = reduce_mean l2.
Proof.
  intros Hl Hs. unfold reduce_mean.
  destruct l1, l2; try discriminate; [reflexivity|].
  now rewrite Hl, Hs.
Qed.

(** The mean of a kernel matrix whose cells are symmetric does not
    depend on the order of the operands. *)
Lemma mean_cells_sym (c : list R -> R) (x y : list (list R)) :
  (forall a b, c (zip_with Rminus a b) = c (zip_with Rminus b a)) ->
  mean (Aux.real_matrix (map (map c) (broadcast_sub x y))) =
  mean (Aux.real_matrix (map (map c) (broadcast_sub y x))).
Proof.
  intros Hc. rewrite !mean_real_matrix. apply reduce_mean_eq.
  - rewrite !length_concat_count.
    rewrite (count_entries_shape _ _ _
               (has_shape_map c _ _ _ (broadcast_sub_shape x y))).
    rewrite (count_entries_shape _ _ _
               (has_shape_map c _ _ _ (broadcast_sub_shape y x))).
    lia.
  - rewrite !reduce_sum_concat. unfold Spec.sum_entries, broadcast_sub.
    rewrite !map_map.
    rewrite (map_ext _ (fun xi => reduce_sum
                          (map (fun yj => c (zip_with Rminus xi yj)) y)))
      by (intros xi; now rewrite map_map).
    rewrite (sum_swap (fun xi yj => c (zip_with Rminus xi yj))).
    f_equal. apply map_ext. intros yj. rewrite map_map. f_equal.
    apply map_ext. intros xi. apply Hc.
Qed.

Lemma add_comm (a b : fl) : add a b = add b a.
Proof.
  destruct a, b; simpl; try reflexivity. f_equal. ring.
Qed.

(** X14.  For every supported kind, batches of one positive width and
    scales that are not zero, [compute_mmd] is symmetric in real
    arithmetic: [compute_mmd(x, y)] is [compute_mmd(y, x)], so that the
    MMD loss does not depend on which of the two label groups comes
    first.  ([RCVAE], and [RCVAEMultiTF] for its two kinds.) *)
Theorem compute_mmd_is_symmetric x y kernel scales :
  Spec.supported kernel ->
  wf x -> wf y -> shape1 y = shape1 x -> (0 < shape1 x)%nat ->
  Forall (fun s => s <> 0) scales ->
  RCVAE.compute_mmd x y kernel scales = RCVAE.compute_mmd y x kernel scales /\
  (Spec.supported_multi kernel ->
   RCVAEMultiTF.compute_mmd x y kernel = RCVAEMultiTF.compute_mmd y x kernel).
Proof.
  intros Hk Hx Hy Hw Hd Hs.
  assert (Hdy : (0 < shape1 y)%nat) by lia.
  assert (E : RCVAE.compute_mmd x y kernel scales =
              RCVAE.compute_mmd y x kernel scales).
  { unfold RCVAE.compute_mmd.
    rewrite (kernel_cell_values x x kernel scales Hk Hx Hx eq_refl Hd Hs).
    rewrite (kernel_cell_values y y kernel scales Hk Hy Hy eq_refl Hdy Hs).
    rewrite (kernel_cell_values x y kernel scales Hk Hx Hy Hw Hd Hs).
    rewrite (kernel_cell_values y x kernel scales Hk Hy Hx
               (eq_sym Hw) Hdy Hs).
    rewrite Hw. f_equal.
    rewrite (mean_cells_sym _ (data x) (data y)
               (cell_value_sym kernel scales (shape1 x))).
    f_equal. apply add_comm. }
  split; [exact E|].
  intros Hm. now rewrite !(compute_mmd_multi _ _ kernel scales Hm).
Qed.

Lemma compute_mmd_is_symmetric_witness :
  RCVAE.compute_mmd zeros ones "multi-scale-rbf" [] =
    RCVAE.compute_mmd ones zeros "multi-scale-rbf" [] /\
  (Spec.supported_multi "multi-scale-rbf" ->
   RCVAEMultiTF.compute_mmd zeros ones "multi-scale-rbf" =
   RCVAEMultiTF.compute_mmd ones zeros "multi-scale-rbf").
Proof.
  apply (compute_mmd_is_symmetric zeros ones "multi-scale-rbf" []).
  - right. right. reflexivity.
  - exact zeros_wf.
  - exact ones_wf.
  - reflexivity.
  - simpl. lia.
  - constructor.
Defined.

End KernelValues.

Section UnitKernels.

Import Fl Backend Examples.
Local Open Scope R_scope.

Lemma exp_nonpos (a : R) : a <= 0 -> 0 < exp a <= 1.
Proof.
  intros Ha. split; [apply exp_pos|].
  destruct (Req_dec a 0) as [-> | Hne]; [rewrite exp_0; lra|].
  rewrite <- exp_0. left. apply exp_increasing. lra.
Qed.

Lemma div_unit (a b : R) : 0 < b -> 0 < a <= b -> 0 < a / b <= 1.
Proof.
  intros Hb Ha. unfold Rdiv.
  assert (Hi : 0 < / b) by now apply Rinv_0_lt_compat.
  assert (E : b * / b = 1) by (apply Rinv_r; lra).
  split; nra.
Qed.

Lemma rbf_value_unit dim (d : list R) :
  d <> [] -> (0 < dim)%nat -> 0 < Aux.rbf_value dim d <= 1.
Proof.
  intros Hd Hdim. unfold Aux.rbf_value. apply exp_nonpos.
  pose proof (sum_squares_nonneg d) as Hs.
  assert (Hl : 0 < / INR (length d)).
  { apply Rinv_0_lt_compat, lt_0_INR. destruct d; [congruence|simpl; lia]. }
  assert (Hi : 0 < / INR dim) by (apply Rinv_0_lt_compat, lt_0_INR; lia).
  unfold Rdiv.
  assert (0 <= reduce_sum (map square d) * / INR (length d)) by nra.
  nra.
Qed.

Lemma rbf_value_diag dim (a : list R) :
  Aux.rbf_value dim (zip_with Rminus a a) = 1.
Proof.
  unfold Aux.rbf_value. rewrite sum_squares_zero, <- exp_0. f_equal.
  unfold Rdiv. ring.
Qed.

Lemma multi_scale_sum_bounds (sig : list R) (d : R) :
  Forall (fun s => 0 < s) sig -> 0 <= d ->
  let F := foldr (fun s acc => exp (- (1 / (2 * s) * d + 0)) + acc) 0 sig in
  0 <= F <= INR (length sig) /\ (sig <> [] -> 0 < F).
Proof.
  intros Hs Hd. induction Hs as [|s sig Hpos _ IH]; cbn zeta.
  - simpl. split; [lra|congruence].
  - cbn zeta in IH. destruct IH as [[IH0 IH1] _].
    cbn [foldr]. rewrite length_cons, S_INR.
    assert (Ht : 0 < exp (- (1 / (2 * s) * d + 0)) <= 1).
    { apply exp_nonpos.
      assert (0 < / (2 * s)) by (apply Rinv_0_lt_compat; lra).
      unfold Rdiv. nra. }
    split; [lra|]. intros _. lra.
Qed.

Lemma multi_scale_cell_unit (sig : list R) (d : R) :
  Forall (fun s => 0 < s) sig -> sig <> [] -> 0 <= d ->
  0 < Aux.multi_scale_cell sig d <= 1.
Proof.
  intros Hs Hne Hd. unfold Aux.multi_scale_cell.
  destruct (multi_scale_sum_bounds sig d Hs Hd) as [[H0 H1] H2].
  cbn zeta in *. specialize (H2 Hne).
  assert (Hl : 0 < INR (length sig)).
  { apply lt_0_INR. destruct sig; [congruence|simpl; lia]. }
  apply div_unit; lra.
Qed.

Lemma multi_scale_cell_diag (sig : list R) :
  sig <> [] -> Aux.multi_scale_cell sig 0 = 1.
Proof.
  intros Hne. unfold Aux.multi_scale_cell.
  assert (E : foldr (fun s acc => exp (- (1 / (2 * s) * 0 + 0)) + acc) 0 sig =
              INR (length sig)).
  { clear Hne. induction sig as [|s sig IH]; [reflexivity|].
    cbn [foldr]. rewrite IH, length_cons, S_INR.
    replace (- (1 / (2 * s) * 0 + 0)) with 0 by (unfold Rdiv; ring).
    rewrite exp_0. ring. }
  rewrite E. field.
  apply not_0_INR. destruct sig; [congruence|simpl; lia].
Qed.

Lemma sigmas_positive : Forall (fun s => 0 < s) RCVAE.sigmas.
Proof.
  eapply Forall_impl; [exact (proj1 sigmas_span)|].
  intros s Hs. simpl in Hs. lra.
Qed.

Lemma cell_value_unit kernel scales dim (d : list R) :
  Spec.supported_multi kernel -> d <> [] -> (0 < dim)%nat ->
  0 < Aux.cell_value kernel scales dim d <= 1.
Proof.
  intros [-> | ->] Hd Hdim; unfold Aux.cell_value; simpl String.eqb;
    cbv iota.
  - now apply rbf_value_unit.
  - apply multi_scale_cell_unit.
    + exact sigmas_positive.
    + discriminate.
    + apply sum_squares_nonneg.
Qed.

Lemma cell_value_diag kernel scales dim (a : list R) :
  Spec.supported_multi kernel ->
  Aux.cell_value kernel scales dim (zip_with Rminus a a) = 1.
Proof.
  intros [-> | ->]; unfold Aux.cell_value; simpl String.eqb; cbv iota.
  - apply rbf_value_diag.
  - rewrite sum_squares_zero. now apply multi_scale_cell_diag.
Qed.

(** The kernel matrix of the two kinds that ignore the scales. *)
Lemma unit_kernel_cells x y kernel scales :
  Spec.supported_multi kernel ->
  wf x -> wf y -> shape1 y = shape1 x -> (0 < shape1 x)%nat ->
  RCVAE.compute_kernel x y kernel scales =
  Some (Aux.real_matrix
          (map (map (Aux.cell_value kernel [] (shape1 x)))
               (broadcast_sub (data x) (data y)))).
Proof.
  intros Hm Hx Hy Hw Hd.
  rewrite <- (compute_kernel_multi x y kernel scales Hm).
  rewrite (compute_kernel_multi x y kernel [] Hm).
  apply kernel_cell_values; try assumption.
  - now apply supported_multi_supported.
  - constructor.
Qed.

Lemma unit_kernel_entries x y kernel :
  Spec.supported_multi kernel ->
  wf x -> wf y -> shape1 y = shape1 x -> (0 < shape1 x)%nat ->
  Forall (Forall (fun v => 0 < v <= 1))
         (map (map (Aux.cell_value kernel [] (shape1 x)))
              (broadcast_sub (data x) (data y))).
Proof.
  intros Hm Hx Hy Hw Hd. unfold broadcast_sub. rewrite map_map.
  apply Forall_fmap, List.Forall_forall. intros xi Hxi. simpl.
  rewrite map_map. apply Forall_fmap, List.Forall_forall. intros yj Hyj.
  simpl. apply cell_value_unit; [exact Hm| |exact Hd].
  apply (proj1 (List.Forall_forall _ _) Hx) in Hxi.
  apply (proj1 (List.Forall_forall _ _) Hy) in Hyj.
  intros E. apply (f_equal (@length R)) in E.
  rewrite length_zip_with in E. simpl in E. lia.
Qed.

(** X15.  For the [rbf] and the [multi-scale-rbf] kind and batches of
    one positive width, every entry of the kernel matrix is a number of
    the interval [0, 1], and every diagonal entry of [K(x, x)] is 1.
    ([RCVAE] and [RCVAEMultiTF].  No entry is 0 in real arithmetic; the
    exponential of the code can underflow to 0.) *)
Theorem kernel_values_lie_in_the_unit_interval x y kernel scales :
  Spec.supported_multi kernel ->
  wf x -> wf y -> shape1 y = shape1 x -> (0 < shape1 x)%nat ->
  exists Kxy Kxx,
    RCVAE.compute_kernel x y kernel scales = Some (Aux.real_matrix Kxy) /\
    RCVAEMultiTF.compute_kernel x y kernel = Some (Aux.real_matrix Kxy) /\
    RCVAE.compute_kernel x x kernel scales = Some (Aux.real_matrix Kxx) /\
    RCVAEMultiTF.compute_kernel x x kernel = Some (Aux.real_matrix Kxx) /\
    Forall (Forall (fun v => 0 <= v <= 1)) Kxy /\
    forall i, (i < shape0 x)%nat -> Spec.entry Kxx i i = Some 1.
Proof.
  intros Hm Hx Hy Hw Hd.
  pose proof (unit_kernel_cells x y kernel scales Hm Hx Hy Hw Hd) as Exy.
  pose proof (unit_kernel_cells x x kernel scales Hm Hx Hx eq_refl Hd) as Exx.
  eexists _, _. split; [exact Exy|].
  split; [now rewrite (compute_kernel_multi _ _ kernel scales Hm)|].
  split; [exact Exx|].
  split; [now rewrite (compute_kernel_multi _ _ kernel scales Hm)|].
  split.
  { eapply Forall_impl; [now apply unit_kernel_entries|].
    intros row Hrow. eapply Forall_impl; [exact Hrow|].
    simpl. intros v Hv. lra. }
  intros i Hi. rewrite entry_map, broadcast_sub_lookup.
  destruct (lookup_lt_is_Some_2 (data x) i Hi) as [xi Hxi].
  rewrite Hxi. simpl. f_equal. now apply cell_value_diag.
Qed.

Lemma kernel_values_lie_in_the_unit_interval_witness :
  exists Kxy Kxx,
    RCVAE.compute_kernel zeros ones "rbf" [] = Some (Aux.real_matrix Kxy) /\
    RCVAEMultiTF.compute_kernel zeros ones "rbf" =
      Some (Aux.real_matrix Kxy) /\
    RCVAE.compute_kernel zeros zeros "rbf" [] = Some (Aux.real_matrix Kxx) /\
    RCVAEMultiTF.compute_kernel zeros zeros "rbf" =
      Some (Aux.real_matrix Kxx) /\
    Forall (Forall (fun v => 0 <= v <= 1)) Kxy /\
    forall i, (i < shape0 zeros)%nat -> Spec.entry Kxx i i = Some 1.
Proof.
  apply (kernel_values_lie_in_the_unit_interval zeros ones "rbf" []).
  - left. reflexivity.
  - exact zeros_wf.
  - exact ones_wf.
  - reflexivity.
  - simpl. lia.
Defined.

Lemma unit_sum_bounds (l : list R) :
  Forall (fun v => 0 < v <= 1) l ->
  0 <= reduce_sum l <= INR (length l) /\ (l <> [] -> 0 < reduce_sum l).
Proof.
  unfold reduce_sum. induction 1 as [|v l Hv _ IH].
  - simpl. split; [lra|congruence].
  - destruct IH as [[IH0 IH1] _]. cbn [foldr]. rewrite length_cons, S_INR.
    split; [lra|]. intros _. lra.
Qed.

Lemma unit_average (M : list (list R)) r c :
  Spec.has_shape M r c -> (0 < r)%nat -> (0 < c)%nat ->
  Forall (Forall (fun v => 0 < v <= 1)) M ->
  0 < Spec.average M <= 1.
Proof.
  intros Hs Hr Hc HM. unfold Spec.average.
  rewrite <- reduce_sum_concat, <- length_concat_count.
  assert (Hlen : length (concat M) = (r * c)%nat).
  { rewrite length_concat_count. now apply count_entries_shape. }
  assert (Hne : concat M <> []).
  { intros E. rewrite E in Hlen. simpl in Hlen. nia. }
  destruct (unit_sum_bounds (concat M) (proj2 (Forall_concat _ _) HM))
    as [[H0 H1] H2].
  specialize (H2 Hne).
  assert (Hl : 0 < INR (length (concat M))).
  { apply lt_0_INR. rewrite Hlen. nia. }
  apply div_unit; lra.
Qed.

(** X16.  For the [rbf] and the [multi-scale-rbf] kind and non-empty
    batches of one width, [compute_mmd] returns a number between -2 and
    2, both included: each of the three kernel means lies in [0, 1].
    ([RCVAE] and [RCVAEMultiTF].) *)
Theorem compute_mmd_is_bounded x y kernel scales :
  Spec.supported_multi kernel ->
  Spec.non_empty x -> Spec.non_empty y ->
  wf x -> wf y -> shape1 y = shape1 x ->
  exists r,
    RCVAE.compute_mmd x y kernel scales = Py.Returns (Some r) /\
    RCVAEMultiTF.compute_mmd x y kernel = Py.Returns (Some r) /\
    - 2 <= r <= 2.
Proof.
  intros Hm [Hx Hdx] [Hy Hdy] Wx Wy Hw.
  pose proof (unit_kernel_cells x x kernel scales Hm Wx Wx eq_refl Hdx)
    as Exx.
  pose proof (unit_kernel_cells y y kernel scales Hm Wy Wy eq_refl Hdy)
    as Eyy.
  pose proof (unit_kernel_cells x y kernel scales Hm Wx Wy Hw Hdx) as Exy.
  pose proof (has_shape_map (Aux.cell_value kernel [] (shape1 x)) _ _ _
                (broadcast_sub_shape (data x) (data x))) as Sxx.
  pose proof (has_shape_map (Aux.cell_value kernel [] (shape1 y)) _ _ _
                (broadcast_sub_shape (data y) (data y))) as Syy.
  pose proof (has_shape_map (Aux.cell_value kernel [] (shape1 x)) _ _ _
                (broadcast_sub_shape (data x) (data y))) as Sxy.
  pose proof (compute_mmd_real x y kernel scales _ _ _ Exx Eyy Exy
                Sxx Syy Sxy Hx Hy) as E.
  pose proof (unit_average _ _ _ Sxx Hx Hx
                (unit_kernel_entries x x kernel Hm Wx Wx eq_refl Hdx)) as Bxx.
  pose proof (unit_average _ _ _ Syy Hy Hy
                (unit_kernel_entries y y kernel Hm Wy Wy eq_refl Hdy)) as Byy.
  pose proof (unit_average _ _ _ Sxy Hx Hy
                (unit_kernel_entries x y kernel Hm Wx Wy Hw Hdx)) as Bxy.
  eexists. split; [exact E|]. split.
  - now rewrite (compute_mmd_multi _ _ kernel scales Hm).
  - lra.
Qed.

Lemma compute_mmd_is_bounded_witness :
  exists r,
    RCVAE.compute_mmd zeros ones "rbf" [] = Py.Returns (Some r) /\
    RCVAEMultiTF.compute_mmd zeros ones "rbf" = Py.Returns (Some r) /\
    - 2 <= r <= 2.
Proof.
  apply (compute_mmd_is_bounded zeros ones "rbf" []).
  - left. reflexivity.
  - exact zeros_non_empty.
  - exact ones_non_empty.
  - exact zeros_wf.
  - exact ones_wf.
  - reflexivity.
Defined.

End UnitKernels.

(** ** One-hot labels and the partitions of [RCVAEMultiTF] *)

Section OneHot.

Import Fl Backend Examples.
Local Open Scope R_scope.

Abbreviation hot k := (fun i : nat => if (i =? k)%nat then 1 else 0).

(** Once the one has been met, no later value is larger. *)
Lemma argmax_from_found k best_i m :
  forall i, RCVAEMultiTF.argmax_from 1 best_i i (map (hot k) (seq i m)) =
            best_i.
Proof.
  induction m as [|m IH]; intros i; [reflexivity|].
  cbn [seq map RCVAEMultiTF.argmax_from].
  destruct (Rlt_dec 1 (hot k i)) as [H|_]; [|apply IH].
  exfalso. destruct (i =? k)%nat; lra.
Qed.

Lemma argmax_from_search k best_i m :
  forall i, (i <= k < i + m)%nat ->
  RCVAEMultiTF.argmax_from 0 best_i i (map (hot k) (seq i m)) = k.
Proof.
  induction m as [|m IH]; intros i Hk; [lia|].
  cbn [seq map RCVAEMultiTF.argmax_from].
  destruct (Nat.eqb_spec i k) as [-> | Hne].
  - destruct (Rlt_dec 0 1) as [_|H]; [|lra]. apply argmax_from_found.
  - destruct (Rlt_dec 0 0) as [H|_]; [lra|]. apply IH. lia.
Qed.

Lemma argmax_one_hot n k :
  (k < n)%nat -> RCVAEMultiTF.argmax (one_hot n k) = k.
Proof.
  intros Hk. unfold one_hot. destruct n as [|n]; [lia|].
  cbn [seq map RCVAEMultiTF.argmax].
  destruct k as [|k].
  - change 1%nat with (S 0). apply (argmax_from_found 0 0 n 1).
  - apply (argmax_from_search (S k) 0 n 1). lia.
Qed.



End OneHot.

Section MultiConditionLoss.

Import Fl Backend Examples.
Local Open Scope R_scope.

(** On groups of one positive width, [compute_mmd] returns, and it
    returns NaN exactly when one of the groups has no row. *)
Lemma compute_mmd_returns x y kernel scales :
  Spec.supported kernel ->
  wf x -> wf y -> shape1 y = shape1 x -> (0 < shape1 x)%nat ->
  Forall (fun s => s <> 0) scales ->
  exists v,
    RCVAE.compute_mmd x y kernel scales = Py.Returns v /\
    (v = NaN <-> (shape0 x = 0 \/ shape0 y = 0)%nat).
Proof.
  intros Hk Hx Hy Hw Hd Hs.
  destruct (Nat.eq_dec (shape0 x) 0%nat) as [Ex|Nx].
  { exists NaN. split; [|tauto].
    apply compute_mmd_empty; try assumption. now left. }
  destruct (Nat.eq_dec (shape0 y) 0%nat) as [Ey|Ny].
  { exists NaN. split; [|tauto].
    apply compute_mmd_empty; try assumption. now right. }
  destruct (compute_mmd_defined x y kernel scales Hk Hx Hy Hw Hd Hs)
    as [r Hr]; [lia|lia|].
  exists (Some r). split; [exact Hr|].
  split; [discriminate|]. intros [H|H]; contradiction.
Qed.

Lemma argmax_from_bound (l : list R) :
  forall best best_i i,
    (best_i < i)%nat ->
    (RCVAEMultiTF.argmax_from best best_i i l < i + length l)%nat.
Proof.
  induction l as [|v l IH]; intros best best_i i Hi; simpl; [lia|].
  destruct (Rlt_dec best v).
  - specialize (IH v i (S i) ltac:(lia)). lia.
  - specialize (IH best best_i (S i) ltac:(lia)). lia.
Qed.

Lemma argmax_bound (row : list R) :
  row <> [] -> (RCVAEMultiTF.argmax row < length row)%nat.
Proof.
  destruct row as [|v l]; [congruence|]. intros _. simpl.
  pose proof (argmax_from_bound l v 0%nat 1%nat ltac:(lia)). lia.
Qed.

(** The labels that [tf.argmax] reads from rows of width [n] index a
    condition. *)
Lemma argmax_labels_in_range (rows : list (list R)) n :
  (0 < n)%nat -> Forall (fun row => length row = n) rows ->
  forallb (in_range n)
          (map (fun row => Z.of_nat (RCVAEMultiTF.argmax row)) rows) = true.
Proof.
  intros Hn Hrows. apply forallb_forall. intros p Hp.
  apply in_map_iff in Hp as (row & <- & Hrow).
  apply (proj1 (List.Forall_forall _ _) Hrows) in Hrow.
  assert (Hne : row <> []) by (intros ->; simpl in Hrow; lia).
  pose proof (argmax_bound row Hne) as Hb.
  unfold in_range. apply andb_true_intro. split.
  - apply Z.leb_le. lia.
  - apply Z.ltb_lt. lia.
Qed.

(** The partitions are the label groups, one for each condition. *)
Lemma dynamic_partition_groups (t : tensor2) (labels : list Z) n :
  length labels = shape0 t -> forallb (in_range n) labels = true ->
  dynamic_partition t labels n =
  Py.Returns (map (fun i => Spec.label_group t labels (Z.of_nat i))
                  (seq 0 n)).
Proof.
  intros Hlen Hr. unfold dynamic_partition.
  rewrite Hlen, Nat.eqb_refl, Hr. simpl negb. cbv iota. f_equal.
  apply map_ext. intros i. unfold Spec.label_group.
  now rewrite rows_of_label_rows.
Qed.

Lemma add_nan_r (a : fl) : add a NaN = NaN.
Proof. now destruct a. Qed.

Section Folded.

Variable parts : list tensor2.
Variable kernel : string.
Variable m : nat -> fl.
Hypothesis adjacent :
  forall k a b,
    parts !! k = Some a -> parts !! (k + 1)%nat = Some b ->
    RCVAEMultiTF.compute_mmd a b kernel = Py.Returns (m k).

Abbreviation inner acc i := (foldl (fun a k => add a (m k)) acc (seq 0 i)).
Abbreviation outer acc l := (foldl (fun a i => inner a i) acc l).

Lemma inner_loop_fold i acc :
  (i < length parts)%nat ->
  RCVAEMultiTF.inner_loop parts kernel i acc = Py.Returns (inner acc i).
Proof.
  unfold RCVAEMultiTF.inner_loop.
  induction i as [|i IH]; intros Hi; [reflexivity|].
  rewrite !seq_S, !foldl_app, IH by lia. simpl.
  destruct (lookup_lt_is_Some_2 parts i) as [a Ha]; [lia|].
  destruct (lookup_lt_is_Some_2 parts (i + 1)) as [b Hb]; [lia|].
  now rewrite Ha, Hb, (adjacent i a b Ha Hb).
Qed.

Lemma outer_loop_fold n :
  (n <= length parts)%nat ->
  foldl (fun acc i =>
           do! loss <- acc;
           RCVAEMultiTF.inner_loop parts kernel i loss)
        (Py.Returns (Some 0)) (seq 0 n) =
  Py.Returns (outer (Some 0) (seq 0 n)).
Proof.
  induction n as [|n IH]; intros Hn; [reflexivity|].
  rewrite !seq_S, !foldl_app, IH by lia. simpl.
  now rewrite inner_loop_fold by lia.
Qed.

Lemma accumulate_mmd_fold :
  RCVAEMultiTF.accumulate_mmd parts kernel =
  Py.Returns (outer (Some 0) (seq 0 (length parts))).
Proof. unfold RCVAEMultiTF.accumulate_mmd. now apply outer_loop_fold. Qed.

Lemma inner_nan (l : list nat) :
  foldl (fun a k => add a (m k)) NaN l = NaN.
Proof. induction l as [|k l IH]; [reflexivity|exact IH]. Qed.

Lemma inner_hits_nan (l : list nat) acc k :
  In k l -> m k = NaN -> foldl (fun a k => add a (m k)) acc l = NaN.
Proof.
  revert acc. induction l as [|j l IH]; intros acc Hin Hk; [destruct Hin|].
  destruct Hin as [-> | Hin]; simpl.
  - rewrite Hk, add_nan_r. apply inner_nan.
  - now apply IH.
Qed.

Lemma outer_nan (l : list nat) : outer NaN l = NaN.
Proof.
  induction l as [|i l IH]; [reflexivity|]. simpl.
  now rewrite inner_nan.
Qed.

Lemma outer_hits_nan (l : list nat) acc i k :
  In i l -> (k < i)%nat -> m k = NaN -> outer acc l = NaN.
Proof.
  revert acc. induction l as [|j l IH]; intros acc Hin Hk Hm;
    [destruct Hin|].
  destruct Hin as [-> | Hin]; simpl.
  - rewrite (inner_hits_nan _ acc k); [apply outer_nan| |exact Hm].
    apply in_seq. lia.
  - now apply (IH _ Hin).
Qed.

Lemma inner_real i : forall acc : R,
  (forall k, (k < i)%nat -> is_Some (m k)) ->
  is_Some (inner (Some acc) i).
Proof.
  induction i as [|i IH]; intros acc Hm; [now eexists|].
  rewrite seq_S, foldl_app. simpl.
  destruct (IH acc ltac:(intros; apply Hm; lia)) as [v Hv].
  destruct (Hm i ltac:(lia)) as [u Hu].
  rewrite Hv, Hu. now eexists.
Qed.

Lemma outer_real n :
  (forall k, (S k < n)%nat -> is_Some (m k)) ->
  is_Some (outer (Some 0) (seq 0 n)).
Proof.
  induction n as [|n IH]; intros Hm; [now eexists|].
  rewrite seq_S, foldl_app. simpl.
  destruct (IH ltac:(intros; apply Hm; lia)) as [v Hv]. rewrite Hv.
  apply inner_real. intros k Hk. apply Hm. lia.
Qed.

End Folded.

End MultiConditionLoss.

Section MissingCondition.

Import Fl Backend Examples.
Local Open Scope R_scope.

Lemma groups_lookup (t : tensor2) (labels : list Z) n k a :
  map (fun i => Spec.label_group t labels (Z.of_nat i)) (seq 0 n) !! k =
    Some a ->
  (k < n)%nat /\ a = Spec.label_group t labels (Z.of_nat k).
Proof.
  rewrite list_lookup_fmap. intros H.
  destruct (seq 0 n !! k) as [i|] eqn:E; [|discriminate].
  apply lookup_seq in E as [-> Hk]. simpl in H. injection H as <-.
  split; [exact Hk|reflexivity].
Qed.

(** The MMD of two label groups of a batch: a real number when both
    labels occur in the batch, NaN otherwise. *)
Lemma group_mmd (t : tensor2) (labels : list Z) kernel (a b : Z) :
  Spec.supported_multi kernel ->
  wf t -> (0 < shape1 t)%nat -> length labels = shape0 t ->
  exists v,
    RCVAEMultiTF.compute_mmd (Spec.label_group t labels a)
                             (Spec.label_group t labels b) kernel =
      Py.Returns v /\
    (v = NaN <-> ~ In a labels \/ ~ In b labels).
Proof.
  intros Hm Hw Hd Hlen.
  destruct (compute_mmd_returns
              (Spec.label_group t labels a) (Spec.label_group t labels b)
              kernel [] (supported_multi_supported _ Hm)
              (label_group_wf _ _ _ Hw) (label_group_wf _ _ _ Hw)
              eq_refl Hd ltac:(constructor)) as (v & Hv & Hnan).
  exists v. split.
  - now rewrite (compute_mmd_multi _ _ kernel [] Hm).
  - rewrite Hnan, !(label_group_rows _ _ _ Hlen). reflexivity.
Qed.

(** X18.  In [RCVAEMultiTF] with two conditions or more, on a batch of
    activations of one positive width with one-hot rows of labels: when
    every condition occurs in the batch, [self.mmd_loss] is a real number;
    when some condition has no sample in the batch, its partition is
    empty, the MMD of the adjacent pair it belongs to is NaN, and
    [self.mmd_loss] is NaN, without any exception. *)
Theorem multi_mmd_loss_is_nan_when_a_condition_is_missing
    self decoder_labels mmd_hl :
  Spec.supported_multi (RCVAEMultiTF.kernel_method self) ->
  wf mmd_hl -> (0 < shape1 mmd_hl)%nat ->
  length decoder_labels = shape0 mmd_hl ->
  Forall (fun row => length row = RCVAEMultiTF.n_conditions self)
         decoder_labels ->
  (2 <= RCVAEMultiTF.n_conditions self)%nat ->
  ((forall c, (c < RCVAEMultiTF.n_conditions self)%nat ->
              In (Z.of_nat c)
                 (map (fun row => Z.of_nat (RCVAEMultiTF.argmax row))
                      decoder_labels)) ->
   exists r,
     RCVAEMultiTF.mmd_loss self decoder_labels mmd_hl =
     Py.Returns (Some r)) /\
  ((exists c, (c < RCVAEMultiTF.n_conditions self)%nat /\
              ~ In (Z.of_nat c)
                   (map (fun row => Z.of_nat (RCVAEMultiTF.argmax row))
                        decoder_labels)) ->
   RCVAEMultiTF.mmd_loss self decoder_labels mmd_hl = Py.Returns NaN).
Proof.
  intros Hm Hw Hd Hlen Hrows Hn.
  set (n := RCVAEMultiTF.n_conditions self) in *.
  set (labels := map (fun row => Z.of_nat (RCVAEMultiTF.argmax row))
                     decoder_labels).
  set (kernel := RCVAEMultiTF.kernel_method self) in *.
  assert (Hll : length labels = shape0 mmd_hl).
  { unfold labels. now rewrite length_map. }
  pose proof (dynamic_partition_groups mmd_hl labels n Hll
                (argmax_labels_in_range _ n ltac:(lia) Hrows)) as Hp.
  set (parts := map (fun i => Spec.label_group mmd_hl labels (Z.of_nat i))
                    (seq 0 n)) in *.
  set (m := fun k : nat =>
         match RCVAEMultiTF.compute_mmd
                 (Spec.label_group mmd_hl labels (Z.of_nat k))
                 (Spec.label_group mmd_hl labels (Z.of_nat (k + 1)))
                 kernel with
         | Py.Returns v => v
         | Py.Raises _ => NaN
         end).
  assert (Hmk : forall k,
            RCVAEMultiTF.compute_mmd
              (Spec.label_group mmd_hl labels (Z.of_nat k))
              (Spec.label_group mmd_hl labels (Z.of_nat (k + 1))) kernel =
            Py.Returns (m k) /\
            (m k = NaN <->
             ~ In (Z.of_nat k) labels \/ ~ In (Z.of_nat (k + 1)) labels)).
  { intros k.
    destruct (group_mmd mmd_hl labels kernel (Z.of_nat k)
                (Z.of_nat (k + 1)) Hm Hw Hd Hll) as (v & Hv & Hnan).
    unfold m. rewrite Hv. split; [reflexivity|exact Hnan]. }
  assert (Hadj : forall k a b,
            parts !! k = Some a -> parts !! (k + 1)%nat = Some b ->
            RCVAEMultiTF.compute_mmd a b kernel = Py.Returns (m k)).
  { intros k a b Ha Hb.
    apply groups_lookup in Ha as [_ ->].
    apply groups_lookup in Hb as [_ ->]. apply Hmk. }
  assert (Hlp : length parts = n).
  { unfold parts. now rewrite length_map, length_seq. }
  assert (Hloss : RCVAEMultiTF.mmd_loss self decoder_labels mmd_hl =
            Py.Returns
              (mul (Some (RCVAEMultiTF.beta self))
                   (foldl (fun a i =>
                             foldl (fun a k => add a (m k)) a (seq 0 i))
                          (Some 0) (seq 0 n)))).
  { unfold RCVAEMultiTF.mmd_loss. fold n labels kernel.
    destruct (Nat.eqb_spec n 0) as [E|_]; [lia|].
    rewrite Hp. cbn [Py.bind].
    rewrite (accumulate_mmd_fold parts kernel m Hadj), Hlp. reflexivity. }
  rewrite Hloss. split.
  - intros Hall.
    destruct (outer_real m n) as [v Hv].
    + intros k Hk. destruct (m k) as [u|] eqn:E; [now eexists|].
      exfalso. apply (proj1 (proj2 (Hmk k))) in E.
      destruct E as [E|E]; apply E, Hall; lia.
    + rewrite Hv. eexists. reflexivity.
  - intros (c & Hc & Hmiss).
    assert (Hin : In (n - 1)%nat (seq 0 n)) by (apply in_seq; lia).
    destruct (Nat.eq_dec c (n - 1)%nat) as [-> | Hne].
    + rewrite (outer_hits_nan m (seq 0 n) (Some 0) (n - 1)%nat (n - 2)%nat
                 Hin); [reflexivity|lia|].
      apply (proj2 (proj2 (Hmk (n - 2)%nat))). right.
      replace (n - 2 + 1)%nat with (n - 1)%nat by lia. exact Hmiss.
    + rewrite (outer_hits_nan m (seq 0 n) (Some 0) (n - 1)%nat c Hin);
        [reflexivity|lia|].
      apply (proj2 (proj2 (Hmk c))). left. exact Hmiss.
Qed.

End MissingCondition.

Section FewConditions.

Import Fl Backend Examples.
Local Open Scope R_scope.

Lemma in_range_two_binary (labels : list Z) :
  forallb (in_range 2) labels = true -> Forall Spec.binary labels.
Proof.
  intros H. apply List.Forall_forall. intros p Hp.
  pose proof (proj1 (forallb_forall _ _) H p Hp) as Hr.
  unfold in_range in Hr. apply andb_prop in Hr as [H0 H1].
  apply Z.leb_le in H0. apply Z.ltb_lt in H1.
  unfold Spec.binary. lia.
Qed.

(** X19.  [RCVAEMultiTF] with few conditions.  With a single condition
    the nested loops of [_loss_function] have no pair to visit and the
    MMD term is 0 whatever the kernel and the batch.  With two conditions
    they visit the pair (0, 1) once, and [self.mmd_loss] on one-hot labels
    is the [mmd_loss] of [RCVAE] on the labels they encode (same kernel
    kind and [beta]), NaN included. *)
Theorem multi_mmd_loss_with_few_conditions self decoder_labels mmd_hl :
  length decoder_labels = shape0 mmd_hl ->
  Forall (fun row => length row = RCVAEMultiTF.n_conditions self)
         decoder_labels ->
  (RCVAEMultiTF.n_conditions self = 1%nat ->
   RCVAEMultiTF.mmd_loss self decoder_labels mmd_hl = Py.Returns (Some 0)) /\
  (RCVAEMultiTF.n_conditions self = 2%nat ->
   Spec.supported_multi (RCVAEMultiTF.kernel_method self) ->
   forall dense,
     RCVAE.kernel_method dense = RCVAEMultiTF.kernel_method self ->
     RCVAE.beta dense = RCVAEMultiTF.beta self ->
     RCVAEMultiTF.mmd_loss self decoder_labels mmd_hl =
     RCVAE.mmd_loss dense
       (map (fun row => Z.of_nat (RCVAEMultiTF.argmax row)) decoder_labels)
       mmd_hl).
Proof.
  intros Hlen Hrows.
  set (labels := map (fun row => Z.of_nat (RCVAEMultiTF.argmax row))
                     decoder_labels).
  assert (Hll : length labels = shape0 mmd_hl).
  { unfold labels. now rewrite length_map. }
  split.
  - intros Hn. rewrite Hn in Hrows.
    pose proof (dynamic_partition_groups mmd_hl labels 1 Hll
                  (argmax_labels_in_range _ 1 ltac:(lia) Hrows)) as Hp.
    unfold RCVAEMultiTF.mmd_loss. fold labels. rewrite Hn, Hp.
    cbn. do 2 f_equal. ring.
  - intros Hn Hm dense Hk Hb. rewrite Hn in Hrows.
    pose proof (argmax_labels_in_range _ 2 ltac:(lia) Hrows) as Hr.
    pose proof (dynamic_partition_groups mmd_hl labels 2 Hll Hr) as Hp.
    fold labels in Hr |- *.
    rewrite (mmd_loss_binary dense labels mmd_hl Hll
               (in_range_two_binary _ Hr)).
    unfold RCVAEMultiTF.mmd_loss. fold labels. rewrite Hn, Hp.
    cbn [Nat.eqb Py.bind seq map]. unfold RCVAEMultiTF.accumulate_mmd.
    cbn [length seq foldl Py.bind RCVAEMultiTF.inner_loop lookup
         list_lookup Nat.add].
    rewrite (compute_mmd_multi _ _ _ [] Hm), Hk, Hb.
    change (Z.of_nat 0) with 0%Z. change (Z.of_nat 1) with 1%Z.
    destruct (RCVAE.compute_mmd _ _ _ _) as [[v|]|e]; cbn;
      try reflexivity.
    do 2 f_equal. ring.
Qed.

End FewConditions.

Section ConcreteMultiLoss.

Import Fl Backend Examples.
Local Open Scope R_scope.

Lemma one_hot_missing_labels :
  map (fun row => Z.of_nat (RCVAEMultiTF.argmax row)) one_hot_missing =
  [0; 1; 1]%Z.
Proof.
  change one_hot_missing with (map (one_hot 3) [0; 1; 1]%nat).
  rewrite map_map. cbn [map]. rewrite !argmax_one_hot by lia.
  reflexivity.
Qed.

Lemma multi_mmd_loss_is_nan_when_a_condition_is_missing_witness :
  (exists r,
     RCVAEMultiTF.mmd_loss multi_model one_hot3 batch3 =
     Py.Returns (Some r)) /\
  RCVAEMultiTF.mmd_loss multi_model one_hot_missing batch3 = Py.Returns NaN.
Proof.
  split.
  - apply (multi_mmd_loss_is_nan_when_a_condition_is_missing
             multi_model one_hot3 batch3).
    + left. reflexivity.
    + repeat constructor.
    + simpl. lia.
    + reflexivity.
    + repeat constructor.
    + simpl. lia.
    + rewrite one_hot3_labels. intros c Hc. simpl in Hc.
      destruct c as [|[|[|c]]]; simpl; auto. lia.
  - apply (multi_mmd_loss_is_nan_when_a_condition_is_missing
             multi_model one_hot_missing batch3).
    + left. reflexivity.
    + repeat constructor.
    + simpl. lia.
    + reflexivity.
    + repeat constructor.
    + simpl. lia.
    + exists 2%nat. split; [simpl; lia|].
      rewrite one_hot_missing_labels.
      intros [H|[H|[H|[]]]]; discriminate.
Defined.

Lemma multi_mmd_loss_with_few_conditions_witness :
  (RCVAEMultiTF.n_conditions pair_model = 1%nat ->
   RCVAEMultiTF.mmd_loss pair_model one_hot2 pair_batch =
   Py.Returns (Some 0)) /\
  (RCVAEMultiTF.n_conditions pair_model = 2%nat ->
   Spec.supported_multi (RCVAEMultiTF.kernel_method pair_model) ->
   forall dense,
     RCVAE.kernel_method dense = RCVAEMultiTF.kernel_method pair_model ->
     RCVAE.beta dense = RCVAEMultiTF.beta pair_model ->
     RCVAEMultiTF.mmd_loss pair_model one_hot2 pair_batch =
     RCVAE.mmd_loss dense
       (map (fun row => Z.of_nat (RCVAEMultiTF.argmax row)) one_hot2)
       pair_batch).
Proof.
  apply (multi_mmd_loss_with_few_conditions pair_model one_hot2 pair_batch).
  - reflexivity.
  - repeat constructor.
Defined.

End ConcreteMultiLoss.

(** ** The reconstruction and the KL terms of the loss *)

Section LossTerms.

Import Fl Backend Examples.
Local Open Scope R_scope.

Lemma sum_squares_zero_iff (t p : list R) :
  length p = length t ->
  (reduce_sum (map square (zip_with Rminus t p)) = 0 <-> p = t).
Proof.
  revert p. induction t as [|a t IH]; intros [|b p] Hlen;
    try discriminate Hlen.
  - simpl. tauto.
  - injection Hlen as Hlen. specialize (IH p Hlen).
    pose proof (sum_squares_nonneg (zip_with Rminus t p)) as Hn.
    cbn [zip_with map]. unfold reduce_sum in *. cbn [foldr].
    assert (Hsq : 0 <= square (a - b)) by exact (Rle_0_sqr (a - b)).
    split.
    + intros H.
      assert (Hab : square (a - b) = 0) by lra.
      assert (Hr : foldr Rplus 0 (map square (zip_with Rminus t p)) = 0)
        by lra.
      apply IH in Hr. subst. f_equal. unfold square in Hab. nra.
    + intros H. injection H as -> ->.
      rewrite (proj2 IH eq_refl). unfold square. ring.
Qed.

Lemma zip_with_lookup {A B C : Type} (f : A -> B -> C) la lb i a b :
  la !! i = Some a -> lb !! i = Some b ->
  zip_with f la lb !! i = Some (f a b).
Proof.
  intros Ha Hb. rewrite lookup_zip_with, Ha. simpl. now rewrite Hb.
Qed.

Lemma Forall_zip_with {A B C : Type} (P : C -> Prop) (f : A -> B -> C)
    la lb :
  (forall a b, In a la -> In b lb -> P (f a b)) ->
  Forall P (zip_with f la lb).
Proof.
  revert lb. induction la as [|a la IH]; intros [|b lb] H; simpl;
    try constructor.
  - apply H; now left.
  - apply IH. intros a' b' Ha Hb. apply H; now right.
Qed.

(** X20.  The reconstruction loss of [RCVAE], the sum over the genes of
    the squared error, has one value for each sample; no value is
    negative, and the value of a sample whose reconstruction is the
    sample itself is 0.  The reconstruction term of [RCVAEMultiTF] is
    half of it. *)
Theorem reconstruction_loss_vanishes_on_exact_reconstruction
    (y_true y_pred : tensor2) :
  shape0 y_pred = shape0 y_true ->
  length (RCVAE.reconstruction_loss y_true y_pred) = shape0 y_true /\
  Forall (fun r => 0 <= r) (RCVAE.reconstruction_loss y_true y_pred) /\
  (forall i t,
     data y_true !! i = Some t -> data y_pred !! i = Some t ->
     RCVAE.reconstruction_loss y_true y_pred !! i = Some 0) /\
  RCVAEMultiTF.recon_loss y_true y_pred =
    map (fun r => 0.5 * r) (RCVAE.reconstruction_loss y_true y_pred).
Proof.
  intros Hn. unfold RCVAE.reconstruction_loss.
  split; [|split; [|split]].
  - rewrite length_zip_with. unfold shape0 in Hn. unfold shape0. lia.
  - apply Forall_zip_with. intros t p _ _. apply sum_squares_nonneg.
  - intros i t Ht Hp. rewrite (zip_with_lookup _ _ _ _ _ _ Ht Hp).
    f_equal. now apply (sum_squares_zero_iff t t eq_refl).
  - unfold RCVAEMultiTF.recon_loss.
    generalize (data y_true) (data y_pred). intros la.
    induction la as [|t la IH]; intros [|p lb]; simpl; try reflexivity.
    now rewrite IH.
Qed.

Lemma reconstruction_loss_vanishes_on_exact_reconstruction_witness :
  length (RCVAE.reconstruction_loss ones ones) = shape0 ones /\
  Forall (fun r => 0 <= r) (RCVAE.reconstruction_loss ones ones) /\
  (forall i t,
     data ones !! i = Some t -> data ones !! i = Some t ->
     RCVAE.reconstruction_loss ones ones !! i = Some 0) /\
  RCVAEMultiTF.recon_loss ones ones =
    map (fun r => 0.5 * r) (RCVAE.reconstruction_loss ones ones).
Proof.
  apply (reconstruction_loss_vanishes_on_exact_reconstruction ones ones).
  reflexivity.
Defined.

(** The KL integrand [exp(v) + m^2 - 1 - v]. *)
Lemma kl_term_nonneg (m v : R) : 0 <= exp v + square m - 1 - v.
Proof.
  pose proof (exp_ineq1_le v). unfold square. nra.
Qed.

Lemma kl_term_zero (m v : R) :
  exp v + square m - 1 - v = 0 <-> m = 0 /\ v = 0.
Proof.
  split.
  - intros H. pose proof (exp_ineq1_le v) as Hle.
    destruct (Req_dec v 0) as [-> | Hv].
    + rewrite exp_0 in H. unfold square in H. split; [nra|reflexivity].
    + pose proof (exp_ineq1 v Hv). unfold square in H. nra.
  - intros [-> ->]. rewrite exp_0. unfold square. ring.
Qed.

Lemma kl_row_nonneg (m v : list R) :
  0 <= reduce_sum (zip_with (fun mk vk => exp vk + square mk - 1 - vk) m v).
Proof.
  unfold reduce_sum. revert v.
  induction m as [|a m IH]; intros [|b v]; simpl; try lra.
  pose proof (kl_term_nonneg a b). specialize (IH v). lra.
Qed.

Lemma kl_row_zero (m v : list R) :
  length v = length m ->
  (reduce_sum (zip_with (fun mk vk => exp vk + square mk - 1 - vk) m v) = 0
   <-> Forall (fun a => a = 0) m /\ Forall (fun a => a = 0) v).
Proof.
  revert v. induction m as [|a m IH]; intros [|b v] Hlen;
    try discriminate Hlen.
  - simpl. unfold reduce_sum. simpl. split; [intros _; split; constructor|].
    reflexivity.
  - injection Hlen as Hlen. specialize (IH v Hlen).
    pose proof (kl_term_nonneg a b) as Ht.
    pose proof (kl_row_nonneg m v) as Hr.
    unfold reduce_sum in *. cbn [zip_with foldr]. split.
    + intros H.
      assert (H1 : exp b + square a - 1 - b = 0) by lra.
      assert (H2 : foldr Rplus 0
                     (zip_with (fun mk vk => exp vk + square mk - 1 - vk)
                               m v) = 0) by lra.
      apply kl_term_zero in H1 as [-> ->].
      apply IH in H2 as [Hm Hv]. split; constructor; auto.
    + intros [Hm Hv].
      inversion Hm as [|? ? Ha Hm']; subst.
      inversion Hv as [|? ? Hb Hv']; subst.
      rewrite (proj2 IH (conj Hm' Hv')).
      rewrite (proj2 (kl_term_zero 0 0) (conj eq_refl eq_refl)). ring.
Qed.

(** X21.  In real arithmetic, the KL term of [RCVAEMultiTF],
    [0.5 * sum(exp(log_var) + mu^2 - 1 - log_var)], has one value for each
    sample; no value is negative, and the value of a sample is 0 exactly
    when its [mu] and its [log_var] are zero in every latent dimension
    (the posterior is the standard normal prior).  This is a property of
    the formula: the rounding of the code can leave a value just below
    0. *)
Theorem kl_loss_is_zero_only_at_the_prior (mu log_var : tensor2) :
  wf mu -> wf log_var ->
  shape1 log_var = shape1 mu -> shape0 log_var = shape0 mu ->
  length (RCVAEMultiTF.kl_loss mu log_var) = shape0 mu /\
  Forall (fun k => 0 <= k) (RCVAEMultiTF.kl_loss mu log_var) /\
  forall i m v,
    data mu !! i = Some m -> data log_var !! i = Some v ->
    (RCVAEMultiTF.kl_loss mu log_var !! i = Some 0 <->
     Forall (fun a => a = 0) m /\ Forall (fun a => a = 0) v).
Proof.
  intros Wm Wv Hw Hn. unfold RCVAEMultiTF.kl_loss. split; [|split].
  - rewrite length_zip_with. unfold shape0 in *. lia.
  - apply Forall_zip_with. intros m v _ _.
    pose proof (kl_row_nonneg m v). lra.
  - intros i m v Hm Hv. rewrite (zip_with_lookup _ _ _ _ _ _ Hm Hv).
    assert (Hlen : length v = length m).
    { pose proof (proj1 (Forall_lookup _ _) Wm _ _ Hm).
      pose proof (proj1 (Forall_lookup _ _) Wv _ _ Hv). simpl in *. lia. }
    rewrite <- (kl_row_zero m v Hlen). split.
    + intros H. injection H as H. lra.
    + intros H. f_equal. lra.
Qed.

Lemma kl_loss_is_zero_only_at_the_prior_witness :
  length (RCVAEMultiTF.kl_loss zeros zeros) = shape0 zeros /\
  Forall (fun k => 0 <= k) (RCVAEMultiTF.kl_loss zeros zeros) /\
  forall i m v,
    data zeros !! i = Some m -> data zeros !! i = Some v ->
    (RCVAEMultiTF.kl_loss zeros zeros !! i = Some 0 <->
     Forall (fun a => a = 0) m /\ Forall (fun a => a = 0) v).
Proof.
  apply (kl_loss_is_zero_only_at_the_prior zeros zeros).
  - exact zeros_wf.
  - exact zeros_wf.
  - reflexivity.
  - reflexivity.
Defined.

Lemma reduce_sum_nonneg (l : list R) :
  Forall (fun v => 0 <= v) l -> 0 <= reduce_sum l.
Proof.
  unfold reduce_sum. induction 1 as [|v l Hv _ IH]; simpl; lra.
Qed.

Lemma reduce_mean_nonneg (l : list R) :
  l <> [] -> Forall (fun v => 0 <= v) l ->
  exists k, reduce_mean l = Some k /\ 0 <= k.
Proof.
  intros Hne Hl. destruct l as [|v l]; [congruence|].
  eexists. split; [reflexivity|].
  pose proof (reduce_sum_nonneg _ Hl).
  assert (0 < / INR (length (v :: l))).
  { apply Rinv_0_lt_compat, lt_0_INR. simpl. lia. }
  unfold Rdiv. nra.
Qed.

(** X22.  The total loss of [RCVAEMultiTF] is the MMD term plus the mean
    over the batch of [recon_loss + alpha * kl_loss].  That mean is NaN
    on a batch without samples, so that the total loss is NaN as soon as
    the MMD term is NaN or the batch is empty.  In real arithmetic, for
    [alpha >= 0] and a batch with samples, the mean is a non-negative
    number and the total loss is at least the MMD term when that is a
    number; this second part is a property of the formula, which the
    rounding and the overflow of the code can break. *)
Theorem trvae_loss_adds_a_non_negative_term
    self decoder_labels (mmd_hl mu log_var x x_hat : tensor2) v :
  RCVAEMultiTF.mmd_loss self decoder_labels mmd_hl = Py.Returns v ->
  shape0 log_var = shape0 mu -> shape0 x_hat = shape0 x ->
  shape0 mu = shape0 x ->
  0 <= RCVAEMultiTF.alpha self ->
  (v = NaN \/ shape0 x = 0%nat ->
   RCVAEMultiTF.trvae_loss self decoder_labels mmd_hl mu log_var x x_hat =
   Py.Returns NaN) /\
  (forall r, v = Some r -> (0 < shape0 x)%nat ->
   exists k,
     0 <= k /\
     RCVAEMultiTF.kl_recon_loss self mu log_var x x_hat = Some k /\
     RCVAEMultiTF.trvae_loss self decoder_labels mmd_hl mu log_var x x_hat =
     Py.Returns (Some (r + k))).
Proof.
  intros Hmmd Hlv Hxh Hmx Ha.
  unfold RCVAEMultiTF.trvae_loss. rewrite Hmmd. cbn [Py.bind].
  set (terms := zip_with (fun r k => r + RCVAEMultiTF.alpha self * k)
                         (RCVAEMultiTF.recon_loss x x_hat)
                         (RCVAEMultiTF.kl_loss mu log_var)).
  assert (Hlen : length terms = shape0 x).
  { unfold terms, RCVAEMultiTF.recon_loss, RCVAEMultiTF.kl_loss.
    rewrite !length_zip_with. unfold shape0 in *. lia. }
  assert (Hpos : Forall (fun t => 0 <= t) terms).
  { unfold terms. apply Forall_zip_with. intros r k Hr Hk.
    unfold RCVAEMultiTF.recon_loss in Hr. unfold RCVAEMultiTF.kl_loss in Hk.
    assert (0 <= r).
    { revert Hr. generalize (data x) (data x_hat). intros la.
      induction la as [|t la IH]; intros [|p lb]; simpl; try tauto.
      intros [<- | Hin]; [|now apply (IH lb)].
      pose proof (sum_squares_nonneg (zip_with Rminus t p)). lra. }
    assert (0 <= k).
    { revert Hk. generalize (data mu) (data log_var). intros la.
      induction la as [|t la IH]; intros [|p lb]; simpl; try tauto.
      intros [<- | Hin]; [|now apply (IH lb)].
      pose proof (kl_row_nonneg t p). lra. }
    nra. }
  unfold RCVAEMultiTF.kl_recon_loss. fold terms. split.
  - intros [-> | Hz]; [reflexivity|].
    destruct terms; [|simpl in Hlen; lia].
    simpl. now destruct v.
  - intros r -> Hx.
    destruct (reduce_mean_nonneg terms) as (k & Hk & Hk0).
    + intros E. rewrite E in Hlen. simpl in Hlen. lia.
    + exact Hpos.
    + exists k. split; [exact Hk0|]. split; [exact Hk|].
      now rewrite Hk.
Qed.

Lemma single_condition_mmd_loss :
  RCVAEMultiTF.mmd_loss single_model one_hot1 pair_batch =
  Py.Returns (Some 0).
Proof.
  set (labels := map (fun row => Z.of_nat (RCVAEMultiTF.argmax row))
                     one_hot1).
  assert (Hll : length labels = shape0 pair_batch) by reflexivity.
  pose proof (dynamic_partition_groups pair_batch labels 1 Hll
                (argmax_labels_in_range one_hot1 1 ltac:(lia)
                   ltac:(repeat constructor))) as Hp.
  unfold RCVAEMultiTF.mmd_loss. fold labels.
  change (RCVAEMultiTF.n_conditions single_model) with 1%nat.
  rewrite Hp. cbn. do 2 f_equal. ring.
Qed.

Lemma trvae_loss_adds_a_non_negative_term_witness :
  exists k,
    0 <= k /\
    RCVAEMultiTF.kl_recon_loss single_model pair_batch pair_batch
      pair_batch pair_batch = Some k /\
    RCVAEMultiTF.trvae_loss single_model one_hot1 pair_batch pair_batch
      pair_batch pair_batch pair_batch = Py.Returns (Some (0 + k)).
Proof.
  assert (Ha : 0 <= RCVAEMultiTF.alpha single_model) by (simpl; lra).
  apply (proj2 (trvae_loss_adds_a_non_negative_term
                  single_model one_hot1 pair_batch pair_batch pair_batch
                  pair_batch pair_batch (Some 0)
                  single_condition_mmd_loss eq_refl eq_refl eq_refl Ha)
               0 eq_refl).
  unfold shape0. simpl. lia.
Defined.

End LossTerms.

(** ** The session runs of [RCVAEMultiTF] outside training *)

Section SessionRuns.

Import Backend.

Context {Vars Rng : Type}.
Variable evaluate :
  RCVAEMultiTF.instance -> RCVAEMultiTF.session Vars -> Rng ->
  list (RCVAEMultiTF.Graph.tensor * ndarray) ->
  RCVAEMultiTF.Graph.tensor -> Py.outcome (ndarray * Rng).
Variable conversion_error : Py.exn.

Abbreviation gworld := (RCVAEMultiTF.world Vars Rng).

(** A session run that does not fetch the optimiser leaves the variables
    and the checkpoints as they are. *)
Lemma sess_run_frame self fetch feed_dict (w w' : gworld) o :
  RCVAEMultiTF.sess_run evaluate self fetch feed_dict w = (o, w') ->
  RCVAEMultiTF.sess w' = RCVAEMultiTF.sess w /\
  RCVAEMultiTF.files w' = RCVAEMultiTF.files w.
Proof.
  unfold RCVAEMultiTF.sess_run.
  destruct (negb _).
  { intros H. injection H as _ <-. split; reflexivity. }
  destruct (RCVAEMultiTF.Graph.missing _ _).
  - unfold Py.mbind, Py.get.
    destruct (evaluate _ _ _ _ _) as [[v g]|e].
    + intros H. injection H as _ <-. split; reflexivity.
    + intros H. injection H as _ <-. split; reflexivity.
  - intros H. injection H as _ <-. split; reflexivity.
Qed.

Lemma to_latent_frame self data labels (w w' : gworld) o :
  RCVAEMultiTF.to_latent evaluate self data labels w = (o, w') ->
  RCVAEMultiTF.sess w' = RCVAEMultiTF.sess w /\
  RCVAEMultiTF.files w' = RCVAEMultiTF.files w.
Proof.
  unfold RCVAEMultiTF.to_latent.
  destruct (nd_shape (toarray data)) as [|n rest].
  - intros H. injection H as _ <-. split; reflexivity.
  - apply sess_run_frame.
Qed.

(** A run whose fetch needs a placeholder that is not fed does not
    return. *)
Lemma sess_run_unfed self fetch feed_dict (w : gworld) t rest :
  RCVAEMultiTF.Graph.missing (map fst feed_dict) fetch = t :: rest ->
  exists e,
    RCVAEMultiTF.sess_run evaluate self fetch feed_dict w = (Py.Raises e, w) /\
    (forallb (fun tv =>
                RCVAEMultiTF.compatible
                  (RCVAEMultiTF.static_shape self (fst tv))
                  (nd_shape (snd tv))) feed_dict = true ->
     e = Py.InvalidArgumentError).
Proof.
  intros Hu. unfold RCVAEMultiTF.sess_run. rewrite Hu.
  destruct (forallb _ feed_dict); simpl.
  - exists Py.InvalidArgumentError. split; reflexivity.
  - exists Py.ValueError. split; [reflexivity|discriminate].
Qed.

Lemma compatible_matrix (d n w : nat) :
  RCVAEMultiTF.compatible (Some [None; Some d]) [n; w] = (d =? w)%nat.
Proof.
  unfold RCVAEMultiTF.compatible. cbn. now rewrite andb_true_r.
Qed.

(** X23.  [to_mmd_layer] fetches [mmd_hl], which is computed from
    [z_mean] and so from the encoder's inputs, but it feeds
    [decoder_labels] and not [encoder_labels]: the session run needs a
    placeholder that is not fed, and [to_mmd_layer] never returns a
    value (for arrays of the shapes of the placeholders, it raises
    [InvalidArgumentError]); the session is left as it was. *)
Theorem to_mmd_layer_never_returns self data labels (w : gworld) :
  RCVAEMultiTF.Graph.missing
    [RCVAEMultiTF.Graph.x; RCVAEMultiTF.Graph.decoder_labels;
     RCVAEMultiTF.Graph.size; RCVAEMultiTF.Graph.is_training]
    RCVAEMultiTF.Graph.mmd_hl = [RCVAEMultiTF.Graph.encoder_labels] /\
  (exists e,
     RCVAEMultiTF.to_mmd_layer evaluate self data labels w =
     (Py.Raises e, w)) /\
  (forall n k,
     nd_shape data = [n; RCVAEMultiTF.x_dim self] ->
     nd_shape labels = [k; RCVAEMultiTF.n_conditions self] ->
     RCVAEMultiTF.to_mmd_layer evaluate self data labels w =
     (Py.Raises Py.InvalidArgumentError, w)).
Proof.
  split; [reflexivity|]. split.
  - unfold RCVAEMultiTF.to_mmd_layer.
    destruct (nd_shape data) as [|n rest]; [now eexists|].
    destruct (sess_run_unfed self RCVAEMultiTF.Graph.mmd_hl
                [(RCVAEMultiTF.Graph.x, data);
                 (RCVAEMultiTF.Graph.decoder_labels, labels);
                 (RCVAEMultiTF.Graph.size, scalar (INR n));
                 (RCVAEMultiTF.Graph.is_training, scalar 0)]
                w RCVAEMultiTF.Graph.encoder_labels [] eq_refl) as (e & He & _).
    now exists e.
  - intros n k Hd Hl. unfold RCVAEMultiTF.to_mmd_layer. rewrite Hd.
    destruct (sess_run_unfed self RCVAEMultiTF.Graph.mmd_hl
                [(RCVAEMultiTF.Graph.x, data);
                 (RCVAEMultiTF.Graph.decoder_labels, labels);
                 (RCVAEMultiTF.Graph.size, scalar (INR n));
                 (RCVAEMultiTF.Graph.is_training, scalar 0)]
                w RCVAEMultiTF.Graph.encoder_labels [] eq_refl)
      as (e & He & Hc).
    rewrite He, Hc; [reflexivity|].
    cbn [forallb fst snd RCVAEMultiTF.static_shape]. rewrite Hd, Hl.
    rewrite !compatible_matrix, !Nat.eqb_refl. reflexivity.
Qed.

Lemma reconstruct_feed_raises self latent labels (w : gworld) :
  exists e,
    RCVAEMultiTF.sess_run evaluate self RCVAEMultiTF.Graph.x_hat
      [(RCVAEMultiTF.Graph.z_mean, latent);
       (RCVAEMultiTF.Graph.encoder_labels, reshape_column labels);
       (RCVAEMultiTF.Graph.is_training, scalar 0)] w = (Py.Raises e, w).
Proof.
  destruct (sess_run_unfed self RCVAEMultiTF.Graph.x_hat
              [(RCVAEMultiTF.Graph.z_mean, latent);
               (RCVAEMultiTF.Graph.encoder_labels, reshape_column labels);
               (RCVAEMultiTF.Graph.is_training, scalar 0)]
              w RCVAEMultiTF.Graph.decoder_labels [] eq_refl) as (e & He & _).
  now exists e.
Qed.

Lemma reconstruct_raises self data labels use_data (w : gworld) :
  exists e (w' : gworld),
    RCVAEMultiTF._reconstruct evaluate conversion_error self data labels
      use_data w = (Py.Raises e, w') /\
    RCVAEMultiTF.sess w' = RCVAEMultiTF.sess w /\
    RCVAEMultiTF.files w' = RCVAEMultiTF.files w.
Proof.
  unfold RCVAEMultiTF._reconstruct. unfold Py.mbind at 1.
  destruct use_data.
  - destruct data as [a|a]; unfold Py.ret, Py.raise.
    + destruct (reconstruct_feed_raises self a labels w) as [e He].
      rewrite He. exists e, w. repeat split.
    + exists conversion_error, w. repeat split.
  - destruct (RCVAEMultiTF.to_latent evaluate self data labels w)
      as [[latent|e] w1] eqn:E;
      destruct (to_latent_frame _ _ _ _ _ _ E) as [Hs Hf].
    + destruct (reconstruct_feed_raises self latent labels w1) as [e He].
      rewrite He. exists e, w1. repeat split; assumption.
    + exists e, w1. repeat split; assumption.
Qed.

(** X24.  [_reconstruct] fetches [x_hat], which is computed from
    [decoder_labels], but it feeds the labels, reshaped to one column,
    for [encoder_labels]: whatever its arguments, it does not return a
    value, and neither does [predict], which calls it; the variables and
    the checkpoints are left as they were.  On a latent array, the run
    is refused with [ValueError] for any number of conditions other than
    1, since the column does not have the width of the placeholder. *)
Theorem reconstruct_never_returns self data labels use_data (w : gworld) :
  RCVAEMultiTF.Graph.missing
    [RCVAEMultiTF.Graph.z_mean; RCVAEMultiTF.Graph.encoder_labels;
     RCVAEMultiTF.Graph.is_training]
    RCVAEMultiTF.Graph.x_hat = [RCVAEMultiTF.Graph.decoder_labels] /\
  (exists e (w' : gworld),
     RCVAEMultiTF._reconstruct evaluate conversion_error self data labels
       use_data w = (Py.Raises e, w') /\
     RCVAEMultiTF.sess w' = RCVAEMultiTF.sess w /\
     RCVAEMultiTF.files w' = RCVAEMultiTF.files w) /\
  (exists e (w' : gworld),
     RCVAEMultiTF.predict evaluate conversion_error self data labels w =
       (Py.Raises e, w') /\
     RCVAEMultiTF.sess w' = RCVAEMultiTF.sess w /\
     RCVAEMultiTF.files w' = RCVAEMultiTF.files w) /\
  (RCVAEMultiTF.n_conditions self <> 1%nat ->
   forall latent,
     RCVAEMultiTF._reconstruct evaluate conversion_error self
       (Dense latent) labels true w = (Py.Raises Py.ValueError, w)).
Proof.
  split; [reflexivity|]. split; [apply reconstruct_raises|].
  split; [apply reconstruct_raises|].
  intros Hn latent. unfold RCVAEMultiTF._reconstruct, Py.mbind, Py.ret.
  unfold RCVAEMultiTF.sess_run.
  cbn [forallb fst snd RCVAEMultiTF.static_shape reshape_column nd_shape].
  rewrite compatible_matrix.
  destruct (Nat.eqb_spec (RCVAEMultiTF.n_conditions self) 1) as [E|_];
    [contradiction|].
  now rewrite andb_false_l, andb_false_r.
Qed.

(** X25.  [to_latent] feeds every placeholder that [z_mean] needs: on a
    data matrix (dense or sparse) with [x_dim] columns and labels with
    [n_conditions] columns its result is that of the evaluation of
    [z_mean], which only advances the pseudo-random source; a data matrix
    with another number of columns is refused with [ValueError] before
    anything runs. *)
Theorem to_latent_feeds_what_it_fetches self data labels (w : gworld)
    n d k :
  nd_shape (toarray data) = [n; d] ->
  nd_shape labels = [k; RCVAEMultiTF.n_conditions self] ->
  RCVAEMultiTF.Graph.missing
    [RCVAEMultiTF.Graph.x; RCVAEMultiTF.Graph.encoder_labels;
     RCVAEMultiTF.Graph.size; RCVAEMultiTF.Graph.is_training]
    RCVAEMultiTF.Graph.z_mean = [] /\
  (d = RCVAEMultiTF.x_dim self ->
   RCVAEMultiTF.to_latent evaluate self data labels w =
   match evaluate self (RCVAEMultiTF.sess w) (RCVAEMultiTF.rng w)
           [(RCVAEMultiTF.Graph.x, toarray data);
            (RCVAEMultiTF.Graph.encoder_labels, labels);
            (RCVAEMultiTF.Graph.size, scalar (INR n));
            (RCVAEMultiTF.Graph.is_training, scalar 0)]
           RCVAEMultiTF.Graph.z_mean with
   | Py.Returns (latent, g) =>
       (Py.Returns latent,
        RCVAEMultiTF.World (RCVAEMultiTF.sess w) g (RCVAEMultiTF.files w))
   | Py.Raises e => (Py.Raises e, w)
   end) /\
  (d <> RCVAEMultiTF.x_dim self ->
   RCVAEMultiTF.to_latent evaluate self data labels w =
   (Py.Raises Py.ValueError, w)).
Proof.
  intros Hd Hl. split; [reflexivity|].
  unfold RCVAEMultiTF.to_latent. rewrite Hd.
  unfold RCVAEMultiTF.sess_run.
  cbn [forallb fst snd RCVAEMultiTF.static_shape map].
  rewrite Hd, Hl, !compatible_matrix, Nat.eqb_refl.
  change (RCVAEMultiTF.Graph.missing
            [RCVAEMultiTF.Graph.x; RCVAEMultiTF.Graph.encoder_labels;
             RCVAEMultiTF.Graph.size; RCVAEMultiTF.Graph.is_training]
            RCVAEMultiTF.Graph.z_mean)
    with (@nil RCVAEMultiTF.Graph.tensor).
  split.
  - intros ->. rewrite Nat.eqb_refl. cbn.
    unfold Py.mbind, Py.get.
    destruct (evaluate _ _ _ _ _) as [[latent g]|e]; reflexivity.
  - intros Hne.
    destruct (Nat.eqb_spec (RCVAEMultiTF.x_dim self) d) as [E|_];
      [congruence|]. reflexivity.
Qed.

End SessionRuns.

Section ConcreteSessionRuns.

Import Backend Examples.

Lemma to_mmd_layer_never_returns_witness :
  RCVAEMultiTF.to_mmd_layer toy_evaluate multi_model cells cell_labels
    new_world = (Py.Raises Py.InvalidArgumentError, new_world).
Proof.
  apply (proj2 (proj2 (to_mmd_layer_never_returns
                         toy_evaluate multi_model cells cell_labels
                         new_world)) 2%nat 2%nat);
    reflexivity.
Defined.

Lemma reconstruct_never_returns_witness :
  RCVAEMultiTF._reconstruct toy_evaluate Py.TypeError multi_model
    (Dense latent2) cell_labels true new_world =
  (Py.Raises Py.ValueError, new_world).
Proof.
  apply (proj2 (proj2 (proj2 (reconstruct_never_returns
                                toy_evaluate Py.TypeError multi_model
                                (Dense latent2) cell_labels true
                                new_world)))).
  simpl. lia.
Defined.

Lemma to_latent_feeds_what_it_fetches_witness :
  RCVAEMultiTF.to_latent toy_evaluate multi_model (Sparse cells)
    cell_labels new_world = (Py.Returns latent2, new_world) /\
  RCVAEMultiTF.to_latent toy_evaluate multi_model (Dense cell_labels)
    cell_labels new_world = (Py.Raises Py.ValueError, new_world).
Proof.
  split.
  - rewrite (proj1 (proj2 (to_latent_feeds_what_it_fetches
                             toy_evaluate multi_model (Sparse cells)
                             cell_labels new_world 2 10 2
                             eq_refl eq_refl)) eq_refl).
    reflexivity.
  - apply (proj2 (proj2 (to_latent_feeds_what_it_fetches
                           toy_evaluate multi_model (Dense cell_labels)
                           cell_labels new_world 2 3 2
                           eq_refl eq_refl))).
    simpl. lia.
Defined.

End ConcreteSessionRuns.

(** ** Training and persistence of [RCCVAE] *)

Section ConvPersistence.

Context {Weights AnnData Images Labels Latent History Rng : Type}.
Variable label_encoder : AnnData -> Py.outcome Labels.
Variable ones_like : Labels -> Labels.
Variable densify : AnnData -> AnnData.
Variable reshape_X : RCCVAE.instance -> AnnData -> Py.outcome Images.
Variable predict_z :
  Weights -> Images -> Labels -> Rng -> Py.outcome Latent * Rng.
Variable compose : Weights -> Weights -> Weights.
Variable fit : Weights -> Weights -> RCCVAE.fit_args Images Labels -> Rng ->
               Weights * Weights * Rng * Py.outcome History.
Variable fit_own : Weights -> RCCVAE.fit_args Images Labels -> Rng ->
                   Weights * Rng * Py.outcome History.

Abbreviation cworld := (RCCVAE.world Weights Rng).
Abbreviation conv_artifact self name :=
  (Py.os_path_join (RCCVAE.model_to_use self) name).
Abbreviation conv_train :=
  (RCCVAE.train label_encoder ones_like densify reshape_X compose fit
                fit_own).




(** X27.  Before it fits anything, [train] encodes the training labels,
    tests the configuration, reshapes the training matrix and, with
    validation, reshapes the validation matrix and encodes its labels, in
    that order: the first of these steps that fails gives [train] its
    exception, and the instance is left as it was.  In particular
    [use_validation=True] with [valid_data=None] raises its [Exception]
    only when the training labels could be encoded. *)
Theorem train_fails_before_the_fit_without_a_trace
    self train_data use_validation valid_data n_epochs batch_size
    early_stop_limit threshold initial_run shuffle verbose save_flag
    (w : cworld) :
  (forall e,
     label_encoder train_data = Py.Raises e ->
     conv_train self train_data use_validation valid_data n_epochs batch_size
       early_stop_limit threshold initial_run shuffle verbose save_flag w =
     (Py.Raises e, w)) /\
  (forall labels,
     label_encoder train_data = Py.Returns labels ->
     (use_validation && Py.is_None valid_data = true ->
      conv_train self train_data use_validation valid_data n_epochs
        batch_size early_stop_limit threshold initial_run shuffle verbose
        save_flag w =
      (Py.Raises
         (Py.Exception "valid_data is None but use_validation is True."),
       w)) /\
     (use_validation && Py.is_None valid_data = false ->
      (forall e,
         reshape_X self (densify train_data) = Py.Raises e ->
         conv_train self train_data use_validation valid_data n_epochs
           batch_size early_stop_limit threshold initial_run shuffle verbose
           save_flag w = (Py.Raises e, w)) /\
      (forall x_train v,
         reshape_X self (densify train_data) = Py.Returns x_train ->
         use_validation = true -> valid_data = Some v ->
         (forall e,
            reshape_X self v = Py.Raises e ->
            conv_train self train_data use_validation valid_data n_epochs
              batch_size early_stop_limit threshold initial_run shuffle
              verbose save_flag w = (Py.Raises e, w)) /\
         (forall x_valid e,
            reshape_X self v = Py.Returns x_valid ->
            label_encoder v = Py.Raises e ->
            conv_train self train_data use_validation valid_data n_epochs
              batch_size early_stop_limit threshold initial_run shuffle
              verbose save_flag w = (Py.Raises e, w))))).
Proof.
  unfold RCCVAE.train, RCCVAE.lift, Py.mbind, Py.ret, Py.raise. split.
  - intros e ->. reflexivity.
  - intros labels ->. split.
    + intros ->. reflexivity.
    + intros ->. split.
      * intros e ->. reflexivity.
      * intros x_train v -> -> ->. split.
        -- intros e ->. reflexivity.
        -- intros x_valid e -> ->. reflexivity.
Qed.

End ConvPersistence.

Section ConcreteConvRuns.

Import Examples.


Lemma train_fails_before_the_fit_without_a_trace_witness :
  RCCVAE.train conv_label_encoder conv_ones_like conv_densify
    conv_reshape_X toy_compose conv_fit conv_fit_own conv_model
    [1; 2]%nat true None 25 32 20 0.0025%Q true true 2 true
    conv_fresh_world =
  (Py.Raises (Py.Exception "valid_data is None but use_validation is True."),
   conv_fresh_world).
Proof.
  apply (proj1 (proj2 (train_fails_before_the_fit_without_a_trace
                         conv_label_encoder conv_ones_like conv_densify
                         conv_reshape_X toy_compose conv_fit conv_fit_own
                         conv_model [1; 2]%nat true None 25 32 20 0.0025%Q
                         true true 2 true conv_fresh_world)
                      [1; 2]%nat eq_refl)).
  reflexivity.
Defined.

End ConcreteConvRuns.
